(** * Verdaccio storage core: local-fs plugin and storage facade

    A shallow embedding of
      - packages/plugins/local-storage/src/local-fs.ts   (LocalFS)
      - packages/store/src/storage.ts                    (Storage)
      - packages/store/src/uplink-util.ts                (hidden uplink mark)
    JavaScript objects used as dictionaries are finite maps, promises and
    error-first callbacks are programs of a small effect monad whose
    commands are the calls into Node and into the libraries the code
    imports, and streams are event-driven state machines. *)

From Stdlib Require Import ZArith List String Ascii Bool Lia.
From stdpp Require Import base option gmap strings list.

Import ListNotations.
Open Scope Z_scope.
Open Scope string_scope.

(** ** JavaScript errors *)

(** [err.code] is a string for Node system errors ('ENOENT') and a number
    for the HTTP errors made by errorUtils. *)
Inductive JsCode : Type :=
| CodeStr (s : string)
| CodeNum (n : Z).

Record JsError : Type := mkError {
  err_name : string;
  message : string;
  code : option JsCode;
  status : option Z;
  remoteStatus : option Z
}.

#[global] Instance JsCode_eq_dec : EqDecision JsCode.
Proof. solve_decision. Defined.

#[global] Instance JsError_eq_dec : EqDecision JsError.
Proof. solve_decision. Defined.

(** Modelled from the spec: the constants of @verdaccio/core are not part
    of the sources at hand.  Spec section 6 gives the HTTP status of each
    error kind. *)
Module HTTP_STATUS.
Definition NOT_FOUND : Z := 404.
Definition CONFLICT : Z := 409.
Definition INTERNAL_ERROR : Z := 500.
Definition SERVICE_UNAVAILABLE : Z := 503.
End HTTP_STATUS.

(** The default messages of the error makers; the properties below do
    not depend on their wording. *)
Module API_ERROR.
Definition NO_PACKAGE : string := "no such package available".
Definition NOT_PACKAGE_UPLINK : string := "package does not exist on uplink".
Definition RESOURCE_UNAVAILABLE : string := "resource unavailable".
Definition UNKNOWN_ERROR : string := "unknown error".
Definition PACKAGE_EXIST : string := "this package is already present".
End API_ERROR.

Module errorUtils.
(** Modelled from the spec: errorUtils of @verdaccio/core is not part of
    the sources at hand.  An error of kind K carries the HTTP status of K
    (spec section 6); storage.ts compares both [err.status] and
    [err.code] with that number, so both carry it.  Each maker takes an
    optional message. *)
Definition getCode (statusCode : Z) (msg : string) : JsError :=
  {| err_name := "Error"; message := msg; code := Some (CodeNum statusCode);
     status := Some statusCode; remoteStatus := None |}.
Definition getInternalError (customMessage : option string) : JsError :=
  getCode HTTP_STATUS.INTERNAL_ERROR
    (default API_ERROR.UNKNOWN_ERROR customMessage).
Definition getNotFound (customMessage : option string) : JsError :=
  getCode HTTP_STATUS.NOT_FOUND (default API_ERROR.NO_PACKAGE customMessage).
Definition getConflict (customMessage : option string) : JsError :=
  getCode HTTP_STATUS.CONFLICT (default API_ERROR.PACKAGE_EXIST customMessage).
Definition getServiceUnavailable (customMessage : option string) : JsError :=
  getCode HTTP_STATUS.SERVICE_UNAVAILABLE
    (default API_ERROR.RESOURCE_UNAVAILABLE customMessage).
End errorUtils.

(** A Node system error such as the ones [fs] rejects with. *)
Definition sysError (c : string) : JsError :=
  {| err_name := "Error"; message := c; code := Some (CodeStr c);
     status := None; remoteStatus := None |}.

(** System errors carry no HTTP status. *)
Definition isSystemError (e : JsError) : Prop := status e = None.

(** What a failed property access on [undefined] throws. *)
Definition TypeError (msg : string) : JsError :=
  {| err_name := "TypeError"; message := msg; code := None;
     status := None; remoteStatus := None |}.

Definition code_is (e : JsError) (c : string) : bool :=
  bool_decide (code e = Some (CodeStr c)).

Definition code_is_num (e : JsError) (n : Z) : bool :=
  bool_decide (code e = Some (CodeNum n)).

(** ** Data model (the Manifest of @verdaccio/types) *)

Record Version : Type := mkVersion {
  version_id : string;
  dist_tarball : option string;
  (** version[Symbol.for('__verdaccio_uplink')] *)
  hidden_uplink : option string
}.

Record DistFile : Type := mkDistFile {
  url : string;
  sha : string
}.

Record UpLinkMeta : Type := mkUpLinkMeta {
  etag : option string;
  fetched : Z
}.

Record Manifest : Type := mkManifest {
  name : string;
  versions : gmap string Version;
  dist_tags : gmap string string;
  time : gmap string string;
  _distfiles : gmap string DistFile;
  _attachments : gmap string string;
  _uplinks : gmap string UpLinkMeta;
  _rev : string;
  users : gmap string bool
}.

#[global] Instance Version_eq_dec : EqDecision Version.
Proof. solve_decision. Defined.
#[global] Instance DistFile_eq_dec : EqDecision DistFile.
Proof. solve_decision. Defined.
#[global] Instance UpLinkMeta_eq_dec : EqDecision UpLinkMeta.
Proof. solve_decision. Defined.
#[global] Instance Manifest_eq_dec : EqDecision Manifest.
Proof. solve_decision. Defined.

(** ** Paths (Node's [path], POSIX flavour) *)

Module path.

Definition sep : ascii := "/"%char.

(** [p.split('/')] *)
Fixpoint split (s : string) : list string :=
  match s with
  | EmptyString => [EmptyString]
  | String c rest =>
      if Ascii.eqb c sep then EmptyString :: split rest
      else match split rest with
           | [] => [String c EmptyString]
           | h :: t => String c h :: t
           end
  end.

(** The segment walk of Node's [normalizeString]: empty and "." segments
    are dropped, ".." removes the segment before it, and is kept only
    when nothing is left to remove and the path is relative.  [acc] holds
    the segments kept so far, last one first. *)
Fixpoint normalizeString (allowAboveRoot : bool) (acc segs : list string)
  : list string :=
  match segs with
  | [] => rev acc
  | s :: rest =>
      if bool_decide (s = "") || bool_decide (s = ".") then
        normalizeString allowAboveRoot acc rest
      else if bool_decide (s = "..") then
        match acc with
        | a :: acc' =>
            if bool_decide (a = "..")
            then normalizeString allowAboveRoot
                   (if allowAboveRoot then ".." :: acc else acc) rest
            else normalizeString allowAboveRoot acc' rest
        | [] =>
            normalizeString allowAboveRoot
              (if allowAboveRoot then [".."] else []) rest
        end
      else normalizeString allowAboveRoot (s :: acc) rest
  end.

Definition isAbsolute (p : string) : bool :=
  match p with
  | String c _ => Ascii.eqb c sep
  | EmptyString => false
  end.

Fixpoint trailingSeparator (p : string) : bool :=
  match p with
  | EmptyString => false
  | String c EmptyString => Ascii.eqb c sep
  | String _ rest => trailingSeparator rest
  end.

(** The normalized segments of a path. *)
Definition segments (p : string) : list string :=
  normalizeString (negb (isAbsolute p)) [] (split p).

Definition normalize (p : string) : string :=
  if bool_decide (p = "") then "."
  else
    let body := String.concat "/" (segments p) in
    if bool_decide (body = "") then
      (if isAbsolute p then "/" else if trailingSeparator p then "./" else ".")
    else
      let body := if trailingSeparator p then body ++ "/" else body in
      if isAbsolute p then "/" ++ body else body.

(** [path.join(a, b)]: the non-empty arguments are glued with "/" and the
    result is normalized. *)
Definition join (a b : string) : string :=
  if bool_decide (a = "") then
    (if bool_decide (b = "") then "." else normalize b)
  else if bool_decide (b = "") then normalize a
  else normalize (a ++ "/" ++ b).

(** [path.dirname(p)] for a path without trailing separators. *)
Definition dirname (p : string) : string :=
  let segs := split p in
  let dir := String.concat "/" (removelast segs) in
  if bool_decide (dir = "") then (if isAbsolute p then "/" else ".") else dir.

(** [p] lies in the directory tree rooted at [root]. *)
Definition inside (root p : string) : bool :=
  bool_decide (segments root `prefix_of` segments p).

End path.

(** No path separator occurs in [s]. *)
Fixpoint noSeparator (s : string) : bool :=
  match s with
  | EmptyString => true
  | String c rest => negb (Ascii.eqb c path.sep) && noSeparator rest
  end.

(** A segment that names an entry: not empty, not "." and not "..". *)
Definition plain (s : string) : Prop := s <> "" /\ s <> "." /\ s <> "..".

(** The shape of the segments [normalizeString] has kept (last one
    first): plain segments, below them ".." segments, and those only in
    a relative path. *)
Definition normalAcc (b : bool) (acc : list string) : Prop :=
  exists k rest, acc = (rest ++ repeat ".." k)%list
                 /\ (b = false -> k = 0%nat) /\ Forall plain rest.

(** ** Asynchronous code as programs over commands

    An awaited promise (or an error-first callback) is a command sent to
    the environment, which answers with a rejection or a value.  A program
    is a finite tree of such commands; [throw] and [try]/[catch] are the
    language's own. *)

(** What a file holds: a manifest written by [_convertToString], or
    anything else. *)
Inductive FileData : Type :=
| JsonText (m : Manifest)
| RawText (s : string).

(** Handle of a stream object. *)
Definition Stream : Type := nat.

Inductive Cmd : Type :=
(* @verdaccio/file-locking *)
| readFileNext (fileName : string)      (* options {lock: true, parse: true} *)
| unlockFileNext (fileName : string)
| readFile (fileName : string)          (* options {lock: true, parse: true} *)
| unlockFile (fileName : string)
(* ./fs, promisified Node fs *)
| openPromise (pathName flags : string)
| writeFilePromise (pathName : string) (data : FileData)
| renamePromise (src dst : string)
| unlinkPromise (pathName : string)
| mkdirPromise (dir : string)
(* String(Math.random()) without its leading "0." *)
| Math_random
(* the callbacks handed to LocalFS.updatePackage by the core *)
| updateHandler (json : Manifest)
| onWrite (pkgName : string) (json : Manifest)
(* AbstractStorage, the base class of Storage *)
| getLocalTarball (pkgName filename : string)
| getPackageLocalMetadata (pkgName : string)
| fetchTarllballFromUpstream (pkgName : string) (tarballUrl : option DistFile)
| syncUplinksMetadataNext (pkgName : string) (data : option Manifest)
    (uplinksLook : option bool)
(* stream/promises *)
| pipeline (source : Stream).

(** A rejection of a promisified [fs] call is a system error, given by
    its errno code. *)
Definition FsResult (X : Type) : Type := string + X.

Definition Resp (c : Cmd) : Type :=
  match c with
  | readFileNext _ | readFile _ => JsError + Manifest
  | unlockFileNext _ | unlockFile _ => JsError + unit
  | openPromise _ _ | writeFilePromise _ _ | renamePromise _ _
  | unlinkPromise _ | mkdirPromise _ => FsResult unit
  | Math_random => string
  | updateHandler _ | onWrite _ _ => option JsError
  | getLocalTarball _ _ => JsError + Stream
  | getPackageLocalMetadata _ => JsError + Manifest
  | fetchTarllballFromUpstream _ _ => JsError + Stream
  | syncUplinksMetadataNext _ _ _ =>
      JsError + (option Manifest * list JsError)
  | pipeline _ => JsError + unit
  end.

Inductive io (A : Type) : Type :=
| Ret (a : A)
| Throw (e : JsError)
| Vis (c : Cmd) (k : Resp c -> io A).

Arguments Ret {A} a.
Arguments Throw {A} e.
Arguments Vis {A} c k.

Fixpoint bind {A B : Type} (p : io A) (f : A -> io B) : io B :=
  match p with
  | Ret a => f a
  | Throw e => Throw e
  | Vis c k => Vis c (fun r => bind (k r) f)
  end.

(** [try { p } catch (err) { h err }] *)
Fixpoint try_catch {A : Type} (p : io A) (h : JsError -> io A) : io A :=
  match p with
  | Ret a => Ret a
  | Throw e => h e
  | Vis c k => Vis c (fun r => try_catch (k r) h)
  end.

Declare Scope io_scope.
Delimit Scope io_scope with io.
Notation "x <- p ;; q" := (bind p (fun x => q))
  (at level 100, p at next level, right associativity) : io_scope.
Notation "p ;; q" := (bind p (fun _ => q))
  (at level 100, right associativity) : io_scope.
Notation "'try' p 'catch' h" := (try_catch p h)
  (at level 100, p at level 99, h at level 99) : io_scope.
Open Scope io_scope.

(** The value of an awaited promise: a rejection is thrown. *)
Definition settle {X : Type} (r : JsError + X) : io X :=
  match r with inl e => Throw e | inr x => Ret x end.

Definition fsResult {X : Type} (r : FsResult X) : JsError + X :=
  match r with inl c => inl (sysError c) | inr x => inr x end.

Definition fsFailure {X : Type} (r : FsResult X) : option JsError :=
  match r with inl c => Some (sysError c) | inr _ => None end.

(** *** Running a program against an environment

    The environment answers every command from its own state.  The run
    returns the outcome, the final state of the environment and the trace
    of commands issued, each with the error it was answered with. *)

Definition failure (c : Cmd) : Resp c -> option JsError :=
  match c with
  | readFileNext _ | readFile _ | unlockFileNext _ | unlockFile _
  | getLocalTarball _ _ | getPackageLocalMetadata _
  | fetchTarllballFromUpstream _ _ | syncUplinksMetadataNext _ _ _
  | pipeline _ =>
      fun r => match r with inl e => Some e | inr _ => None end
  | openPromise _ _ | writeFilePromise _ _ | renamePromise _ _
  | unlinkPromise _ | mkdirPromise _ =>
      fun r => match r with inl c => Some (sysError c) | inr _ => None end
  | Math_random => fun _ => None
  | updateHandler _ | onWrite _ _ => fun r => r
  end.

Definition Event : Type := Cmd * option JsError.

Definition Env (S : Type) : Type := forall c : Cmd, S -> Resp c * S.

Fixpoint run {S A : Type} (env : Env S) (p : io A) (s : S)
  : (JsError + A) * S * list Event :=
  match p with
  | Ret a => (inr a, s, [])
  | Throw e => (inl e, s, [])
  | Vis c k =>
      let '(r, s1) := env c s in
      let '(o, s2, t) := run env (k r) s1 in
      (o, s2, (c, failure c r) :: t)
  end.

Definition outcome {S A : Type} (env : Env S) (p : io A) (s : S) : JsError + A :=
  (run env p s).1.1.

Definition trace {S A : Type} (env : Env S) (p : io A) (s : S) : list Event :=
  (run env p s).2.

(** ** local-fs.ts *)

Definition fileExist : string := "EEXISTS".
Definition noSuchFile : string := "ENOENT".
Definition resourceNotAvailable : string := "EAGAIN".
Definition packageJSONFileName : string := "package.json".

Definition fSError (msg : string) : JsError :=
  let err := errorUtils.getCode 409 msg in
  {| err_name := err_name err; message := message err;
     code := Some (CodeStr msg);
     status := status err; remoteStatus := remoteStatus err |}.

Definition tempFile (str : string) : io string :=
  Vis Math_random (fun r => Ret (str ++ ".tmp" ++ r)).

Module LocalFS.
Section LocalFS.

(** [this.path], the package's storage root. *)
Variable this_path : string.
(** The npm module sanitize-filename, imported as [sanitzers]. *)
Variable sanitzers : string -> string.
(** [process.platform === 'win32'] *)
Variable win32 : bool.

Definition _getStorage (fileName : string) : string :=
  path.join this_path (sanitzers fileName).

Definition _convertToString (value : Manifest) : FileData := JsonText value.

Definition rename (src dst : string) : io unit :=
  Vis (renamePromise src dst) (fun r => settle (fsResult r)).
Definition unlink (pathName : string) : io unit :=
  Vis (unlinkPromise pathName) (fun r => settle (fsResult r)).
Definition writeFile (pathName : string) (data : FileData) : io unit :=
  Vis (writeFilePromise pathName data) (fun r => settle (fsResult r)).
Definition mkdir (dir : string) : io unit :=
  Vis (mkdirPromise dir) (fun r => settle (fsResult r)).
Definition open (pathName flags : string) : io unit :=
  Vis (openPromise pathName flags) (fun r => settle (fsResult r)).

Definition renameTmpNext (src dst : string) : io unit :=
  if negb win32 then
    try rename src dst
    catch (fun _ => unlink src)
  else
    tmp <- tempFile dst ;;
    try (rename dst tmp ;; unlink tmp)
    catch (fun _ => rename src dst).

(** [renameTmp], the deprecated callback twin; the result is the argument
    of [_cb]. *)
Definition renameTmp (src dst : string) : io (option JsError) :=
  let cb (err : option JsError) : io (option JsError) :=
    match err with
    | Some _ => Vis (unlinkPromise src) (fun _ => Ret err)
    | None => Ret err
    end in
  if negb win32 then
    Vis (renamePromise src dst) (fun r => cb (fsFailure r))
  else
    tmp <- tempFile dst ;;
    Vis (renamePromise dst tmp) (fun r1 =>
      Vis (renamePromise src dst) (fun r2 =>
        match r1 with
        | inr _ => Vis (unlinkPromise tmp) (fun _ => cb (fsFailure r2))
        | inl _ => cb (fsFailure r2)
        end)).

Definition writeTempFileAndRename (dest : string) (fileContent : FileData)
  : io unit :=
  tempFilePath <- tempFile dest ;;
  try (writeFile tempFilePath fileContent ;;
       renameTmpNext tempFilePath dest)
  catch (fun err => Throw err).

Definition writeFileNext (destiny : string) (fileContent : FileData) : io unit :=
  try writeTempFileAndRename destiny fileContent
  catch (fun err =>
    if code_is err noSuchFile then
      let dir := path.dirname destiny in
      mkdir dir ;;
      writeTempFileAndRename destiny fileContent
    else Throw err).

Definition _lockAndReadJSONNext (fileBase : string) : io Manifest :=
  let fileName := _getStorage fileBase in
  try Vis (readFileNext fileName) settle
  catch (fun err => Throw err).

Definition _unlockJSONNext (fileBase : string) : io unit :=
  Vis (unlockFileNext (_getStorage fileBase)) settle.

(** The [catch] block of [updatePackageNext]; [locked] is the value the
    flag has when the block is entered. *)
Definition updatePackageNext_catch (locked : bool) (err : JsError)
  : io Manifest :=
  if locked then
    try (_unlockJSONNext packageJSONFileName ;;
         (* after unlock bubble up error. *)
         Throw err)
    catch (fun _ =>
         (* unlock could fail, we bubble up error *)
         Throw (errorUtils.getInternalError (Some "resource temporarily unavailable")))
  else
    if code_is err resourceNotAvailable then
      Throw (errorUtils.getInternalError (Some "resource temporarily unavailable"))
    else if code_is err noSuchFile then
      Throw (errorUtils.getNotFound None)
    else Throw err.

(** [locked] is false until [_lockAndReadJSONNext] has returned and true
    from then on, so the one [try] block is entered by its [catch] with
    [locked = false] from the first statement and [locked = true] from
    the rest. *)
Definition updatePackageNext (packageName : string)
    (handleUpdate : Manifest -> io Manifest) : io Manifest :=
  r <- (try (m <- _lockAndReadJSONNext packageJSONFileName ;; Ret (inr m))
        catch (fun err => Ret (inl err))) ;;
  match r with
  | inl err => updatePackageNext_catch false err
  | inr manifest =>
      try (manifestUpdated <- handleUpdate manifest ;;
           _unlockJSONNext packageJSONFileName ;;
           Ret manifestUpdated)
      catch (updatePackageNext_catch true)
  end.

(** [updatePackage], the deprecated callback twin.  The result is the
    argument [onEnd] is called with. *)
Definition _unlockJSON (fileBase : string) (k : io (option JsError))
  : io (option JsError) :=
  Vis (unlockFile (_getStorage fileBase)) (fun _ => k).

Definition unLockCallback (locked : bool) (lockError : option JsError)
  : io (option JsError) :=
  if locked then
    (* ignore any error from the unlock *)
    _unlockJSON packageJSONFileName (Ret lockError)
  else Ret lockError.

Definition updatePackage (pkgName : string)
    (transformPackage : Manifest -> Manifest) : io (option JsError) :=
  Vis (readFile (_getStorage packageJSONFileName)) (fun r =>
    match r with
    | inl err =>
        let locked := false in
        if code_is err resourceNotAvailable then
          unLockCallback locked
            (Some (errorUtils.getInternalError (Some "resource temporarily unavailable")))
        else if code_is err noSuchFile then
          unLockCallback locked (Some (errorUtils.getNotFound None))
        else unLockCallback locked (Some err)
    | inr json =>
        let locked := true in
        Vis (updateHandler json) (fun e =>
          match e with
          | Some err => unLockCallback locked (Some err)
          | None =>
              Vis (onWrite pkgName (transformPackage json))
                  (unLockCallback locked)
          end)
    end).

Definition createPackageNext (pkgName : string) (manifest : Manifest)
  : io unit :=
  let pathPackage := _getStorage packageJSONFileName in
  (try open pathPackage "wx"
   catch (fun err =>
     (* cannot override a pacakge that already exist *)
     if code_is err "EEXIST" then Throw (fSError fileExist)
     else Ret tt)) ;;
  writeFileNext pathPackage (_convertToString manifest).

Definition savePackageNext (pkgName : string) (value : Manifest) : io unit :=
  writeFileNext (_getStorage packageJSONFileName) (_convertToString value).

End LocalFS.
End LocalFS.

(** ** storage.ts: the promise-based read paths *)

Definition with_dist_tags (m : Manifest) (t : gmap string string) : Manifest :=
  {| name := name m; versions := versions m; dist_tags := t; time := time m;
     _distfiles := _distfiles m; _attachments := _attachments m;
     _uplinks := _uplinks m; _rev := _rev m; users := users m |}.

Definition with_attachments (m : Manifest) (a : gmap string string) : Manifest :=
  {| name := name m; versions := versions m; dist_tags := dist_tags m;
     time := time m; _distfiles := _distfiles m; _attachments := a;
     _uplinks := _uplinks m; _rev := _rev m; users := users m |}.

Definition with_uplinks (m : Manifest) (u : gmap string UpLinkMeta) : Manifest :=
  {| name := name m; versions := versions m; dist_tags := dist_tags m;
     time := time m; _distfiles := _distfiles m;
     _attachments := _attachments m; _uplinks := u; _rev := _rev m;
     users := users m |}.

Definition with_time (m : Manifest) (t : gmap string string) : Manifest :=
  {| name := name m; versions := versions m; dist_tags := dist_tags m;
     time := t; _distfiles := _distfiles m; _attachments := _attachments m;
     _uplinks := _uplinks m; _rev := _rev m; users := users m |}.

(** Modelled from the spec: normalizeDistTags of storage-utils.ts is not
    part of the sources at hand.  Spec 4.4 step 6: "Normalize dist-tags:
    drop any tag whose target version is absent from versions." *)
Definition normalizeDistTags (m : Manifest) : Manifest :=
  with_dist_tags m
    (filter (fun kv : string * string => is_Some (versions m !! kv.2))
            (dist_tags m)).

(** Modelled from the spec: generatePackageTemplate of storage-utils.ts is
    not part of the sources at hand.  Spec 4.4: "a freshly generated empty
    template". *)
Definition generatePackageTemplate (pkgName : string) : Manifest :=
  {| name := pkgName; versions := ∅; dist_tags := ∅; time := ∅;
     _distfiles := ∅; _attachments := ∅; _uplinks := ∅; _rev := "";
     users := ∅ |}.

(** The invariant P7 of the spec. *)
Definition dist_tags_consistent (m : Manifest) : Prop :=
  forall tag v, dist_tags m !! tag = Some v -> is_Some (versions m !! v).

(** [STORAGE] of storage-utils.ts is not part of the sources at hand;
    its constant is the code local-fs.ts exports as [noSuchFile]. *)
Module STORAGE.
Definition NO_SUCH_FILE_ERROR : string := noSuchFile.
End STORAGE.

(** The test by which [getTarballNext] takes an error of the local read
    for a miss. *)
Definition isLocalMiss (err : JsError) : bool :=
  code_is err STORAGE.NO_SUCH_FILE_ERROR || code_is_num err HTTP_STATUS.NOT_FOUND.

(** [!err.status || err.status >= HTTP_STATUS.INTERNAL_ERROR] *)
Definition isInternalFailure (err : JsError) : bool :=
  match status err with
  | None => true
  | Some st => Z.eqb st 0 || Z.leb HTTP_STATUS.INTERNAL_ERROR st
  end.

Module Storage.
Section Storage.

(** [cleanUpLinksRef] of storage-utils.ts, which is not part of the
    sources at hand; the properties below hold for whatever it does. *)
Variable cleanUpLinksRef : Manifest -> option bool -> Manifest.

Definition getTarballNext (pkgName filename : string) : io (option Stream) :=
  localStream <- Vis (getLocalTarball pkgName filename) settle ;;
  try (Vis (pipeline localStream) settle ;;
       (* localTarballStream, the PassThrough fed by localStream *)
       Ret (Some localStream))
  catch (fun err =>
    if isLocalMiss err then
      manifest <- Vis (getPackageLocalMetadata pkgName) settle ;;
      (* _.isNil(err): [err] is the error just caught *)
      let isNil_err := false in
      if isNil_err && bool_decide (is_Some (_distfiles manifest !! filename))
      then
        (* file exist locally *)
        Ret None
      else
        (* we look up at uplinks *)
        let tarballUrl := _distfiles manifest !! filename in
        try (remoteStream <-
               Vis (fetchTarllballFromUpstream pkgName tarballUrl) settle ;;
             Ret (Some remoteStream))
        catch (fun err => Throw err)
    else Throw err).

Definition getPackageNext (pkgName : string) (uplinksLook keepUpLinkData : option bool)
  : io (Manifest * list JsError) :=
  data <- (try (m <- Vis (getPackageLocalMetadata pkgName) settle ;;
                Ret (Some m))
           catch (fun err =>
             (* we don't have package locally, so we need to fetch it
                from uplinks *)
             if isInternalFailure err then Throw err else Ret None)) ;;
  synced <- Vis (syncUplinksMetadataNext pkgName data uplinksLook) settle ;;
  let '(remoteManifest, upLinksErrors) := synced in
  match remoteManifest, data with
  | None, None =>
      Throw (errorUtils.getNotFound
               (Some (API_ERROR.NOT_PACKAGE_UPLINK ++ ": " ++ pkgName)))
  | None, Some data =>
      (* no data on uplinks *)
      Ret (data, upLinksErrors)
  | Some remoteManifest, _ =>
      let normalizedPkg :=
        with_attachments
          (normalizeDistTags (cleanUpLinksRef remoteManifest keepUpLinkData))
          ∅ in
      Ret (normalizedPkg, upLinksErrors)
  end.

End Storage.
End Storage.

(** ** storage.ts: the callback-based methods and the uplink merge *)

(** An uplink ([IProxy]): its name, freshness window and cache flag. *)
Record Uplink : Type := mkUplink {
  upname : string;
  maxage : Z;
  cache : bool
}.

(** What [getRemoteMetadata] calls back with: [(err, upLinkResponse, eTag)]. *)
Record RemoteResult : Type := mkRemote {
  r_err : option JsError;
  r_body : option Manifest;
  r_etag : option string
}.

(** One slot of the array handed on as [uplinkErrors]: [undefined] for an
    uplink that was skipped or merged, the one-element array [[err]] of a
    failed uplink, or (after [_.concat]) the error of a filter. *)
Inductive ErrEntry : Type :=
| NoError
| Errors (errs : list JsError)
| FilterError (err : JsError).

(** The arguments of the final callback, or the exception that escaped a
    handler before it could call back. *)
Inductive SyncResult : Type :=
| Callback (err : option JsError) (result : option Manifest)
    (uplinkErrors : option (list ErrEntry))
| Uncaught (e : JsError).

(** The HTTP status of the error the final callback is called with. *)
Definition callbackStatus (r : SyncResult) : option Z :=
  match r with
  | Callback (Some e) _ _ => status e
  | _ => None
  end.

(** uplink-util.ts *)
Definition updateVersionsHiddenUpLink (vs : gmap string Version) (upLink : Uplink)
  : gmap string Version :=
  (fun v => {| version_id := version_id v; dist_tarball := dist_tarball v;
               hidden_uplink := Some (upname upLink) |}) <$> vs.

Definition with_versions (m : Manifest) (vs : gmap string Version) : Manifest :=
  {| name := name m; versions := vs; dist_tags := dist_tags m;
     time := time m; _distfiles := _distfiles m;
     _attachments := _attachments m; _uplinks := _uplinks m; _rev := _rev m;
     users := users m |}.

Definition isTimeoutCode (e : JsError) : bool :=
  code_is e "ETIMEDOUT" || code_is e "ESOCKETTIMEDOUT" || code_is e "ECONNRESET".

(** The inner loop over [upLinksErrors[i]]: it stops at the first
    timeout-class code. *)
Fixpoint scanErrors (errs : list JsError) : bool :=
  match errs with
  | [] => false
  | e :: rest => if isTimeoutCode e then true (* break *) else scanErrors rest
  end.

(** The outer loop over [upLinksErrors]; [uplinkTimeoutError] is the flag
    so far. *)
Fixpoint scanUplinkErrors (uplinkTimeoutError : bool) (upLinksErrors : list ErrEntry)
  : bool :=
  match upLinksErrors with
  | [] => uplinkTimeoutError
  | entry :: rest =>
      match entry with
      | Errors errs =>
          scanUplinkErrors (if scanErrors errs then true else uplinkTimeoutError) rest
      | NoError | FilterError _ => scanUplinkErrors uplinkTimeoutError rest
      end
  end.

(** A program over the calls to the uplinks:
    [upLink.getRemoteMetadata(name, _options, cb)] is a command, and [cb]
    runs with what the uplink answers. *)
Inductive remote (A : Type) : Type :=
| Finished (a : A)
| GetRemoteMetadata (upLink : Uplink) (name : string) (etag : option string)
    (cb : RemoteResult -> remote A).

Arguments Finished {A} a.
Arguments GetRemoteMetadata {A} upLink name etag cb.

(** A network call: the uplink asked, the package and the etag sent. *)
Definition NetworkCall : Type := Uplink * string * option string.

(** The run of a program against uplinks that answer by [answers]: the
    calls issued, in the order of issue, and the outcome. *)
Fixpoint runRemote {A : Type}
    (answers : Uplink -> string -> option string -> RemoteResult)
    (p : remote A) : list NetworkCall * A :=
  match p with
  | Finished a => ([], a)
  | GetRemoteMetadata upLink name etag cb =>
      let '(calls, a) := runRemote answers (cb (answers upLink name etag)) in
      ((upLink, name, etag) :: calls, a)
  end.

Module StorageCb.
Section StorageCb.

(** [Date.now()], taken to be the same at every read of one run. *)
Variable now : Z.
(** [this.uplinks], in the order of the configuration. *)
Variable uplinks : list Uplink.
(** [hasProxyTo(name, uplink, this.config.packages)] of @verdaccio/config *)
Variable hasProxyTo : string -> string -> bool.
(** The answer of each uplink to [getRemoteMetadata(name, {etag})]. *)
Variable getRemoteMetadata : Uplink -> string -> option string -> RemoteResult.
(** [validatioUtils.validateMetadata]: the error it throws, if any. *)
Variable validateMetadata : Manifest -> string -> option JsError.
(** storage-utils.ts and @verdaccio/core, not part of the sources at hand *)
Variable mergeUplinkTimeIntoLocal : Manifest -> Manifest -> gmap string string.
Variable mergeVersions : Manifest -> Manifest -> JsError + Manifest.
Variable cleanUpLinksRef : Manifest -> option bool -> Manifest.
(** [this.localStorage.updateVersions] and [this.filters] *)
Variable updateVersions : string -> Manifest -> JsError + Manifest.
Variable filters : list (Manifest -> JsError + Manifest).

(** What the iteratee decides before it calls the uplink: [upLinkMeta]
    is the record it read from [packageInfo._uplinks] and keeps a
    reference to, [etag] is [_options.etag]. *)
Inductive Decision : Type :=
| Skip
| Fetch (upLinkMeta : option UpLinkMeta) (etag : option string).

Definition decideUplink (options_etag : option string) (packageInfo : Manifest)
    (upLink : Uplink) : Decision :=
  let upLinkMeta := _uplinks packageInfo !! upname upLink in
  match upLinkMeta with
  | Some meta =>
      (* validatioUtils.isObject(upLinkMeta) *)
      if negb (Z.eqb (fetched meta) 0)
         && Z.ltb (now - fetched meta) (maxage upLink)
      then Skip
      else Fetch upLinkMeta (etag meta)
  | None => Fetch None options_etag
  end.

(** The state the handlers share: [packageInfo] and [found]. *)
Record SyncState : Type := mkSync {
  packageInfo : Manifest;
  found : bool
}.

(** The callback given to [getRemoteMetadata].  It returns the slot it
    passes to [cb], or the exception it dies with. *)
Definition onRemoteMetadata (pkgName : string) (upLink : Uplink)
    (upLinkMeta : option UpLinkMeta) (st : SyncState) (r : RemoteResult)
  : JsError + (SyncState * ErrEntry) :=
  let is304 := match r_err r with
               | Some err => bool_decide (remoteStatus err = Some 304)
               | None => false
               end in
  (* upLinkMeta.fetched = Date.now() *)
  let stamped : JsError + SyncState :=
    if is304 then
      match upLinkMeta with
      | Some meta =>
          inr {| packageInfo :=
                   with_uplinks (packageInfo st)
                     (<[upname upLink :=
                          {| etag := etag meta; fetched := now |}]>
                        (_uplinks (packageInfo st)));
                 found := found st |}
      | None =>
          inl (TypeError "Cannot set properties of undefined (setting 'fetched')")
      end
    else inr st in
  match stamped with
  | inl e => inl e
  | inr st =>
      match r_err r, r_body r with
      | Some err, _ => inr (st, Errors [err])
      | None, None => inr (st, Errors [errorUtils.getInternalError (Some "no data")])
      | None, Some upLinkResponse =>
          match validateMetadata upLinkResponse pkgName with
          | Some err => inr (st, Errors [err])
          | None =>
              let info1 :=
                with_uplinks (packageInfo st)
                  (<[upname upLink := {| etag := r_etag r; fetched := now |}]>
                     (_uplinks (packageInfo st))) in
              let info2 :=
                with_time info1 (mergeUplinkTimeIntoLocal info1 upLinkResponse) in
              let upLinkResponse :=
                with_versions upLinkResponse
                  (updateVersionsHiddenUpLink (versions upLinkResponse) upLink) in
              match mergeVersions info2 upLinkResponse with
              | inl err =>
                  inr ({| packageInfo := info2; found := found st |}, Errors [err])
              | inr info3 =>
                  (* if we got to this point, assume that the correct
                     package exists on the uplink *)
                  inr ({| packageInfo := info3; found := true |}, NoError)
              end
          end
      end
  end.

(** [async.map]: the iteratee runs for every uplink before any uplink
    answers, so each decision is taken on the [packageInfo] the merge
    started with; the answers are then handled one at a time. *)
Fixpoint handleResponses (pkgName : string) (st : SyncState)
    (work : list (Uplink * Decision))
  : JsError + (SyncState * list ErrEntry) :=
  match work with
  | [] => inr (st, [])
  | (upLink, Skip) :: rest =>
      match handleResponses pkgName st rest with
      | inl e => inl e
      | inr (st', errs) => inr (st', NoError :: errs)
      end
  | (upLink, Fetch upLinkMeta etag) :: rest =>
      match onRemoteMetadata pkgName upLink upLinkMeta st
              (getRemoteMetadata upLink pkgName etag) with
      | inl e => inl e
      | inr (st1, entry) =>
          match handleResponses pkgName st1 rest with
          | inl e => inl e
          | inr (st', errs) => inr (st', entry :: errs)
          end
      end
  end.

(** The network calls of a plan, in the order of the uplinks. *)
Definition networkCalls (work : list (Uplink * Decision))
  : list (Uplink * option string) :=
  omap (fun w : Uplink * Decision =>
          match w.2 with
          | Skip => None
          | Fetch _ etag => Some (w.1, etag)
          end) work.

(** The filters run one after the other; a filter that throws leaves
    [packageJsonLocal] as it was. *)
Fixpoint runFilters (fs : list (Manifest -> JsError + Manifest))
    (packageJsonLocal : Manifest) : Manifest * list JsError :=
  match fs with
  | [] => (packageJsonLocal, [])
  | f :: rest =>
      match f packageJsonLocal with
      | inl err =>
          let '(m, errs) := runFilters rest packageJsonLocal in (m, err :: errs)
      | inr m' => runFilters rest m'
      end
  end.

Definition selectUplinks (pkgName : string) (uplinksLook : option bool)
  : list Uplink :=
  let hasToLookIntoUplinks := default true uplinksLook in
  List.filter (fun u => hasProxyTo pkgName (upname u) && hasToLookIntoUplinks)
              uplinks.

Definition planUplinks (pkgName : string) (data : option Manifest)
    (uplinksLook : option bool) (options_etag : option string)
  : list (Uplink * Decision) :=
  let info := default (generatePackageTemplate pkgName) data in
  List.map (fun u => (u, decideUplink options_etag info u))
           (selectUplinks pkgName uplinksLook).

Definition _syncUplinksMetadata (pkgName : string) (data : option Manifest)
    (uplinksLook : option bool) (options_etag : option string)
  : SyncResult :=
  let st0 :=
    match data with
    | Some info => {| packageInfo := info; found := true |}
    | None => {| packageInfo := generatePackageTemplate pkgName; found := false |}
    end in
  let upLinks := selectUplinks pkgName uplinksLook in
  match handleResponses pkgName st0
          (planUplinks pkgName data uplinksLook options_etag) with
  | inl e => Uncaught e
  | inr (st, upLinksErrors) =>
      if negb (found st) then
        if scanUplinkErrors false upLinksErrors then
          Callback (Some (errorUtils.getServiceUnavailable None))
                   None (Some upLinksErrors)
        else
          Callback (Some (errorUtils.getNotFound (Some API_ERROR.NO_PACKAGE)))
                   None (Some upLinksErrors)
      else if bool_decide (upLinks = []) then
        Callback None (Some (packageInfo st)) None
      else
        match updateVersions pkgName (packageInfo st) with
        | inl err => Callback (Some err) None None
        | inr packageJsonLocal =>
            let '(packageJsonLocal, filterErrors) :=
              runFilters filters packageJsonLocal in
            Callback None (Some packageJsonLocal)
              (Some (upLinksErrors ++ (FilterError <$> filterErrors))%list)
        end
  end.

(** The network calls [_syncUplinksMetadata] issues: the uplink called
    and the etag sent. *)
Definition syncCalls (pkgName : string) (data : option Manifest)
    (uplinksLook : option bool) (options_etag : option string)
  : list (Uplink * option string) :=
  networkCalls (planUplinks pkgName data uplinksLook options_etag).

(** *** The merge as a program

    [_syncUplinksMetadata] once more, with the calls to the uplinks as
    commands: the iteratee of [async.map] runs for every selected uplink
    and issues the call unless the uplink is fresh; when the uplinks
    have answered, the answers are handled in the order of the uplinks
    and the final callback runs. *)

(** What the iteratee has left for an uplink when every uplink has
    answered: nothing for an uplink it skipped with [cb()], else the
    record it read from [_uplinks] and the answer to its call. *)
Definition Asked : Type := option (option UpLinkMeta * RemoteResult).

Fixpoint askUplinks {A : Type} (pkgName : string)
    (work : list (Uplink * Decision))
    (k : list (Uplink * Asked) -> remote A) : remote A :=
  match work with
  | [] => k []
  | (upLink, Skip) :: rest =>
      askUplinks pkgName rest (fun asked => k ((upLink, None) :: asked))
  | (upLink, Fetch upLinkMeta etag) :: rest =>
      GetRemoteMetadata upLink pkgName etag (fun r =>
        askUplinks pkgName rest
          (fun asked => k ((upLink, Some (upLinkMeta, r)) :: asked)))
  end.

Fixpoint handleAnswers (pkgName : string) (st : SyncState)
    (asked : list (Uplink * Asked))
  : JsError + (SyncState * list ErrEntry) :=
  match asked with
  | [] => inr (st, [])
  | (upLink, None) :: rest =>
      match handleAnswers pkgName st rest with
      | inl e => inl e
      | inr (st', errs) => inr (st', NoError :: errs)
      end
  | (upLink, Some (upLinkMeta, r)) :: rest =>
      match onRemoteMetadata pkgName upLink upLinkMeta st r with
      | inl e => inl e
      | inr (st1, entry) =>
          match handleAnswers pkgName st1 rest with
          | inl e => inl e
          | inr (st', errs) => inr (st', entry :: errs)
          end
      end
  end.

(** The final callback of [async.map]. *)
Definition onUplinksDone (pkgName : string) (upLinks : list Uplink)
    (handled : JsError + (SyncState * list ErrEntry)) : SyncResult :=
  match handled with
  | inl e => Uncaught e
  | inr (st, upLinksErrors) =>
      if negb (found st) then
        if scanUplinkErrors false upLinksErrors then
          Callback (Some (errorUtils.getServiceUnavailable None))
                   None (Some upLinksErrors)
        else
          Callback (Some (errorUtils.getNotFound (Some API_ERROR.NO_PACKAGE)))
                   None (Some upLinksErrors)
      else if bool_decide (upLinks = []) then
        Callback None (Some (packageInfo st)) None
      else
        match updateVersions pkgName (packageInfo st) with
        | inl err => Callback (Some err) None None
        | inr packageJsonLocal =>
            let '(packageJsonLocal, filterErrors) :=
              runFilters filters packageJsonLocal in
            Callback None (Some packageJsonLocal)
              (Some (upLinksErrors ++ (FilterError <$> filterErrors))%list)
        end
  end.

Definition syncUplinks (pkgName : string) (data : option Manifest)
    (uplinksLook : option bool) (options_etag : option string)
  : remote SyncResult :=
  let st0 :=
    match data with
    | Some info => {| packageInfo := info; found := true |}
    | None => {| packageInfo := generatePackageTemplate pkgName; found := false |}
    end in
  let upLinks := selectUplinks pkgName uplinksLook in
  askUplinks pkgName (planUplinks pkgName data uplinksLook options_etag)
    (fun asked =>
       Finished (onUplinksDone pkgName upLinks (handleAnswers pkgName st0 asked))).

(** The callback [getPackage] gives to [_syncUplinksMetadata]. *)
Definition getPackageSynUpLinksCallback (keepUpLinkData : option bool)
    (synced : SyncResult) : SyncResult :=
  match synced with
  | Uncaught e => Uncaught e
  | Callback (Some err) _ _ => Callback (Some err) None None
  | Callback None None _ =>
      Uncaught (TypeError "Cannot read properties of undefined")
  | Callback None (Some result) uplinkErrors =>
      let result := normalizeDistTags (cleanUpLinksRef result keepUpLinkData) in
      (* npm can throw if this field doesn't exist *)
      let result := with_attachments result ∅ in
      Callback None (Some result) uplinkErrors
  end.

(** [getPackage]: [local] is what [getPackageMetadata] calls back with. *)
Definition getPackage (pkgName : string) (uplinksLook keepUpLinkData : option bool)
    (local : option JsError * option Manifest) : SyncResult :=
  let '(err, data) := local in
  if match err with Some e => isInternalFailure e | None => false end then
    (* report internal errors right away *)
    Callback err None None
  else
    getPackageSynUpLinksCallback keepUpLinkData
      (_syncUplinksMetadata pkgName data uplinksLook None).

(** What the [error] handler of [getTarball] ends with after the local
    stream reported 404 ([err404]): the file to serve, or the error the
    read stream emits. *)
Inductive TarballPlan : Type :=
| ServeFile (file : DistFile)
| EmitError (err : JsError)
| Dies (e : JsError).

Definition getTarball_local404 (pkgName filename : string) (err404 : JsError)
    (local : option JsError * option Manifest) : TarballPlan :=
  let '(err, info) := local in
  let known :=
    match err, info with
    | None, Some info => _distfiles info !! filename
    | _, _ => None
    end in
  match known with
  | Some file =>
      (* information about this file exists locally *)
      ServeFile file
  | None =>
      (* we know nothing about this file, trying to get information
         elsewhere *)
      match _syncUplinksMetadata pkgName info None None with
      | Uncaught e => Dies e
      | Callback (Some err) _ _ => EmitError err
      | Callback None None _ => Dies (TypeError "Cannot read properties of null")
      | Callback None (Some info) _ =>
          match _distfiles info !! filename with
          | None => EmitError err404
          | Some file => ServeFile file
          end
      end
  end.

End StorageCb.
End StorageCb.

(** ** A file system to run the programs against

    Files are a finite map from path to content; directories are not
    modelled and locks never contend.  Requests are served one at a time,
    in the order they are issued. *)

Abbreviation FS := (gmap string FileData).

(** What [JSON.stringify] writes of a manifest: every property with a
    string key.  The mark [updateVersionsHiddenUpLink] sets on a version
    is keyed by the symbol [__verdaccio_uplink], and is not written. *)
Definition withoutSymbols (m : Manifest) : Manifest :=
  with_versions m
    ((fun v => {| version_id := version_id v; dist_tarball := dist_tarball v;
                  hidden_uplink := None |}) <$> versions m).

(** [JSON.parse] on what a file holds.  [JsonText m] is the text
    [JSON.stringify] made of [m], and parses to [m] without its
    symbol-keyed marks; anything else (the empty file an exclusive open
    leaves, a torn or foreign text) is a SyntaxError. *)
Definition JSON_parse (res : FileData) : JsError + Manifest :=
  match res with
  | JsonText m => inr (withoutSymbols m)
  | RawText _ => inl (mkError "SyntaxError" "Unexpected token" None None None)
  end.

Definition fsEnv : Env FS := fun c fs =>
  match c as c0 return Resp c0 * FS with
  | readFileNext f =>
      (match fs !! f with
       | Some res => JSON_parse res
       | None => inl (sysError noSuchFile)
       end, fs)
  | readFile f =>
      (match fs !! f with
       | Some res => JSON_parse res
       | None => inl (sysError noSuchFile)
       end, fs)
  | unlockFileNext _ => (inr tt, fs)
  | unlockFile _ => (inr tt, fs)
  | openPromise p flags =>
      if bool_decide (flags = "wx") && bool_decide (is_Some (fs !! p))
      then (inl "EEXIST", fs)
      else (inr tt, <[p := RawText ""]> fs)
  | writeFilePromise p d => (inr tt, <[p := d]> fs)
  | renamePromise src dst =>
      match fs !! src with
      | Some d => (inr tt, <[dst := d]> (delete src fs))
      | None => (inl noSuchFile, fs)
      end
  | unlinkPromise p =>
      match fs !! p with
      | Some _ => (inr tt, delete p fs)
      | None => (inl noSuchFile, fs)
      end
  | mkdirPromise _ => (inr tt, fs)
  | Math_random => ("4711", fs)
  | updateHandler _ => (None, fs)
  | onWrite _ _ => (None, fs)
  | getLocalTarball _ _ => (inl (sysError noSuchFile), fs)
  | getPackageLocalMetadata _ => (inl (sysError noSuchFile), fs)
  | fetchTarllballFromUpstream _ _ => (inl (sysError noSuchFile), fs)
  | syncUplinksMetadataNext _ _ _ => (inl (sysError noSuchFile), fs)
  | pipeline _ => (inl (sysError noSuchFile), fs)
  end.

(** The file system after a program has run. *)
Definition fsAfter {A : Type} (p : io A) (fs : FS) : FS := (run fsEnv p fs).1.2.

(** A chunk written through an open descriptor lands in the file the
    path still names. *)
Definition appendFile (fs : FS) (p chunk : string) : FS :=
  match fs !! p with
  | Some (RawText s) => <[p := RawText (s ++ chunk)]> fs
  | _ => fs
  end.

(** ** Tarball uploads as event-driven machines *)

(** The listeners the code attaches to the [close] event of the file
    stream. *)
Inductive CloseListener : Type :=
| RenameOnClose        (* renameTmp / renameTmpNext (temporalName, pathName) *)
| RemoveOnClose.       (* removeTempFile() *)

(** *** writeTarball (deprecated, callback-based) *)

Module UploadTarball.

Inductive Emitted : Type :=
| EmitOpen
| EmitError (e : JsError)
| EmitSuccess.

#[global] Instance Emitted_eq_dec : EqDecision Emitted.
Proof. solve_decision. Defined.

Record State : Type := mkState {
  accessed : bool;            (* the fs.access callback has run *)
  file : bool;                (* [file] exists: createWriteStream was called *)
  _ended : bool;
  opened : bool;
  fd : bool;                  (* the descriptor of [file] is open *)
  file_ended : bool;          (* file.end() was called *)
  file_closed : bool;
  onend : bool;               (* uploadStream.on('end', onend) *)
  file_onClose : list CloseListener;
  emitted : list Emitted      (* what uploadStream has emitted *)
}.

Definition init : State :=
  mkState false false false false false false false false [] [].

(** What happens to an upload: callbacks and events of Node, and the
    calls of its user. *)
Inductive Action : Type :=
| AccessCallback          (* fs.access calls back *)
| FileOpen                (* file emits 'open' *)
| Data (chunk : string)   (* a chunk is piped into file and written *)
| SourceEnd               (* uploadStream emits 'end' *)
| Done                    (* uploadStream.done() *)
| Abort                   (* uploadStream.abort() *)
| FileClose.              (* file emits 'close' *)

Section UploadTarball.

Variable this_path : string.
Variable sanitzers : string -> string.
Variable win32 : bool.

Definition pathName (fileName : string) : string :=
  LocalFS._getStorage this_path sanitzers fileName.

(** [rand] is [String(Math.random())] without its leading "0." *)
Definition temporalName (fileName rand : string) : string :=
  path.join this_path (fileName ++ ".tmp-" ++ rand).

Definition removeTempFile (fileName rand : string) (fs : FS) : FS :=
  fsAfter (Vis (unlinkPromise (temporalName fileName rand)) (fun _ => Ret tt)) fs.

Definition runCloseListener (fileName rand : string) (l : CloseListener)
    (st : FS * list Emitted) : FS * list Emitted :=
  let '(fs, out) := st in
  match l with
  | RenameOnClose =>
      let prog := LocalFS.renameTmp win32 (temporalName fileName rand)
                    (pathName fileName) in
      match run fsEnv prog fs with
      | (inr (Some err), fs', _) => (fs', out ++ [EmitError err])%list
      | (inr None, fs', _) => (fs', out ++ [EmitSuccess])%list
      | (inl _, fs', _) => (fs', out)
      end
  | RemoveOnClose => (removeTempFile fileName rand fs, out)
  end.

Definition step (fileName rand : string) (a : Action) (w : FS * State)
  : option (FS * State) :=
  let '(fs, s) := w in
  match a with
  | AccessCallback =>
      if accessed s then None
      else
        let exists_ := bool_decide (is_Some (fs !! pathName fileName)) in
        if exists_ then
          Some (fs, mkState true (file s) (_ended s) (opened s) (fd s)
                      (file_ended s) (file_closed s) (onend s) (file_onClose s)
                      (emitted s ++ [EmitError (fSError fileExist)])%list)
        else
          Some (fs, mkState true true (_ended s) (opened s) (fd s)
                      (file_ended s) (file_closed s) (onend s) (file_onClose s)
                      (emitted s))
  | FileOpen =>
      if file s && negb (fd s) && negb (file_closed s) then
        Some (<[temporalName fileName rand := RawText ""]> fs,
              mkState (accessed s) (file s) (_ended s) true true
                (file_ended s) (file_closed s) (onend s) (file_onClose s)
                (emitted s ++ [EmitOpen])%list)
      else None
  | Data chunk =>
      if fd s && negb (file_ended s) && negb (_ended s) then
        Some (appendFile fs (temporalName fileName rand) chunk, s)
      else None
  | SourceEnd =>
      if _ended s then None
      else
        (* listeners of 'end': _ended = 1; the pipe ends [file]; onend *)
        Some (fs, mkState (accessed s) (file s) true (opened s) (fd s)
                    (file_ended s || file s) (file_closed s) (onend s)
                    (if onend s then (file_onClose s ++ [RenameOnClose])%list
                     else file_onClose s)
                    (emitted s))
  | Done =>
      if file s then
        if _ended s then
          Some (fs, mkState (accessed s) (file s) (_ended s) (opened s) (fd s)
                      true (file_closed s) (onend s)
                      (file_onClose s ++ [RenameOnClose])%list (emitted s))
        else
          Some (fs, mkState (accessed s) (file s) (_ended s) (opened s) (fd s)
                      (file_ended s) (file_closed s) true (file_onClose s)
                      (emitted s))
      else None
  | Abort =>
      if file s then
        if opened s then
          Some (fs, mkState (accessed s) (file s) (_ended s) false (fd s)
                      true (file_closed s) (onend s)
                      (file_onClose s ++ [RemoveOnClose])%list (emitted s))
        else
          (* if the file does not recieve any byte never is opened and
             has to be removed anyway. *)
          Some (removeTempFile fileName rand fs,
                mkState (accessed s) (file s) (_ended s) (opened s) (fd s)
                  true (file_closed s) (onend s) (file_onClose s) (emitted s))
      else None
  | FileClose =>
      if fd s && file_ended s && negb (file_closed s) then
        let '(fs', out) :=
          fold_left (fun acc l => runCloseListener fileName rand l acc)
                    (file_onClose s) (fs, emitted s) in
        Some (fs', mkState (accessed s) (file s) (_ended s) (opened s) false
                     (file_ended s) true (onend s) (file_onClose s) out)
      else None
  end.

(** Several uploads share the file system.  A schedule names, step by
    step, the upload that moves and what happens to it. *)
Record Upload : Type := mkUpload {
  up_name : string;
  up_rand : string;
  up_state : State
}.

Definition newUpload (fileName rand : string) : Upload :=
  mkUpload fileName rand init.

Definition stepAt (i : nat) (a : Action) (w : FS * list Upload)
  : option (FS * list Upload) :=
  let '(fs, ups) := w in
  match ups !! i with
  | None => None
  | Some u =>
      match step (up_name u) (up_rand u) a (fs, up_state u) with
      | None => None
      | Some (fs', s') =>
          Some (fs', <[i := mkUpload (up_name u) (up_rand u) s']> ups)
      end
  end.

Fixpoint runSchedule (sched : list (nat * Action)) (w : FS * list Upload)
  : option (FS * list Upload) :=
  match sched with
  | [] => Some w
  | (i, a) :: rest =>
      match stepAt i a w with
      | None => None
      | Some w' => runSchedule rest w'
      end
  end.

Definition succeeded (u : Upload) : bool :=
  bool_decide (EmitSuccess ∈ emitted (up_state u)).

Definition conflicted (u : Upload) : bool :=
  bool_decide (EmitError (fSError fileExist) ∈ emitted (up_state u)).

End UploadTarball.
End UploadTarball.

(** *** writeTarballNext (promise-based, with an abort signal) *)

Module WriteTarballNext.

Record State : Type := mkState {
  opened : bool;
  ended : bool;                (* writeStream.end() was called *)
  aborted : bool;              (* the signal has fired *)
  destroyed : bool;            (* addAbortSignal destroyed the stream *)
  errorPending : bool;         (* 'error' is still to be emitted *)
  closed : bool;
  onClose : list CloseListener (* listeners of 'close', oldest first *)
}.

(** The stream as [writeTarballNext] returns it: the listener that
    renames the staging file is attached to [close] from the start. *)
Definition init : State :=
  mkState false false false false false false [RenameOnClose].

Inductive Action : Type :=
| FileOpen                (* writeStream emits 'open' *)
| Data (chunk : string)   (* a chunk is written *)
| End                     (* writeStream.end() *)
| SignalAbort             (* the signal emits 'abort' *)
| ErrorEvent              (* writeStream emits 'error' *)
| CloseEvent.             (* writeStream emits 'close' *)

Section WriteTarballNext.

Variable this_path : string.
Variable sanitzers : string -> string.
Variable win32 : bool.

Definition pathName (pkgName : string) : string :=
  LocalFS._getStorage this_path sanitzers pkgName.

Definition temporalName (pkgName rand : string) : string :=
  path.join this_path (pkgName ++ ".tmp-" ++ rand).

Definition removeTempFile (pkgName rand : string) (fs : FS) : FS :=
  fsAfter (LocalFS.unlink (temporalName pkgName rand)) fs.

Definition runCloseListener (pkgName rand : string) (fs : FS) (l : CloseListener)
  : FS :=
  match l with
  | RenameOnClose =>
      fsAfter (try LocalFS.renameTmpNext win32 (temporalName pkgName rand)
                     (pathName pkgName)
               catch (fun _ => (* console.error *) Ret tt)) fs
  | RemoveOnClose => removeTempFile pkgName rand fs
  end.

Definition step (pkgName rand : string) (a : Action) (w : FS * State)
  : option (FS * State) :=
  let '(fs, s) := w in
  match a with
  | FileOpen =>
      (* the open that was pending when the stream was destroyed still
         completes, and 'open' is emitted *)
      if negb (opened s) && negb (closed s) then
        Some (<[temporalName pkgName rand := RawText ""]> fs,
              mkState true (ended s) (aborted s) (destroyed s)
                (errorPending s) (closed s) (onClose s))
      else None
  | Data chunk =>
      if opened s && negb (destroyed s) && negb (ended s) then
        Some (appendFile fs (temporalName pkgName rand) chunk, s)
      else None
  | End =>
      if negb (ended s) && negb (destroyed s) then
        Some (fs, mkState (opened s) true (aborted s) (destroyed s)
                    (errorPending s) (closed s) (onClose s))
      else None
  | SignalAbort =>
      if negb (aborted s) && negb (closed s) then
        (* first listener: addAbortSignal destroys the stream; second
           listener: if upload is aborted, we clean up the temporal file *)
        if opened s then
          Some (fs, mkState (opened s) (ended s) true true true (closed s)
                      (onClose s ++ [RemoveOnClose])%list)
        else
          Some (removeTempFile pkgName rand fs,
                mkState (opened s) (ended s) true true true (closed s)
                  (onClose s))
      else None
  | ErrorEvent =>
      if errorPending s then
        if opened s then
          Some (fs, mkState (opened s) (ended s) (aborted s) (destroyed s)
                      false (closed s) (onClose s ++ [RemoveOnClose])%list)
        else
          Some (removeTempFile pkgName rand fs,
                mkState (opened s) (ended s) (aborted s) (destroyed s)
                  false (closed s) (onClose s))
      else None
  | CloseEvent =>
      if negb (closed s)
         && ((destroyed s && negb (errorPending s))
             || (ended s && opened s && negb (destroyed s)))
      then
        Some (fold_left (runCloseListener pkgName rand) (onClose s) fs,
              mkState (opened s) (ended s) (aborted s) (destroyed s)
                (errorPending s) true (onClose s))
      else None
  end.

Fixpoint runActions (pkgName rand : string) (acts : list Action) (w : FS * State)
  : option (FS * State) :=
  match acts with
  | [] => Some w
  | a :: rest =>
      match step pkgName rand a w with
      | None => None
      | Some w' => runActions pkgName rand rest w'
      end
  end.

End WriteTarballNext.
End WriteTarballNext.

(** Modelled from the spec: sanitize-filename is an npm dependency and
    not part of the sources at hand.  Spec 4.3: filenames "are sanitized
    to strip path separators and null bytes". *)
Definition isSeparatorOrNull (c : ascii) : bool :=
  Ascii.eqb c "/"%char || Ascii.eqb c "\"%char || Ascii.eqb c "000"%char.

Fixpoint stripSeparators (s : string) : string :=
  match s with
  | EmptyString => EmptyString
  | String c rest =>
      if isSeparatorOrNull c then stripSeparators rest
      else String c (stripSeparators rest)
  end.


(** A scripted environment for the collaborators of [Storage]: it answers
    each of them with a fixed result and keeps no state. *)
Record StorageWorld : Type := mkWorld {
  localTarball : JsError + Stream;
  piped : JsError + unit;
  localManifest : JsError + Manifest;
  upstream : option DistFile -> JsError + Stream;
  synced : JsError + (option Manifest * list JsError)
}.

Definition storageEnv (w : StorageWorld) : Env unit := fun c s =>
  match c as c0 return Resp c0 * unit with
  | readFileNext _ => (inl (sysError noSuchFile), s)
  | readFile _ => (inl (sysError noSuchFile), s)
  | unlockFileNext _ => (inr tt, s)
  | unlockFile _ => (inr tt, s)
  | openPromise _ _ => (inr tt, s)
  | writeFilePromise _ _ => (inr tt, s)
  | renamePromise _ _ => (inr tt, s)
  | unlinkPromise _ => (inr tt, s)
  | mkdirPromise _ => (inr tt, s)
  | Math_random => ("4711", s)
  | updateHandler _ => (None, s)
  | onWrite _ _ => (None, s)
  | getLocalTarball _ _ => (localTarball w, s)
  | getPackageLocalMetadata _ => (localManifest w, s)
  | fetchTarllballFromUpstream _ tarballUrl => (upstream w tarballUrl, s)
  | syncUplinksMetadataNext _ _ _ => (synced w, s)
  | pipeline _ => (piped w, s)
  end.

(** [p] throws only errors that satisfy [P], whatever the environment
    answers. *)
Fixpoint throws_only {A : Type} (P : JsError -> Prop) (p : io A) : Prop :=
  match p with
  | Ret _ => True
  | Throw e => P e
  | Vis c k => forall r, throws_only P (k r)
  end.

(** ** local-fs.ts: reads, checks and the callback twins of the writers *)

(** [fs.Stats], as far as the code looks at it. *)
Record Stats : Type := mkStats {
  isFile : bool
}.

Module LocalFSRead.
Section LocalFSRead.

Variable this_path : string.
Variable sanitzers : string -> string.
(** The answers of the promisified [fs.stat], [fs.access] and
    [fs.readFile] of ./fs. *)
Variable statPromise : string -> FsResult Stats.
Variable accessPromise : string -> FsResult unit.
Variable readFilePromise : string -> FsResult FileData.

Definition hasPackage : JsError + bool :=
  let pathName := LocalFS._getStorage this_path sanitzers packageJSONFileName in
  match statPromise pathName with
  | inr stat => inr (isFile stat)
  | inl c =>
      if code_is (sysError c) noSuchFile then inr false
      else inl (errorUtils.getInternalError
                  (Some "error on verify a package exist"))
  end.

Definition hasTarball (fileName : string) : bool :=
  let pathName := LocalFS._getStorage this_path sanitzers fileName in
  match accessPromise pathName with
  | inr _ => true
  | inl _ => false
  end.

Definition _readStorageFile (fileName : string) : JsError + FileData :=
  match readFilePromise fileName with
  | inr res => inr res
  | inl c => inl (sysError c)
  end.

Definition readPackageNext (pkgName : string) : JsError + Manifest :=
  match _readStorageFile
          (LocalFS._getStorage this_path sanitzers packageJSONFileName) with
  | inr res =>
      match JSON_parse res with
      | inr data => inr data
      | inl err => inl err
      end
  | inl err => inl err
  end.

(** [readPackage], the callback twin: the arguments of [cb]. *)
Definition readPackage (pkgName : string) : option JsError * option Manifest :=
  match _readStorageFile
          (LocalFS._getStorage this_path sanitzers packageJSONFileName) with
  | inr res =>
      match JSON_parse res with
      | inr data => (None, Some data)
      | inl err => (Some err, None)
      end
  | inl err => (Some err, None)
  end.

End LocalFSRead.
End LocalFSRead.

(** The deprecated callback twins [_writeFile], [_createFile],
    [createPackage] and [savePackage], and [deletePackage]. *)
Module LocalFSCb.
Section LocalFSCb.

Variable this_path : string.
Variable sanitzers : string -> string.
Variable win32 : bool.

(** [createTempFile], the helper inside [_writeFile]; the result is the
    argument of its callback. *)
Definition createTempFile (dest : string) (data : FileData)
  : io (option JsError) :=
  tempFilePath <- tempFile dest ;;
  Vis (writeFilePromise tempFilePath data) (fun r =>
    match fsFailure r with
    | Some err => Ret (Some err)
    | None => LocalFS.renameTmp win32 tempFilePath dest
    end).

Definition _writeFile (dest : string) (data : FileData) : io (option JsError) :=
  err <- createTempFile dest data ;;
  match err with
  | Some e =>
      if code_is e noSuchFile then
        Vis (mkdirPromise (path.dirname dest)) (fun r =>
          match fsFailure r with
          | Some err => Ret (Some err)
          | None => createTempFile dest data
          end)
      else Ret err
  | None => Ret err
  end.

Definition _createFile (fileName : string) (contents : FileData)
  : io (option JsError) :=
  Vis (openPromise fileName "wx") (fun r =>
    match fsFailure r with
    | Some err =>
        (* native EEXIST used here to check exception on fs.open *)
        if code_is err "EEXIST" then Ret (Some (fSError fileExist))
        else _writeFile fileName contents
    | None => _writeFile fileName contents
    end).

Definition createPackage (pkgName : string) (manifest : Manifest)
  : io (option JsError) :=
  _createFile (LocalFS._getStorage this_path sanitzers packageJSONFileName)
    (LocalFS._convertToString manifest).

Definition savePackage (pkgName : string) (value : Manifest)
  : io (option JsError) :=
  _writeFile (LocalFS._getStorage this_path sanitzers packageJSONFileName)
    (LocalFS._convertToString value).

(** [deletePackage(packageName)] removes the file of that name in the
    package's directory. *)
Definition deletePackage (packageName : string) : io unit :=
  LocalFS.unlink (LocalFS._getStorage this_path sanitzers packageName).

End LocalFSCb.
End LocalFSCb.

(** *** A disk with directories

    A file can be created in a directory that exists only; [mkdir] is
    recursive and never fails.  The answers are otherwise those of
    [fsEnv]. *)

Record Disk : Type := mkDisk {
  dirs : gset string;
  files : gmap string FileData
}.

Definition diskEnv : Env Disk := fun c d =>
  match c as c0 return Resp c0 * Disk with
  | readFileNext f =>
      (match files d !! f with
       | Some res => JSON_parse res
       | None => inl (sysError noSuchFile)
       end, d)
  | readFile f =>
      (match files d !! f with
       | Some res => JSON_parse res
       | None => inl (sysError noSuchFile)
       end, d)
  | unlockFileNext _ => (inr tt, d)
  | unlockFile _ => (inr tt, d)
  | openPromise p flags =>
      if negb (bool_decide (path.dirname p ∈ dirs d)) then (inl noSuchFile, d)
      else if bool_decide (flags = "wx") && bool_decide (is_Some (files d !! p))
      then (inl "EEXIST", d)
      else (inr tt, mkDisk (dirs d) (<[p := RawText ""]> (files d)))
  | writeFilePromise p data =>
      if bool_decide (path.dirname p ∈ dirs d)
      then (inr tt, mkDisk (dirs d) (<[p := data]> (files d)))
      else (inl noSuchFile, d)
  | renamePromise src dst =>
      match files d !! src with
      | Some data =>
          if bool_decide (path.dirname dst ∈ dirs d)
          then (inr tt, mkDisk (dirs d) (<[dst := data]> (delete src (files d))))
          else (inl noSuchFile, d)
      | None => (inl noSuchFile, d)
      end
  | unlinkPromise p =>
      match files d !! p with
      | Some _ => (inr tt, mkDisk (dirs d) (delete p (files d)))
      | None => (inl noSuchFile, d)
      end
  | mkdirPromise dir => (inr tt, mkDisk ({[ dir ]} ∪ dirs d) (files d))
  | Math_random => ("4711", d)
  | updateHandler _ => (None, d)
  | onWrite _ _ => (None, d)
  | getLocalTarball _ _ => (inl (sysError noSuchFile), d)
  | getPackageLocalMetadata _ => (inl (sysError noSuchFile), d)
  | fetchTarllballFromUpstream _ _ => (inl (sysError noSuchFile), d)
  | syncUplinksMetadataNext _ _ _ => (inl (sysError noSuchFile), d)
  | pipeline _ => (inl (sysError noSuchFile), d)
  end.

(** The disk after a program has run on it. *)
Definition diskAfter {A : Type} (p : io A) (d : Disk) : Disk :=
  (run diskEnv p d).1.2.

(** What [fs.stat] and [fs.readFile] answer on a disk. *)
Definition diskStat (d : Disk) (p : string) : FsResult Stats :=
  match files d !! p with
  | Some _ => inr (mkStats true)
  | None => if bool_decide (p ∈ dirs d) then inr (mkStats false)
            else inl noSuchFile
  end.

Definition diskReadFile (d : Disk) (p : string) : FsResult FileData :=
  match files d !! p with
  | Some res => inr res
  | None => if bool_decide (p ∈ dirs d) then inl "EISDIR" else inl noSuchFile
  end.

(** A file system whose staging area and targets lie on different
    devices: every rename fails with EXDEV, the rest is [fsEnv]. *)
Definition crossDeviceEnv : Env FS := fun c fs =>
  match c as c0 return Resp c0 * FS with
  | renamePromise _ _ => (inl "EXDEV", fs)
  | c0 => fsEnv c0 fs
  end.

(** A file system on which a lock cannot be released: every unlock
    fails with EBUSY, the rest is [fsEnv]. *)
Definition stuckLockEnv : Env FS := fun c fs =>
  match c as c0 return Resp c0 * FS with
  | unlockFileNext _ => (inl (sysError "EBUSY"), fs)
  | unlockFile _ => (inl (sysError "EBUSY"), fs)
  | c0 => fsEnv c0 fs
  end.

(** [p] returns only values that satisfy [P], whatever the environment
    answers. *)
Fixpoint returns_only {A : Type} (P : A -> Prop) (p : io A) : Prop :=
  match p with
  | Ret a => P a
  | Throw _ => True
  | Vis c k => forall r, returns_only P (k r)
  end.

(** ** storage.ts: a package by version, by tag or whole *)

(** [IGetPackageOptionsNext], as far as these methods read it. *)
Record IGetPackageOptionsNext : Type := mkOptions {
  opt_name : string;
  opt_version : option string;
  opt_uplinksLook : option bool;
  opt_keepUpLinkData : option bool
}.

Module StorageByOptions.
Section StorageByOptions.

Variable cleanUpLinksRef : Manifest -> option bool -> Manifest.
(** [getVersion] of ./versions-utils, the two converters of
    @verdaccio/tarball (the request options and the URL prefix are
    fixed) and a message of @verdaccio/core, none of which is part of
    the sources at hand. *)
Variable getVersion : gmap string Version -> string -> option Version.
Variable convertDistVersionToLocalTarballsUrl : string -> Version -> Version.
Variable convertDistRemoteToLocalTarballUrls : Manifest -> Manifest.
Variable VERSION_NOT_EXIST : string.

Definition getPackageNext (options : IGetPackageOptionsNext)
  : io (Manifest * list JsError) :=
  Storage.getPackageNext cleanUpLinksRef (opt_name options)
    (opt_uplinksLook options) (opt_keepUpLinkData options).

(** [errorUtils.getNotFound(`${API_ERROR.VERSION_NOT_EXIST}: ${queryVersion}`)];
    a version that is not set prints as "undefined". *)
Definition versionNotExist (queryVersion : option string) : JsError :=
  errorUtils.getNotFound
    (Some (VERSION_NOT_EXIST ++ ": " ++ default "undefined" queryVersion)).

Definition getPackageByVersion (options : IGetPackageOptionsNext) : io Version :=
  match opt_version options with
  | None => Throw (versionNotExist None)
  | Some queryVersion =>
      (* we have version, so we need to return specific version *)
      r <- getPackageNext options ;;
      let convertedManifest := r.1 in
      match getVersion (versions convertedManifest) queryVersion with
      | Some version =>
          Ret (convertDistVersionToLocalTarballsUrl (name convertedManifest) version)
      | None =>
          (* the version could be a dist-tag eg: beta, alpha, so we find
             the matched version on disg-tag list; a manifest always has
             its dist-tags here, so the test on them is not a case *)
          match dist_tags convertedManifest !! queryVersion with
          | Some matchedDisTagVersion =>
              match getVersion (versions convertedManifest) matchedDisTagVersion with
              | Some disTagVersion =>
                  Ret (convertDistVersionToLocalTarballsUrl
                         (name convertedManifest) disTagVersion)
              | None => Throw (versionNotExist (Some queryVersion))
              end
          | None =>
              (* we didn't find the version, not found error *)
              Throw (versionNotExist (Some queryVersion))
          end
      end
  end.

Definition getPackageManifest (options : IGetPackageOptionsNext) : io Manifest :=
  r <- getPackageNext options ;;
  Ret (convertDistRemoteToLocalTarballUrls r.1).

Definition getPackageByOptions (options : IGetPackageOptionsNext)
  : io (Manifest + Version) :=
  match opt_version options with
  | Some _ => v <- getPackageByVersion options ;; Ret (inr v)
  | None => m <- getPackageManifest options ;; Ret (inl m)
  end.

End StorageByOptions.
End StorageByOptions.

(** ** storage.ts: the list of local packages *)

(** A version as [getLocalDatabase] hands it on: the entry of [versions]
    with the two fields it sets on it. *)
Record LocalVersion : Type := mkLocalVersion {
  lv_version : Version;
  lv_time : option string;
  lv_users : gmap string bool
}.

Module LocalDatabase.
Section LocalDatabase.

(** [this.localStorage.storagePlugin], null or a plugin whose [get()]
    resolves with the names of the local packages or rejects, and what
    [this.localStorage.getPackageMetadata] calls back with. *)
Variable storagePlugin : option (JsError + list string).
Variable getPackageMetadata : string -> JsError + Manifest.

(** The entry the callback of [getPackageMetadata] pushes, if any. *)
Definition latestVersion (pkgMetadata : Manifest) : option LocalVersion :=
  match dist_tags pkgMetadata !! "latest" with
  | Some latest =>
      if bool_decide (latest = "") then None
      else
        match versions pkgMetadata !! latest with
        | Some version =>
            Some {| lv_version := version;
                    lv_time := time pkgMetadata !! latest;
                    lv_users := users pkgMetadata |}
        | None => None
        end
  | None => None
  end.

(** The inner function [getPackage(itemPkg)]; the result is the list
    [callback] is called with, and [None] when it is never called.
    [fuel] bounds the chain of calls. *)
Fixpoint getPackage (fuel : nat) (locals : list string) (packages : list LocalVersion)
    (itemPkg : nat) : option (list LocalVersion) :=
  match fuel with
  | O => None
  | S fuel =>
      match locals !! itemPkg with
      | None => None
      | Some pkgName =>
          let packages :=
            match getPackageMetadata pkgName with
            | inr pkgMetadata =>
                match latestVersion pkgMetadata with
                | Some version => (packages ++ [version])%list
                | None => packages
                end
            | inl _ => packages
            end in
          if bool_decide (length locals - 1 <= itemPkg)%nat then Some packages
          else getPackage fuel locals packages (itemPkg + 1)%nat
      end
  end.

(** The arguments [callback] is called with, or [None] when it is not
    called. *)
Definition getLocalDatabase : option (option JsError * list LocalVersion) :=
  match storagePlugin with
  | None => None
  | Some (inl err) => Some (Some err, [])
  | Some (inr locals) =>
      if bool_decide (length locals = 0%nat) then Some (None, [])
      else
        match getPackage (length locals) locals [] 0 with
        | Some packages => Some (None, packages)
        | None => None
        end
  end.

End LocalDatabase.
End LocalDatabase.

(** ** uplink-util.ts: the promise-era twin *)

Definition markUplink (upLink : Uplink) (v : Version) : Version :=
  {| version_id := version_id v; dist_tarball := dist_tarball v;
     hidden_uplink := Some (upname upLink) |}.

Definition updateVersionsHiddenUpLinkNext (manifest : Manifest) (upLink : Uplink)
  : Manifest :=
  let versions := versions manifest in
  let versionsList := (map_to_list versions).*1 in
  if bool_decide (length versionsList = 0%nat) then manifest
  else
    with_versions manifest
      (foldl (fun vs version => alter (markUplink upLink) version vs)
             versions versionsList).

(** ** memory-handler.ts *)

Module MemoryHandler.

(** [DataHandler], the type of [this.data] *)
Abbreviation DataHandler := (gmap string string).

Section MemoryHandler.

(** [Package] of @verdaccio/types and the two helpers of ./utils, which
    are not part of the sources at hand.  [parsePackage] gets what
    [this.data[name]] holds, which is [undefined] for a missing key; each
    of the two may throw. *)
Variable Package : Type.
Variable parsePackage : option string -> JsError + Package.
Variable stringifyPackage : Package -> JsError + string.

Definition _getStorage (data : DataHandler) (name : string) : option string :=
  data !! name.

(** [savePackage]: the data afterwards and the argument of [cb]. *)
Definition savePackage (data : DataHandler) (name : string) (value : Package)
  : DataHandler * option JsError :=
  match stringifyPackage value with
  | inr json => (<[name := json]> data, None)
  | inl err =>
      (data,
       Some (errorUtils.getInternalError
               (if bool_decide (message err = "") then None
                else Some (message err))))
  end.

Definition createPackage (data : DataHandler) (name : string) (value : Package)
  : DataHandler * option JsError :=
  savePackage data name value.

Definition deletePackage (data : DataHandler) (pkgName : string) : DataHandler :=
  delete pkgName data.

Definition createPackageNext (data : DataHandler) (name : string) (manifest : Package)
  : DataHandler := data.

Definition savePackageNext (data : DataHandler) (name : string) (value : Package)
  : DataHandler := data.

Definition hasPackage (data : DataHandler) : bool := false.

Definition readPackageNext (data : DataHandler) (name : string)
  : JsError + Package :=
  let json := _getStorage data name in
  match parsePackage json with
  | inr pkg => inr pkg
  | inl _ => inl (errorUtils.getNotFound None)
  end.

(** [readPackage]: the arguments of [cb]. *)
Definition readPackage (data : DataHandler) (name : string)
  : option JsError * option Package :=
  let json := _getStorage data name in
  let isJson := bool_decide (json = None) in
  match parsePackage json with
  | inr pkg =>
      (if isJson then Some (errorUtils.getNotFound None) else None, Some pkg)
  | inl _ => (Some (errorUtils.getNotFound None), None)
  end.

End MemoryHandler.
End MemoryHandler.

(** What [fs.access] answers on a file system without directories. *)
Definition fsAccess (fs : FS) (p : string) : FsResult unit :=
  match fs !! p with
  | Some _ => inr tt
  | None => inl noSuchFile
  end.

(** The bytes of an upload: its chunks, one after the other. *)
Definition bytes (chunks : list string) : string := foldr String.append "" chunks.

#[global] Instance Uplink_eq_dec : EqDecision Uplink.
Proof. solve_decision. Defined.

(** ** storage.ts: serveFile, the remote leg of getTarball *)

Module ServeFile.

(** The proxy the tarball is fetched through: one of [this.uplinks], or
    the [ProxyStorage] made on the spot for the URL of the file, with
    [cache: true]. *)
Inductive TarballSource : Type :=
| Configured (uplink : Uplink)
| Autogenerated (url : string).

(** [uplink.config.cache] *)
Definition caches (src : TarballSource) : bool :=
  match src with
  | Configured uplink => cache uplink
  | Autogenerated _ => true
  end.

(** The calls [serveFile] and its listeners make on the save stream, on
    the uplink and on the stream returned to the caller. *)
Inductive Call : Type :=
| AddTarball                       (* self.localStorage.addTarball(name, filename) *)
| FetchTarball (url : string)      (* uplink.fetchTarball(file.url) *)
| SaveAbort                        (* savestream.abort() *)
| SaveDone                         (* savestream.done() *)
| SaveContentLength (v : Z)        (* savestream.emit('content-length', v) *)
| EmitError (err : JsError)        (* readStream.emit('error', err) *)
| EmitContentLength (v : Z).       (* readStream.emit('content-length', v) *)

(** The variables the listeners share: [savestream] is not null,
    [on_open] is still the function that starts the fetch. *)
Record State : Type := mkState {
  savestream : bool;
  on_open : bool;
  calls : list Call
}.

(** The events of the save stream and of [rstream2], the stream of the
    fetch. *)
Inductive Event : Type :=
| SaveOpen
| SaveError (err : JsError)
| FetchError (err : JsError)
| FetchEnd
| FetchContentLength (v : Z).

Section ServeFile.

Variable uplinks : list Uplink.
Variable hasProxyTo : string -> string -> bool.

Definition selectUplink (pkgName : string) (file : DistFile) : TarballSource :=
  let uplink :=
    fold_left (fun uplink u =>
                 if hasProxyTo pkgName (upname u) then Some u else uplink)
              uplinks None in
  match uplink with
  | Some u => Configured u
  | None => Autogenerated (url file)
  end.

(** A call of [on_open()]. *)
Definition call_on_open (file : DistFile) (s : State) : State :=
  if on_open s then
    (* prevent it from being called twice *)
    mkState (savestream s) false (calls s ++ [FetchTarball (url file)])%list
  else s.

(** The state when [serveFile] returns. *)
Definition serveFile (pkgName : string) (file : DistFile) : State :=
  if caches (selectUplink pkgName file) then mkState true true [AddTarball]
  else call_on_open file (mkState false true []).

(** One event; [None] when the stream that would emit it does not
    exist. *)
Definition step (pkgName : string) (file : DistFile) (ev : Event) (s : State)
  : option State :=
  let caching := caches (selectUplink pkgName file) in
  match ev with
  | SaveOpen =>
      if caching then Some (call_on_open file s) else None
  | SaveError err =>
      if caching then
        Some (call_on_open file
                (mkState false (on_open s)
                   (calls s ++ (if savestream s then [SaveAbort] else []))%list))
      else None
  | FetchError err =>
      if on_open s then None
      else
        Some (mkState false (on_open s)
                (calls s ++ (if savestream s then [SaveAbort] else [])
                         ++ [EmitError err])%list)
  | FetchEnd =>
      if on_open s then None
      else
        Some (mkState (savestream s) (on_open s)
                (calls s ++ (if savestream s then [SaveDone] else []))%list)
  | FetchContentLength v =>
      if on_open s then None
      else
        Some (mkState (savestream s) (on_open s)
                (calls s ++ [EmitContentLength v]
                         ++ (if savestream s then [SaveContentLength v] else []))%list)
  end.

Fixpoint run (pkgName : string) (file : DistFile) (evs : list Event) (s : State)
  : option State :=
  match evs with
  | [] => Some s
  | ev :: rest =>
      match step pkgName file ev s with
      | None => None
      | Some s' => run pkgName file rest s'
      end
  end.

End ServeFile.

Definition isFetch (c : Call) : bool :=
  match c with FetchTarball _ => true | _ => false end.

Definition isDone (c : Call) : bool :=
  match c with SaveDone => true | _ => false end.

Definition isFailure (ev : Event) : bool :=
  match ev with SaveError _ | FetchError _ => true | _ => false end.

End ServeFile.

(** ** Concrete worlds and inputs *)

(** A local manifest whose [latest] tag points to a version that is not
    there, and that still carries an attachment. *)
Definition danglingManifest : Manifest :=
  {| name := "pkg"; versions := ∅; dist_tags := {[ "latest" := "1.0.0" ]};
     time := ∅; _distfiles := ∅;
     _attachments := {[ "pkg-1.0.0.tgz" := "data" ]};
     _uplinks := ∅; _rev := "3-abc"; users := ∅ |}.

(** The package is on disk and the sync hands back no manifest. *)
Definition localOnlyWorld : StorageWorld :=
  {| localTarball := inl (sysError noSuchFile);
     piped := inl (sysError noSuchFile);
     localManifest := inr danglingManifest;
     upstream := fun _ => inl (sysError "ECONNREFUSED");
     synced := inr (None, []) |}.

(** Two uploads of the same file that both check for the target before
    either has renamed its staging file. *)
Definition overlappingUploads : list (nat * UploadTarball.Action) :=
  [ (0%nat, UploadTarball.AccessCallback);
    (1%nat, UploadTarball.AccessCallback);
    (0%nat, UploadTarball.FileOpen);
    (1%nat, UploadTarball.FileOpen);
    (0%nat, UploadTarball.Data "first");
    (1%nat, UploadTarball.Data "second");
    (0%nat, UploadTarball.Done);
    (0%nat, UploadTarball.SourceEnd);
    (0%nat, UploadTarball.FileClose);
    (1%nat, UploadTarball.Done);
    (1%nat, UploadTarball.SourceEnd);
    (1%nat, UploadTarball.FileClose) ].

(** Two uplinks, both with proxy access to every package. *)
Definition npmjs : Uplink := mkUplink "npmjs" 1000 true.
Definition mirror : Uplink := mkUplink "mirror" 1000 true.
Definition allProxied (pkgName upName : string) : bool := true.

Definition timedOut : JsError := sysError "ETIMEDOUT".
Definition notOnUplink : JsError :=
  {| err_name := "Error"; message := API_ERROR.NOT_PACKAGE_UPLINK;
     code := Some (CodeNum 404); status := Some 404; remoteStatus := Some 404 |}.
Definition notModified : JsError :=
  {| err_name := "Error"; message := "no data"; code := None; status := None;
     remoteStatus := Some 304 |}.

(** npmjs times out, the mirror does not have the package. *)
Definition oneTimesOut (u : Uplink) (pkgName : string) (etag : option string)
  : RemoteResult :=
  if bool_decide (upname u = "npmjs") then mkRemote (Some timedOut) None None
  else mkRemote (Some notOnUplink) None None.

Definition acceptAll (m : Manifest) (pkgName : string) : option JsError := None.
Definition keepTime (l r : Manifest) : gmap string string := time l.
Definition keepLocal (l r : Manifest) : JsError + Manifest := inr l.
Definition storeAsIs (pkgName : string) (m : Manifest) : JsError + Manifest := inr m.

(** At time 10000, npmjs was fetched 100 ms ago and the mirror 1500 ms
    ago; both have a freshness window of 1000 ms. *)
Definition cachedManifest : Manifest :=
  {| name := "pkg"; versions := ∅; dist_tags := ∅; time := ∅;
     _distfiles := ∅; _attachments := ∅;
     _uplinks := {[ "npmjs" := mkUpLinkMeta (Some "etag-1") 9900;
                    "mirror" := mkUpLinkMeta (Some "etag-2") 8500 ]};
     _rev := ""; users := ∅ |}.

(** An uplink configured with a [maxage] of a hundred years (in
    milliseconds), and a manifest whose record for it has the fetched
    timestamp 0, which JavaScript takes for unset. *)
Definition archive : Uplink := mkUplink "archive" 3153600000000 true.

Definition unstampedManifest : Manifest :=
  {| name := "pkg"; versions := ∅; dist_tags := ∅; time := ∅;
     _distfiles := ∅; _attachments := ∅;
     _uplinks := {[ "archive" := mkUpLinkMeta (Some "etag-1") 0 ]};
     _rev := ""; users := ∅ |}.

(** Every uplink answers 304. *)
Definition allNotModified (u : Uplink) (pkgName : string) (etag : option string)
  : RemoteResult := mkRemote (Some notModified) None None.

(** package.json is already on disk. *)
Definition publishedDisk : FS :=
  {[ "/storage/pkg/package.json" := JsonText (generatePackageTemplate "pkg") ]}.

(** The tarball is already in the storage. *)
Definition tarballDisk : FS :=
  {[ "/storage/pkg/p-1.0.0.tgz" := RawText "old" ]}.

(** The tarball is not in the storage, the local manifest does not list
    it, and the upstream fetch hands back a stream. *)
Definition localMissWorld : StorageWorld :=
  {| localTarball := inr 1%nat;
     piped := inl (sysError noSuchFile);
     localManifest := inr (generatePackageTemplate "pkg");
     upstream := fun _ => inr 2%nat;
     synced := inr (None, []) |}.

(** [updateVersions] of a local storage that cannot write. *)
Definition failsToStore (pkgName : string) (m : Manifest) : JsError + Manifest :=
  inl (errorUtils.getInternalError None).

(** Two filter plugins: one drops the attachments, one always throws. *)
Definition dropAttachments (m : Manifest) : JsError + Manifest :=
  inr (with_attachments m ∅).
Definition brokenFilter (m : Manifest) : JsError + Manifest :=
  inl (TypeError "filter failed").

(** The uplinks answer as in [oneTimesOut], except that npmjs has the
    package. *)
Definition npmjsAnswers (u : Uplink) (pkgName : string) (etag : option string)
  : RemoteResult :=
  if bool_decide (u = npmjs) then mkRemote None (Some cachedManifest) None
  else oneTimesOut u pkgName etag.

(** A package with one version, tagged latest. *)
Definition taggedManifest : Manifest :=
  {| name := "pkg";
     versions := {[ "1.0.0" := mkVersion "1.0.0" (Some "pkg-1.0.0.tgz") None ]};
     dist_tags := {[ "latest" := "1.0.0" ]};
     time := {[ "1.0.0" := "2022-01-01T00:00:00.000Z" ]};
     _distfiles := ∅; _attachments := ∅; _uplinks := ∅; _rev := "1-a";
     users := ∅ |}.

(** The same package after a merge marked its version as coming from
    npmjs. *)
Definition markedManifest : Manifest :=
  with_versions taggedManifest
    {[ "1.0.0" := mkVersion "1.0.0" (Some "pkg-1.0.0.tgz") (Some "npmjs") ]}.

Definition taggedWorld : StorageWorld :=
  {| localTarball := inl (sysError noSuchFile);
     piped := inl (sysError noSuchFile);
     localManifest := inr taggedManifest;
     upstream := fun _ => inl (sysError noSuchFile);
     synced := inr (None, []) |}.

(** A [getVersion] that looks the key up, and converters that change
    nothing. *)
Definition lookupVersion (vs : gmap string Version) (v : string) : option Version :=
  vs !! v.
Definition sameVersion (pkgName : string) (v : Version) : Version := v.

(** Packages that are their own text: stringify is the identity and
    parse rejects [undefined]. *)
Definition parseText (json : option string) : JsError + string :=
  match json with
  | Some s => inr s
  | None => inl (mkError "SyntaxError" "undefined is not valid JSON" None None None)
  end.
Definition stringifyText (value : string) : JsError + string := inr value.

Definition remoteTarball : DistFile :=
  mkDistFile "https://registry.npmjs.org/pkg/-/pkg-1.0.0.tgz" "sha".

(** * Properties *)

(** ** Paths *)

Lemma split_nonempty s : path.split s <> [].
Proof. destruct s as [|c s]; simpl; [discriminate|].
  destruct (Ascii.eqb c path.sep); [discriminate|]. destruct (path.split s); discriminate. Qed.

Lemma split_app_sep a b : path.split (a ++ "/" ++ b) = (path.split a ++ path.split b)%list.
Proof.
  induction a as [|c a IH]; simpl; [reflexivity|].
  destruct (Ascii.eqb c path.sep); simpl; [rewrite IH; reflexivity|].
  simpl in IH. rewrite IH. pose proof (split_nonempty a) as Hne.
  destruct (path.split a) as [|h t]; [contradiction|]. reflexivity.
Qed.

Lemma split_noSeparator s : noSeparator s = true -> path.split s = [s].
Proof.
  induction s as [|c s IH]; simpl; [reflexivity|].
  intros H. apply andb_true_iff in H as [Hc Hs]. apply negb_true_iff in Hc.
  rewrite Hc, (IH Hs). reflexivity.
Qed.

Lemma split_elements s : Forall (fun x => noSeparator x = true) (path.split s).
Proof.
  induction s as [|c s IH]; simpl; [repeat constructor|].
  destruct (Ascii.eqb c path.sep) eqn:Hc; [constructor; [reflexivity|exact IH]|].
  destruct (path.split s) as [|h t]; [repeat constructor; simpl; rewrite Hc; reflexivity|].
  inversion IH; subst. constructor; [simpl; rewrite Hc; simpl; assumption|assumption].
Qed.

Lemma normalizeString_app b l1 : forall acc l2,
  path.normalizeString b acc (l1 ++ l2)%list =
  path.normalizeString b (rev (path.normalizeString b acc l1)) l2.
Proof.
  induction l1 as [|s l1 IH]; intros acc l2; simpl.
  - rewrite rev_involutive. reflexivity.
  - destruct (bool_decide (s = "") || bool_decide (s = ".")); [apply IH|].
    destruct (bool_decide (s = "..")); [|apply IH].
    destruct acc as [|a acc]; [apply IH|].
    destruct (bool_decide (a = "..")); apply IH.
Qed.

Lemma normalAcc_nil b : normalAcc b [].
Proof. exists 0%nat, []. repeat split; auto. Qed.

Lemma normalizeString_normal b l : forall acc,
  normalAcc b acc ->
  exists acc', path.normalizeString b acc l = rev acc' /\ normalAcc b acc'.
Proof.
  induction l as [|s l IH]; intros acc Hacc; simpl; [eauto|].
  destruct (bool_decide (s = "") || bool_decide (s = ".")) eqn:Hskip; [auto|].
  apply orb_false_iff in Hskip as [H1 H2].
  apply bool_decide_eq_false in H1, H2.
  destruct (bool_decide (s = "..")) eqn:Hup.
  - destruct Hacc as (k & rest & -> & Hk & Hrest).
    destruct rest as [|r rest]; simpl.
    + destruct k as [|k]; simpl.
      * apply IH. destruct b; [exists 1%nat, []; repeat split; auto; discriminate
                              |apply normalAcc_nil].
      * apply IH.
        destruct b; [|specialize (Hk eq_refl); discriminate].
        exists (S (S k)), []. repeat split; auto. discriminate.
    + inversion Hrest as [|? ? Hr Hrest']; subst.
      destruct Hr as (_ & _ & Hr).
      rewrite bool_decide_eq_false_2 by exact Hr. apply IH.
      exists k, rest. auto.
  - apply bool_decide_eq_false in Hup. apply IH.
    destruct Hacc as (k & rest & -> & Hk & Hrest).
    exists k, (s :: rest). repeat split; auto. constructor; [|exact Hrest].
    repeat split; auto.
Qed.

Lemma normalizeString_plain b l : forall acc,
  Forall plain l -> path.normalizeString b acc l = (rev acc ++ l)%list.
Proof.
  induction l as [|s l IH]; intros acc Hl; simpl; [rewrite app_nil_r; reflexivity|].
  inversion Hl as [|? ? (H1 & H2 & H3) Hl']; subst.
  rewrite !bool_decide_eq_false_2 by assumption. simpl.
  rewrite IH by exact Hl'. simpl. rewrite <- app_assoc. reflexivity.
Qed.

Lemma normalizeString_ups k : forall j l,
  path.normalizeString true (repeat ".." j) (repeat ".." k ++ l)%list =
  path.normalizeString true (repeat ".." (k + j)) l.
Proof.
  induction k as [|k IH]; intros j l; simpl; [reflexivity|].
  destruct j as [|j]; simpl.
  - rewrite (IH 1%nat). replace (k + 1)%nat with (S (k + 0)) by lia. reflexivity.
  - rewrite (IH (S (S j))). replace (k + S (S j))%nat with (S (k + S j)) by lia.
    reflexivity.
Qed.

Lemma rev_repeat_ups k : rev (repeat ".." k) = repeat ".." k.
Proof.
  induction k as [|k IH]; simpl; [reflexivity|]. rewrite IH.
  clear IH. induction k as [|k IH]; simpl; [reflexivity|]. rewrite IH. reflexivity.
Qed.

Lemma normalizeString_idem b acc :
  normalAcc b acc -> path.normalizeString b [] (rev acc) = rev acc.
Proof.
  intros (k & rest & -> & Hk & Hrest).
  rewrite rev_app_distr, rev_repeat_ups.
  assert (Hplain : Forall plain (rev rest)).
  { apply List.Forall_rev. exact Hrest. }
  destruct k as [|k].
  - simpl. rewrite normalizeString_plain by exact Hplain. reflexivity.
  - destruct b; [|specialize (Hk eq_refl); discriminate].
    rewrite (normalizeString_ups (S k) 0%nat). rewrite Nat.add_0_r.
    rewrite normalizeString_plain by exact Hplain.
    rewrite rev_repeat_ups. reflexivity.
Qed.


(** What [normalizeString] returns is made of the segments it was given
    and of "..". *)
Lemma normalizeString_elements (P : string -> Prop) b l : forall acc,
  P ".." -> Forall P acc -> Forall P l ->
  Forall P (path.normalizeString b acc l).
Proof.
  intros acc Hup. revert acc.
  induction l as [|s l IH]; intros acc Hacc Hl; simpl.
  - apply List.Forall_rev. exact Hacc.
  - inversion Hl as [|? ? Hs Hl']; subst.
    destruct (bool_decide (s = "") || bool_decide (s = ".")); [auto|].
    destruct (bool_decide (s = "..")); [|auto].
    destruct acc as [|a acc]; [destruct b; auto|].
    inversion Hacc; subst.
    destruct (bool_decide (a = "..")); [destruct b; auto|auto].
Qed.

Lemma segments_normal p : normalAcc (negb (path.isAbsolute p)) (rev (path.segments p)).
Proof.
  unfold path.segments.
  destruct (normalizeString_normal (negb (path.isAbsolute p)) (path.split p) []
              (normalAcc_nil _)) as (acc & -> & Hacc).
  rewrite rev_involutive. exact Hacc.
Qed.

Lemma segments_noSeparator p :
  Forall (fun x => noSeparator x = true) (path.segments p).
Proof.
  apply normalizeString_elements; [reflexivity|constructor|apply split_elements].
Qed.

Lemma segments_nonempty p : Forall (fun x => x <> "") (path.segments p).
Proof.
  destruct (segments_normal p) as (k & rest & Heq & _ & Hrest).
  apply (f_equal (@rev string)) in Heq. rewrite rev_involutive in Heq.
  rewrite Heq. apply List.Forall_rev. apply Forall_app. split.
  - eapply Forall_impl; [exact Hrest|]. intros x (H & _). exact H.
  - clear. induction k; simpl; constructor; [discriminate|assumption].
Qed.

Lemma split_concat segs :
  segs <> [] -> Forall (fun x => noSeparator x = true) segs ->
  path.split (String.concat "/" segs) = segs.
Proof.
  induction segs as [|x segs IH]; intros Hne Hall; [contradiction|].
  inversion Hall as [|? ? Hx Hall']; subst.
  destruct segs as [|y segs]; simpl.
  - apply split_noSeparator. exact Hx.
  - change (path.split (x ++ "/" ++ String.concat "/" (y :: segs)) = x :: y :: segs).
    rewrite split_app_sep, (split_noSeparator x Hx).
    rewrite IH by (discriminate || assumption). reflexivity.
Qed.

Lemma isAbsolute_concat segs :
  Forall (fun x => noSeparator x = true) segs ->
  Forall (fun x => x <> "") segs ->
  path.isAbsolute (String.concat "/" segs) = false.
Proof.
  intros Hsep Hne. destruct segs as [|x segs]; [reflexivity|].
  inversion Hsep; inversion Hne; subst.
  destruct x as [|c x]; [contradiction|].
  assert (Hc : Ascii.eqb c path.sep = false).
  { simpl in *. apply andb_true_iff in H1 as [Hc _]. apply negb_true_iff in Hc. exact Hc. }
  destruct segs; simpl; exact Hc.
Qed.

Lemma concat_empty segs :
  Forall (fun x => x <> "") segs -> String.concat "/" segs = "" -> segs = [].
Proof.
  destruct segs as [|x segs]; [reflexivity|].
  intros Hne. inversion Hne; subst. destruct x as [|c x]; [contradiction|].
  destruct segs; discriminate.
Qed.

Lemma split_trailing s : path.split (s ++ "/") = (path.split s ++ [""])%list.
Proof. apply (split_app_sep s ""). Qed.

Lemma isAbsolute_app s t : s <> "" -> path.isAbsolute (s ++ t) = path.isAbsolute s.
Proof. destruct s; [contradiction|reflexivity]. Qed.

(** Normalizing a normalized path changes nothing. *)
Lemma segments_normalize p : path.segments (path.normalize p) = path.segments p.
Proof.
  unfold path.normalize.
  destruct (bool_decide (p = "")) eqn:Hp.
  { apply bool_decide_eq_true in Hp. subst. reflexivity. }
  pose proof (segments_noSeparator p) as Hsep.
  pose proof (segments_nonempty p) as Hne.
  pose proof (segments_normal p) as Hnormal.
  set (segs := path.segments p) in *.
  destruct (bool_decide (String.concat "/" segs = "")) eqn:Hbody.
  { apply bool_decide_eq_true in Hbody. apply concat_empty in Hbody; [|exact Hne].
    rewrite Hbody.
    destruct (path.isAbsolute p); [reflexivity|].
    destruct (path.trailingSeparator p); reflexivity. }
  apply bool_decide_eq_false in Hbody.
  assert (Hsegs : segs <> []) by (intros ->; apply Hbody; reflexivity).
  pose proof (normalizeString_idem _ _ Hnormal) as Hidem.
  rewrite rev_involutive in Hidem.
  pose proof (isAbsolute_concat segs Hsep Hne) as Hrel.
  pose proof (split_concat segs Hsegs Hsep) as Hsplit.
  unfold path.segments at 1.
  destruct (path.isAbsolute p) eqn:Habs, (path.trailingSeparator p);
    cbn [negb] in Hidem.
  - change ("/" ++ (String.concat "/" segs ++ "/"))
      with ("" ++ "/" ++ (String.concat "/" segs ++ "/")).
    rewrite split_app_sep, split_trailing, Hsplit. simpl path.isAbsolute.
    simpl. rewrite normalizeString_app, Hidem. simpl. apply rev_involutive.
  - change ("/" ++ String.concat "/" segs)
      with ("" ++ "/" ++ String.concat "/" segs).
    rewrite split_app_sep, Hsplit. simpl. exact Hidem.
  - rewrite isAbsolute_app by exact Hbody. rewrite Hrel.
    rewrite split_trailing, Hsplit, normalizeString_app. cbn [negb].
    rewrite Hidem. simpl.
    apply rev_involutive.
  - rewrite Hrel, Hsplit. exact Hidem.
Qed.

Lemma normalizeString_segment b acc seg :
  seg <> ".." ->
  rev acc `prefix_of` path.normalizeString b acc [seg].
Proof.
  intros Hup. simpl.
  destruct (bool_decide (seg = "") || bool_decide (seg = ".")); [reflexivity|].
  rewrite bool_decide_eq_false_2 by exact Hup. simpl.
  exists [seg]. reflexivity.
Qed.

(** A path made of a root and one segment that has no separator and is
    not ".." stays under the root. *)
Lemma join_inside root seg :
  root <> "" -> noSeparator seg = true -> seg <> ".." ->
  path.inside root (path.join root seg) = true.
Proof.
  intros Hroot Hsep Hup. unfold path.inside, path.join.
  apply bool_decide_eq_true.
  rewrite bool_decide_eq_false_2 by exact Hroot.
  destruct (bool_decide (seg = "")).
  - rewrite segments_normalize. reflexivity.
  - rewrite segments_normalize. unfold path.segments.
    rewrite isAbsolute_app by exact Hroot.
    rewrite split_app_sep, (split_noSeparator seg Hsep), normalizeString_app.
    rewrite <- (rev_involutive (path.normalizeString _ [] (path.split root))) at 1.
    apply normalizeString_segment. exact Hup.
Qed.

(** [_getStorage] stays in the storage root for every sanitizer that
    hands back one segment without separators, other than "..". *)
Lemma _getStorage_inside_root this_path sanitzers fileName :
  this_path <> "" ->
  noSeparator (sanitzers fileName) = true ->
  sanitzers fileName <> ".." ->
  path.inside this_path (LocalFS._getStorage this_path sanitzers fileName) = true.
Proof. intros. unfold LocalFS._getStorage. apply join_inside; assumption. Qed.

(** Stripping separators and null bytes leaves the name ".." as it is,
    and that name leads out of the root; it is up to the sanitizer to
    remove it. *)
Lemma stripSeparators_keeps_parent :
  stripSeparators ".." = ".."
  /\ LocalFS._getStorage "/storage/pkg" stripSeparators ".." = "/storage"
  /\ path.inside "/storage/pkg" "/storage" = false.
Proof. repeat split; vm_compute; reflexivity. Qed.

Lemma stripSeparators_noSeparator s : noSeparator (stripSeparators s) = true.
Proof.
  induction s as [|c s IH]; simpl; [reflexivity|].
  unfold isSeparatorOrNull.
  destruct (Ascii.eqb c "/") eqn:Hc; simpl; [exact IH|].
  destruct (_ || _); simpl; [exact IH|].
  unfold path.sep. rewrite Hc, IH. reflexivity.
Qed.


(** ** The effect monad *)

Section RunLemmas.

Context {S : Type} (env : Env S).

Lemma run_bind {A B : Type} (p : io A) (f : A -> io B) (s : S) :
  run env (bind p f) s =
  match run env p s with
  | (inl e, s1, t1) => (inl e, s1, t1)
  | (inr a, s1, t1) =>
      let '(o, s2, t2) := run env (f a) s1 in (o, s2, (t1 ++ t2)%list)
  end.
Proof.
  revert s; induction p as [a|e|c k IH]; intros s; simpl.
  - destruct (run env (f a) s) as [[o s2] t2]; reflexivity.
  - reflexivity.
  - destruct (env c s) as [r s1]. rewrite IH.
    destruct (run env (k r) s1) as [[[e|a] s2] t2]; [reflexivity|].
    destruct (run env (f a) s2) as [[o s3] t3]; reflexivity.
Qed.

Lemma run_try_catch {A : Type} (p : io A) (h : JsError -> io A) (s : S) :
  run env (try_catch p h) s =
  match run env p s with
  | (inr a, s1, t1) => (inr a, s1, t1)
  | (inl e, s1, t1) =>
      let '(o, s2, t2) := run env (h e) s1 in (o, s2, (t1 ++ t2)%list)
  end.
Proof.
  revert s; induction p as [a|e|c k IH]; intros s; simpl.
  - reflexivity.
  - destruct (run env (h e) s) as [[o s2] t2]; reflexivity.
  - destruct (env c s) as [r s1]. rewrite IH.
    destruct (run env (k r) s1) as [[[e|a] s2] t2]; [|reflexivity].
    destruct (run env (h e) s2) as [[o s3] t3]; reflexivity.
Qed.


End RunLemmas.



Lemma throws_only_weaken {A : Type} (P Q : JsError -> Prop) (p : io A) :
  (forall e, P e -> Q e) -> throws_only P p -> throws_only Q p.
Proof.
  intros HPQ. induction p as [a|e|c k IH]; simpl; auto.
Qed.

(** ** LocalFS.updatePackageNext and LocalFS.updatePackage *)

Section UpdatePackage.

Variable this_path : string.
Variable sanitzers : string -> string.
Context {S : Type} (env : Env S).

Let pkgJson : string := LocalFS._getStorage this_path sanitzers packageJSONFileName.
Let unavailable : JsError :=
  errorUtils.getInternalError (Some "resource temporarily unavailable").

(** The lock could not be taken (or the locked read failed): no unlock is
    attempted, EAGAIN becomes an internal error, ENOENT becomes
    NOT_FOUND, anything else is passed on. *)
Lemma updatePackageNext_not_locked packageName handleUpdate s err s1 :
  env (readFileNext pkgJson) s = (inl err, s1) ->
  run env (LocalFS.updatePackageNext this_path sanitzers packageName handleUpdate) s =
    (inl (if code_is err resourceNotAvailable then unavailable
          else if code_is err noSuchFile
               then errorUtils.getNotFound None
               else err),
     s1, [(readFileNext pkgJson, Some err)]).
Proof.
  intros Hlock. unfold LocalFS.updatePackageNext, LocalFS._lockAndReadJSONNext.
  simpl. fold pkgJson. rewrite Hlock. simpl.
  unfold LocalFS.updatePackageNext_catch.
  destruct (code_is err resourceNotAvailable); [reflexivity|].
  destruct (code_is err noSuchFile); reflexivity.
Qed.

(** The update succeeds: the lock is released and the new manifest
    returned. *)
Lemma updatePackageNext_success packageName handleUpdate s m s1 m' s2 t s3 :
  env (readFileNext pkgJson) s = (inr m, s1) ->
  run env (handleUpdate m) s1 = (inr m', s2, t) ->
  env (unlockFileNext pkgJson) s2 = (inr tt, s3) ->
  run env (LocalFS.updatePackageNext this_path sanitzers packageName handleUpdate) s =
    (inr m', s3,
     ((readFileNext pkgJson, None) :: t ++ [(unlockFileNext pkgJson, None)])%list).
Proof.
  intros Hlock Hupd Hunlock.
  unfold LocalFS.updatePackageNext, LocalFS._lockAndReadJSONNext.
  simpl. fold pkgJson. rewrite Hlock. simpl.
  rewrite run_try_catch, run_bind, Hupd. simpl.
  unfold LocalFS._unlockJSONNext. fold pkgJson. simpl. rewrite Hunlock. simpl.
  reflexivity.
Qed.

(** A step fails while the lock is held: the lock is released, and the
    caller gets the resource-unavailable error whatever the failure was
    and whether or not the unlock worked. *)
Lemma updatePackageNext_locked_failure packageName handleUpdate s m s1 e s2 t r s3 :
  env (readFileNext pkgJson) s = (inr m, s1) ->
  run env (handleUpdate m) s1 = (inl e, s2, t) ->
  env (unlockFileNext pkgJson) s2 = (r, s3) ->
  run env (LocalFS.updatePackageNext this_path sanitzers packageName handleUpdate) s =
    (inl unavailable, s3,
     ((readFileNext pkgJson, None) :: t
        ++ [(unlockFileNext pkgJson, failure (unlockFileNext pkgJson) r)])%list).
Proof.
  intros Hlock Hupd Hunlock.
  unfold LocalFS.updatePackageNext, LocalFS._lockAndReadJSONNext.
  simpl. fold pkgJson. rewrite Hlock. simpl.
  rewrite run_try_catch, run_bind, Hupd.
  unfold LocalFS.updatePackageNext_catch, LocalFS._unlockJSONNext.
  fold pkgJson. simpl. rewrite Hunlock.
  destruct r as [eu|[]]; simpl; reflexivity.
Qed.

(** The callback twin hands the failure of [updateHandler] to [onEnd]
    unchanged, after the unlock and whatever the unlock answers. *)
Lemma updatePackage_passes_failure pkgName transformPackage s json s1 err s2 r s3 :
  env (readFile pkgJson) s = (inr json, s1) ->
  env (updateHandler json) s1 = (Some err, s2) ->
  env (unlockFile pkgJson) s2 = (r, s3) ->
  run env (LocalFS.updatePackage this_path sanitzers pkgName transformPackage) s =
    (inr (Some err), s3,
     [(readFile pkgJson, None); (updateHandler json, Some err);
      (unlockFile pkgJson, failure (unlockFile pkgJson) r)]).
Proof.
  intros Hlock Hupd Hunlock. unfold LocalFS.updatePackage. simpl.
  fold pkgJson. rewrite Hlock. simpl. rewrite Hupd.
  unfold LocalFS.unLockCallback, LocalFS._unlockJSON. fold pkgJson.
  simpl. rewrite Hunlock. reflexivity.
Qed.

(** The callback twin when the lock cannot be taken. *)
Lemma updatePackage_not_locked pkgName transformPackage s err s1 :
  env (readFile pkgJson) s = (inl err, s1) ->
  run env (LocalFS.updatePackage this_path sanitzers pkgName transformPackage) s =
    (inr (Some (if code_is err resourceNotAvailable then unavailable
                else if code_is err noSuchFile
                     then errorUtils.getNotFound None
                     else err)),
     s1, [(readFile pkgJson, Some err)]).
Proof.
  intros Hlock. unfold LocalFS.updatePackage. simpl.
  fold pkgJson. rewrite Hlock.
  destruct (code_is err resourceNotAvailable); [reflexivity|].
  destruct (code_is err noSuchFile); reflexivity.
Qed.

End UpdatePackage.

(** C1.  [updatePackageNext] on a package whose manifest is on disk, with
    an update handler that fails with CONFLICT: the lock is taken, the
    handler fails, the unlock succeeds, and yet the caller does not get
    the handler's error but INTERNAL_ERROR('resource temporarily
    unavailable'). *)
Theorem updatePackageNext_replaces_original_error :
  let original := errorUtils.getConflict None in
  let disk : FS :=
    {[ "/storage/pkg/package.json" := JsonText (generatePackageTemplate "pkg") ]} in
  run fsEnv
      (LocalFS.updatePackageNext "/storage/pkg" stripSeparators "pkg"
         (fun _ => Throw original))
      disk
  = (inl (errorUtils.getInternalError (Some "resource temporarily unavailable")),
     disk,
     [(readFileNext "/storage/pkg/package.json", None);
      (unlockFileNext "/storage/pkg/package.json", None)])
  /\ original <> errorUtils.getInternalError (Some "resource temporarily unavailable").
Proof.
  split; [|discriminate].
  vm_compute. reflexivity.
Qed.

(** ** LocalFS.createPackageNext *)

Lemma code_is_sysError (c c' : string) :
  code_is (sysError c) c' = bool_decide (c = c').
Proof.
  unfold code_is, sysError; simpl.
  destruct (decide (c = c')) as [->|Hne].
  - rewrite !bool_decide_eq_true_2; auto.
  - rewrite !bool_decide_eq_false_2; auto. congruence.
Qed.



Section WriteFile.

Variable win32 : bool.




End WriteFile.

Section CreatePackage.

Variable this_path : string.
Variable sanitzers : string -> string.
Variable win32 : bool.
Context {S : Type} (env : Env S).

Let pathPackage : string :=
  LocalFS._getStorage this_path sanitzers packageJSONFileName.


End CreatePackage.

(** ** Storage._syncUplinksMetadata *)

Lemma scanErrors_existsb errs : scanErrors errs = existsb isTimeoutCode errs.
Proof.
  induction errs as [|e errs IH]; simpl; [reflexivity|].
  destruct (isTimeoutCode e); simpl; auto.
Qed.

Section Sync.

Variable now : Z.
Variable uplinks : list Uplink.
Variable hasProxyTo : string -> string -> bool.
Variable getRemoteMetadata : Uplink -> string -> option string -> RemoteResult.
Variable validateMetadata : Manifest -> string -> option JsError.
Variable mergeUplinkTimeIntoLocal : Manifest -> Manifest -> gmap string string.
Variable mergeVersions : Manifest -> Manifest -> JsError + Manifest.
Variable cleanUpLinksRef : Manifest -> option bool -> Manifest.
Variable updateVersions : string -> Manifest -> JsError + Manifest.
Variable filters : list (Manifest -> JsError + Manifest).

Let selectUplinks := StorageCb.selectUplinks uplinks hasProxyTo.
Let decideUplink := StorageCb.decideUplink now.
Let planUplinks := StorageCb.planUplinks now uplinks hasProxyTo.
Let onRemoteMetadata :=
  StorageCb.onRemoteMetadata now validateMetadata mergeUplinkTimeIntoLocal
    mergeVersions.
Let handleResponses :=
  StorageCb.handleResponses now getRemoteMetadata validateMetadata
    mergeUplinkTimeIntoLocal mergeVersions.
Let _syncUplinksMetadata :=
  StorageCb._syncUplinksMetadata now uplinks hasProxyTo getRemoteMetadata
    validateMetadata mergeUplinkTimeIntoLocal mergeVersions updateVersions
    filters.
Let syncCalls := StorageCb.syncCalls now uplinks hasProxyTo.
Let getPackage :=
  StorageCb.getPackage now uplinks hasProxyTo getRemoteMetadata
    validateMetadata mergeUplinkTimeIntoLocal mergeVersions cleanUpLinksRef
    updateVersions filters.

(** The error an uplink answers with, if it does. *)
Let uplinkError (pkgName : string) (etag : option string) (u : Uplink)
  : option JsError := r_err (getRemoteMetadata u pkgName etag).

(** An uplink fails when it answers with an error that is not the 304
    sentinel. *)
Let failsPlainly (pkgName : string) (etag : option string) (u : Uplink) : Prop :=
  exists err, uplinkError pkgName etag u = Some err /\ remoteStatus err <> Some 304.

Lemma plan_absent pkgName uplinksLook options_etag :
  planUplinks pkgName None uplinksLook options_etag =
  (fun u => (u, StorageCb.Fetch None options_etag))
    <$> selectUplinks pkgName uplinksLook.
Proof. reflexivity. Qed.

Lemma handleResponses_all_fail pkgName etag (l : list Uplink) st :
  (forall u, u ∈ l -> failsPlainly pkgName etag u) ->
  handleResponses pkgName st ((fun u => (u, StorageCb.Fetch None etag)) <$> l) =
  inr (st, (fun u => Errors (option_list (uplinkError pkgName etag u))) <$> l).
Proof.
  induction l as [|u l IH]; intros Hall; [reflexivity|].
  destruct (Hall u) as (err & Herr & H304); [left|].
  cbn [fmap list_fmap]. unfold handleResponses. cbn [StorageCb.handleResponses].
  fold handleResponses.
  unfold StorageCb.onRemoteMetadata. unfold uplinkError in *.
  rewrite Herr. rewrite bool_decide_eq_false_2 by exact H304.
  rewrite IH; [reflexivity|].
  intros v Hv. apply Hall. right. exact Hv.
Qed.

Lemma scan_failed_uplinks pkgName etag (l : list Uplink) flag :
  scanUplinkErrors flag
    ((fun u => Errors (option_list (uplinkError pkgName etag u))) <$> l) =
  flag || existsb (fun u => from_option isTimeoutCode false
                              (uplinkError pkgName etag u)) l.
Proof.
  revert flag; induction l as [|u l IH]; intros flag; simpl.
  - rewrite orb_false_r. reflexivity.
  - rewrite IH, scanErrors_existsb.
    destruct (uplinkError pkgName etag u) as [e|]; simpl.
    + rewrite orb_false_r. destruct (isTimeoutCode e), flag; reflexivity.
    + reflexivity.
Qed.

(** C2, amended.  The package is absent locally and every uplink with
    proxy access fails (with an error other than the 304 sentinel): the
    sync calls back with SERVICE_UNAVAILABLE when at least one of the
    uplink errors is timeout-class, and with NOT_FOUND otherwise; the
    per-uplink errors are handed on in both cases. *)
Theorem sync_absent_all_uplinks_fail pkgName uplinksLook options_etag :
  (forall u, u ∈ selectUplinks pkgName uplinksLook ->
             failsPlainly pkgName options_etag u) ->
  _syncUplinksMetadata pkgName None uplinksLook options_etag =
  Callback
    (Some (if existsb (fun u => from_option isTimeoutCode false
                                  (uplinkError pkgName options_etag u))
                      (selectUplinks pkgName uplinksLook)
           then errorUtils.getServiceUnavailable None
           else errorUtils.getNotFound (Some API_ERROR.NO_PACKAGE)))
    None
    (Some ((fun u => Errors (option_list (uplinkError pkgName options_etag u)))
             <$> selectUplinks pkgName uplinksLook)).
Proof.
  intros Hall. unfold _syncUplinksMetadata, StorageCb._syncUplinksMetadata.
  fold planUplinks handleResponses. rewrite plan_absent.
  rewrite handleResponses_all_fail by exact Hall. cbn [StorageCb.found negb].
  rewrite scan_failed_uplinks. cbn [orb].
  destruct (existsb _ _); reflexivity.
Qed.

(** *** Freshness *)

Lemma calls_of_plan pkgName data uplinksLook options_etag u e :
  (u, e) ∈ syncCalls pkgName data uplinksLook options_etag <->
  u ∈ selectUplinks pkgName uplinksLook /\
  exists meta,
    decideUplink options_etag
      (default (generatePackageTemplate pkgName) data) u
    = StorageCb.Fetch meta e.
Proof.
  unfold syncCalls, StorageCb.syncCalls, StorageCb.networkCalls,
    StorageCb.planUplinks.
  fold selectUplinks decideUplink.
  rewrite list_elem_of_omap. split.
  - intros ([v d] & Hin & Hd). apply list_elem_of_fmap in Hin as (w & Heq & Hw).
    injection Heq as -> ->. simpl in Hd.
    destruct (decideUplink _ _ w) as [|meta e'] eqn:Hdec; [discriminate|].
    injection Hd as -> ->. eauto.
  - intros (Hin & meta & Hdec). exists (u, StorageCb.Fetch meta e). split.
    + apply list_elem_of_fmap. exists u. rewrite Hdec. auto.
    + reflexivity.
Qed.

(** *** The merge as a program: what it calls and how it ends *)

Let syncUplinks :=
  StorageCb.syncUplinks now uplinks hasProxyTo validateMetadata
    mergeUplinkTimeIntoLocal mergeVersions updateVersions filters.

(** What the answers of the uplinks leave for the handlers. *)
Let answered (pkgName : string) (work : list (Uplink * StorageCb.Decision))
  : list (Uplink * StorageCb.Asked) :=
  (fun w : Uplink * StorageCb.Decision =>
     (w.1, match w.2 with
           | StorageCb.Skip => None
           | StorageCb.Fetch m e => Some (m, getRemoteMetadata w.1 pkgName e)
           end)) <$> work.

(** A call with the package it is made for. *)
Let asCall (pkgName : string) (c : Uplink * option string) : NetworkCall :=
  (c.1, pkgName, c.2).

Lemma runRemote_askUplinks {A : Type} pkgName work :
  forall k : list (Uplink * StorageCb.Asked) -> remote A,
    runRemote getRemoteMetadata (StorageCb.askUplinks pkgName work k) =
    let '(calls, a) := runRemote getRemoteMetadata (k (answered pkgName work)) in
    ((asCall pkgName <$> StorageCb.networkCalls work) ++ calls, a)%list.
Proof.
  induction work as [|[u d] work IH]; intros k.
  - simpl.
    exact (match runRemote getRemoteMetadata (k []) as q
                 return q = (let '(calls, a) := q in (calls, a)) with
           | (calls, a) => eq_refl
           end).
  - destruct d as [|m e]; cbn [StorageCb.askUplinks runRemote].
    + rewrite IH. reflexivity.
    + rewrite IH. unfold answered. cbn [fmap list_fmap fst snd].
      destruct (runRemote getRemoteMetadata _) as [calls a]. reflexivity.
Qed.

Lemma handleAnswers_answered pkgName work : forall st,
  StorageCb.handleAnswers now validateMetadata mergeUplinkTimeIntoLocal
    mergeVersions pkgName st (answered pkgName work) =
  handleResponses pkgName st work.
Proof.
  induction work as [|[u d] work IH]; intros st; [reflexivity|].
  unfold handleResponses. cbn [answered fmap list_fmap fst snd].
  fold (answered pkgName work).
  cbn [StorageCb.handleAnswers StorageCb.handleResponses].
  fold handleResponses.
  destruct d as [|m e].
  - rewrite IH. reflexivity.
  - destruct (StorageCb.onRemoteMetadata _ _ _ _ _ _ _ _ _) as [err|[st1 entry]];
      [reflexivity|].
    rewrite IH. reflexivity.
Qed.

(** The program issues the calls of the plan, in the order of the
    uplinks, and ends as [_syncUplinksMetadata] says. *)
Lemma syncUplinks_run pkgName data uplinksLook options_etag :
  runRemote getRemoteMetadata
    (syncUplinks pkgName data uplinksLook options_etag) =
  (asCall pkgName <$> syncCalls pkgName data uplinksLook options_etag,
   _syncUplinksMetadata pkgName data uplinksLook options_etag).
Proof.
  unfold syncUplinks, StorageCb.syncUplinks. rewrite runRemote_askUplinks.
  cbn [runRemote]. rewrite handleAnswers_answered, app_nil_r.
  unfold syncCalls, StorageCb.syncCalls, _syncUplinksMetadata,
    StorageCb._syncUplinksMetadata, StorageCb.onUplinksDone.
  reflexivity.
Qed.

(** C7, amended.  An uplink whose record in [_uplinks] carries a set
    fetched timestamp (one that is not 0) with [now - fetched < maxage]
    when the merge starts is sent no network call by that merge, while
    every selected uplink that is stale at that moment (it has no
    record, its [fetched] is unset, or [maxage] has passed) is called,
    with the etag of its record, or with the etag of the options when it
    has none.  The merge is the program [syncUplinks] run against the
    uplinks; it ends as [_syncUplinksMetadata] says. *)
Theorem sync_skips_fresh_uplink pkgName info uplinksLook options_etag u meta :
  _uplinks info !! upname u = Some meta ->
  fetched meta <> 0 ->
  now - fetched meta < maxage u ->
  let merge :=
    runRemote getRemoteMetadata
      (syncUplinks pkgName (Some info) uplinksLook options_etag) in
  merge.2 = _syncUplinksMetadata pkgName (Some info) uplinksLook options_etag
  /\ (forall name e, (u, name, e) ∉ merge.1)
  /\ (forall v,
        v ∈ selectUplinks pkgName uplinksLook ->
        match _uplinks info !! upname v with
        | Some mv => fetched mv = 0 \/ maxage v <= now - fetched mv
        | None => True
        end ->
        (v, pkgName,
         match _uplinks info !! upname v with
         | Some mv => etag mv
         | None => options_etag
         end) ∈ merge.1).
Proof.
  intros Hmeta Hset Hfresh merge. subst merge. rewrite syncUplinks_run.
  cbn [fst snd]. split; [reflexivity|]. split.
  - intros name e Hin. apply list_elem_of_fmap in Hin as ([v e'] & Heq & Hin).
    injection Heq as <- _ _.
    apply calls_of_plan in Hin as (_ & m & Hdec).
    unfold decideUplink, StorageCb.decideUplink in Hdec. simpl in Hdec.
    rewrite Hmeta in Hdec.
    destruct (Z.eqb_spec (fetched meta) 0) as [?|_]; [contradiction|].
    destruct (Z.ltb_spec (now - fetched meta) (maxage u)) as [_|?]; [|lia].
    discriminate.
  - intros v Hv Hstale. apply list_elem_of_fmap.
    eexists (v, _). split; [reflexivity|].
    apply calls_of_plan. split; [exact Hv|].
    unfold decideUplink, StorageCb.decideUplink. simpl.
    destruct (_uplinks info !! upname v) as [mv|]; [|eauto].
    destruct Hstale as [Hzero|Hold].
    + rewrite Hzero. cbn. eauto.
    + destruct (Z.ltb_spec (now - fetched mv) (maxage v)) as [?|_]; [lia|].
      rewrite andb_false_r. eauto.
Qed.

(** The calls logged are the only places where the merge looks at what
    an uplink answers: two worlds whose uplinks answer these calls alike
    give the same merge.  What a skipped uplink would have answered makes
    no difference. *)
Lemma handleResponses_calls (answers : Uplink -> string -> option string -> RemoteResult)
    pkgName work :
  (forall u e, (u, e) ∈ StorageCb.networkCalls work ->
               getRemoteMetadata u pkgName e = answers u pkgName e) ->
  forall st,
    handleResponses pkgName st work =
    StorageCb.handleResponses now answers validateMetadata
      mergeUplinkTimeIntoLocal mergeVersions pkgName st work.
Proof.
  induction work as [|[u d] work IH]; intros Hsame st; [reflexivity|].
  unfold handleResponses in *. cbn [StorageCb.handleResponses].
  destruct d as [|m e].
  - rewrite IH; [reflexivity|].
    intros v e Hin. apply Hsame. exact Hin.
  - rewrite <- (Hsame u e) by (left).
    destruct (StorageCb.onRemoteMetadata _ _ _ _ _ _ _ _ _) as [err|[st1 entry]];
      [reflexivity|].
    rewrite IH; [reflexivity|].
    intros v e' Hin. apply Hsame. right. exact Hin.
Qed.

Lemma sync_depends_on_calls_only
    (answers : Uplink -> string -> option string -> RemoteResult)
    pkgName data uplinksLook options_etag :
  (forall u e, (u, e) ∈ syncCalls pkgName data uplinksLook options_etag ->
               getRemoteMetadata u pkgName e = answers u pkgName e) ->
  _syncUplinksMetadata pkgName data uplinksLook options_etag =
  StorageCb._syncUplinksMetadata now uplinks hasProxyTo answers
    validateMetadata mergeUplinkTimeIntoLocal mergeVersions updateVersions
    filters pkgName data uplinksLook options_etag.
Proof.
  intros Hsame. unfold _syncUplinksMetadata, StorageCb._syncUplinksMetadata.
  fold handleResponses.
  rewrite (handleResponses_calls answers pkgName _ Hsame). reflexivity.
Qed.

(** *** The 304 stamp *)

Let undefinedFetched : JsError :=
  TypeError "Cannot set properties of undefined (setting 'fetched')".

Lemma decideUplink_meta options_etag info upLink m e :
  decideUplink options_etag info upLink = StorageCb.Fetch m e ->
  m = _uplinks info !! upname upLink.
Proof.
  unfold decideUplink, StorageCb.decideUplink.
  destruct (_uplinks info !! upname upLink) as [meta|].
  - destruct (_ && _); [discriminate|]. congruence.
  - congruence.
Qed.

Lemma onRemoteMetadata_304_no_record pkgName upLink st r err :
  r_err r = Some err ->
  remoteStatus err = Some 304 ->
  onRemoteMetadata pkgName upLink None st r = inl undefinedFetched.
Proof.
  intros Herr H304. unfold onRemoteMetadata, StorageCb.onRemoteMetadata.
  rewrite Herr. rewrite bool_decide_eq_true_2 by exact H304. reflexivity.
Qed.

Lemma onRemoteMetadata_throws pkgName upLink m st r e :
  onRemoteMetadata pkgName upLink m st r = inl e -> e = undefinedFetched.
Proof.
  unfold onRemoteMetadata, StorageCb.onRemoteMetadata.
  destruct (match r_err r with Some _ => _ | None => false end).
  - destruct m as [meta|]; [|intros [= <-]; reflexivity].
    destruct (r_err r); [discriminate|].
    destruct (r_body r) as [b|]; [|discriminate].
    destruct (validateMetadata b pkgName); [discriminate|].
    destruct (mergeVersions _ _); discriminate.
  - destruct (r_err r); [discriminate|].
    destruct (r_body r) as [b|]; [|discriminate].
    destruct (validateMetadata b pkgName); [discriminate|].
    destruct (mergeVersions _ _); discriminate.
Qed.

(** On the whole merge: one uplink without a record that answers 304 is
    enough for the exception to escape, and the final callback is never
    reached. *)
Lemma handleResponses_throws pkgName work u etag err :
  (u, StorageCb.Fetch None etag) ∈ work ->
  r_err (getRemoteMetadata u pkgName etag) = Some err ->
  remoteStatus err = Some 304 ->
  forall st, handleResponses pkgName st work = inl undefinedFetched.
Proof.
  intros Hin Herr H304.
  induction work as [|[v d] work IH]; intros st.
  - inversion Hin.
  - unfold handleResponses. cbn [StorageCb.handleResponses]. fold handleResponses.
    fold onRemoteMetadata.
    apply elem_of_cons in Hin as [Heq|Hin].
    + injection Heq as <- <-.
      rewrite (onRemoteMetadata_304_no_record pkgName u st _ _ Herr H304).
      reflexivity.
    + destruct d as [|m e].
      * rewrite (IH Hin st). reflexivity.
      * destruct (onRemoteMetadata pkgName v m st _) as [e'|[st1 entry]] eqn:Hv.
        -- f_equal. eapply onRemoteMetadata_throws. exact Hv.
        -- rewrite (IH Hin st1). reflexivity.
Qed.

Lemma sync_absent_304_throws pkgName uplinksLook options_etag u err :
  u ∈ selectUplinks pkgName uplinksLook ->
  uplinkError pkgName options_etag u = Some err ->
  remoteStatus err = Some 304 ->
  _syncUplinksMetadata pkgName None uplinksLook options_etag =
  Uncaught undefinedFetched.
Proof.
  intros Hin Herr H304.
  unfold _syncUplinksMetadata, StorageCb._syncUplinksMetadata.
  fold planUplinks handleResponses. rewrite plan_absent.
  rewrite (handleResponses_throws pkgName _ u options_etag err); auto.
  apply list_elem_of_fmap. exists u. auto.
Qed.

(** The whole merge, when a selected uplink has no record and answers
    304: the call carries the etag of the options, and the exception
    escapes. *)
Lemma sync_304_without_record pkgName data uplinksLook options_etag u err :
  u ∈ selectUplinks pkgName uplinksLook ->
  _uplinks (default (generatePackageTemplate pkgName) data) !! upname u = None ->
  uplinkError pkgName options_etag u = Some err ->
  remoteStatus err = Some 304 ->
  (u, pkgName, options_etag)
    ∈ (runRemote getRemoteMetadata
         (syncUplinks pkgName data uplinksLook options_etag)).1
  /\ _syncUplinksMetadata pkgName data uplinksLook options_etag =
     Uncaught undefinedFetched.
Proof.
  intros Hin Hnone Herr H304.
  assert (Hdec : decideUplink options_etag
                   (default (generatePackageTemplate pkgName) data) u
                 = StorageCb.Fetch None options_etag).
  { unfold decideUplink, StorageCb.decideUplink. rewrite Hnone. reflexivity. }
  split.
  - rewrite syncUplinks_run. cbn [fst]. apply list_elem_of_fmap.
    exists (u, options_etag). split; [reflexivity|].
    apply calls_of_plan. eauto.
  - unfold _syncUplinksMetadata, StorageCb._syncUplinksMetadata.
    fold planUplinks handleResponses.
    rewrite (handleResponses_throws pkgName _ u options_etag err); auto.
    unfold planUplinks, StorageCb.planUplinks. fold selectUplinks decideUplink.
    apply list_elem_of_fmap. exists u. rewrite Hdec. auto.
Qed.

(** C9, amended.  The handler of an uplink answer that is the 304
    sentinel: (1) when the iteratee found no record for the uplink in
    [_uplinks], the stamp throws a TypeError and no per-uplink error is
    recorded; (2) when it found one, the record's [fetched] is set to now
    and the error is recorded as that uplink's error; (3) the record the
    handler dereferences is the one [_uplinks] held when the merge
    started, and the etag sent is the etag of that record when there is
    one and the etag of the caller's options when there is none; (4) so
    a merge whose options carry an etag sends it to a selected uplink
    without a record, and when that uplink answers 304 the exception
    escapes the merge. *)
Theorem sync_304_dereferences_uplink_record pkgName upLink st r err :
  r_err r = Some err ->
  remoteStatus err = Some 304 ->
  onRemoteMetadata pkgName upLink None st r = inl undefinedFetched
  /\ (forall meta,
        onRemoteMetadata pkgName upLink (Some meta) st r =
        inr ({| StorageCb.packageInfo :=
                  with_uplinks (StorageCb.packageInfo st)
                    (<[upname upLink := {| etag := etag meta; fetched := now |}]>
                       (_uplinks (StorageCb.packageInfo st)));
                StorageCb.found := StorageCb.found st |},
             Errors [err]))
  /\ (forall options_etag info m e,
        decideUplink options_etag info upLink = StorageCb.Fetch m e ->
        m = _uplinks info !! upname upLink
        /\ e = match m with
               | Some meta => etag meta
               | None => options_etag
               end)
  /\ (forall data uplinksLook options_etag,
        upLink ∈ selectUplinks pkgName uplinksLook ->
        _uplinks (default (generatePackageTemplate pkgName) data)
          !! upname upLink = None ->
        getRemoteMetadata upLink pkgName options_etag = r ->
        (upLink, pkgName, options_etag)
          ∈ (runRemote getRemoteMetadata
               (syncUplinks pkgName data uplinksLook options_etag)).1
        /\ _syncUplinksMetadata pkgName data uplinksLook options_etag =
           Uncaught undefinedFetched).
Proof.
  intros Herr H304. split; [eapply onRemoteMetadata_304_no_record; eauto|].
  split.
  { unfold onRemoteMetadata, StorageCb.onRemoteMetadata.
    rewrite Herr. rewrite bool_decide_eq_true_2 by exact H304. reflexivity. }
  split.
  - intros options_etag info m e Hdec.
    split; [eapply decideUplink_meta; exact Hdec|].
    unfold decideUplink, StorageCb.decideUplink in Hdec.
    destruct (_uplinks info !! upname upLink) as [meta|].
    + destruct (_ && _); [discriminate|]. injection Hdec as <- <-. reflexivity.
    + injection Hdec as <- <-. reflexivity.
  - intros data uplinksLook options_etag Hin Hnone Hanswer.
    apply (sync_304_without_record pkgName data uplinksLook options_etag upLink err);
      auto.
    unfold uplinkError. rewrite Hanswer. exact Herr.
Qed.

(** *** The callback-based read path *)

Lemma normalizeDistTags_consistent m : dist_tags_consistent (normalizeDistTags m).
Proof.
  intros tag v. unfold normalizeDistTags, with_dist_tags. simpl.
  intros H. apply map_lookup_filter_Some in H as [_ H]. exact H.
Qed.

Lemma with_attachments_consistent m a :
  dist_tags_consistent m -> dist_tags_consistent (with_attachments m a).
Proof. intros H tag v. simpl. apply H. Qed.

(** Every manifest the deprecated [getPackage] calls back with has
    consistent dist-tags and no attachments. *)
Lemma getPackage_normalizes pkgName uplinksLook keepUpLinkData local result errs :
  getPackage pkgName uplinksLook keepUpLinkData local =
    Callback None (Some result) errs ->
  dist_tags_consistent result /\ _attachments result = ∅.
Proof.
  unfold getPackage, StorageCb.getPackage. destruct local as [err data].
  destruct (match err with Some e => isInternalFailure e | None => false end).
  - destruct err; discriminate.
  - unfold StorageCb.getPackageSynUpLinksCallback.
    destruct (StorageCb._syncUplinksMetadata _ _ _ _ _ _ _ _ _ _ _ _ _)
      as [[e|] [m|] ue|e]; try discriminate.
    intros [= <- _]. split; [|reflexivity].
    apply with_attachments_consistent, normalizeDistTags_consistent.
Qed.

Let getTarball_local404 :=
  StorageCb.getTarball_local404 now uplinks hasProxyTo getRemoteMetadata
    validateMetadata mergeUplinkTimeIntoLocal mergeVersions updateVersions
    filters.

(** The deprecated [getTarball] after a local 404 serves a file only
    from a [_distfiles] entry it has found, in the local manifest or in
    the manifest handed back by the sync. *)
Lemma getTarball_serves_listed_file pkgName filename err404 local file :
  getTarball_local404 pkgName filename err404 local = StorageCb.ServeFile file ->
  (exists info, local = (None, Some info) /\ _distfiles info !! filename = Some file)
  \/ (exists info errs,
        _syncUplinksMetadata pkgName local.2 None None =
          Callback None (Some info) errs
        /\ _distfiles info !! filename = Some file).
Proof.
  unfold getTarball_local404, StorageCb.getTarball_local404.
  destruct local as [err info]. fold _syncUplinksMetadata. simpl.
  destruct err as [e|], info as [info|]; simpl;
    try (destruct (_syncUplinksMetadata _ _ _ _) as [[e'|] [i'|] ue|e'];
         try discriminate;
         destruct (_distfiles i' !! filename) as [f|] eqn:Hf; [|discriminate];
         intros [= <-]; right; eauto).
  destruct (_distfiles info !! filename) as [f|] eqn:Hlocal.
  - intros [= <-]. left. eauto.
  - destruct (_syncUplinksMetadata _ _ _ _) as [[e'|] [i'|] ue|e'];
      try discriminate.
    destruct (_distfiles i' !! filename) as [f|] eqn:Hf; [|discriminate].
    intros [= <-]. right. eauto.
Qed.

(** And when the entry is absent from both, the read stream emits the
    404 of the local storage. *)
Lemma getTarball_not_listed pkgName filename err404 info info' errs :
  _distfiles info !! filename = None ->
  _syncUplinksMetadata pkgName (Some info) None None =
    Callback None (Some info') errs ->
  _distfiles info' !! filename = None ->
  getTarball_local404 pkgName filename err404 (None, Some info) =
    StorageCb.EmitError err404.
Proof.
  intros Hlocal Hsync Hsynced.
  unfold getTarball_local404, StorageCb.getTarball_local404.
  fold _syncUplinksMetadata. rewrite Hlocal, Hsync, Hsynced. reflexivity.
Qed.

End Sync.

(** ** Storage.getTarballNext and Storage.getPackageNext *)

Section StorageNext.

Context {S : Type} (env : Env S).

(** C5.  [getTarballNext] after a local miss (the local stream fails
    with code ENOENT or 404) on a package whose local manifest has no
    [_distfiles] entry for the file: the upstream fetch is started all
    the same, with an undefined tarball URL, and the caller gets whatever
    that fetch produces; NOT_FOUND is not raised by the lookup. *)
Theorem getTarballNext_fetches_undefined_url pkgName filename
    s stream s1 err s2 manifest s3 :
  env (getLocalTarball pkgName filename) s = (inr stream, s1) ->
  env (pipeline stream) s1 = (inl err, s2) ->
  isLocalMiss err = true ->
  env (getPackageLocalMetadata pkgName) s2 = (inr manifest, s3) ->
  _distfiles manifest !! filename = None ->
  let answer := env (fetchTarllballFromUpstream pkgName None) s3 in
  run env (Storage.getTarballNext pkgName filename) s =
    (match answer.1 with
     | inl e => inl e
     | inr remoteStream => inr (Some remoteStream)
     end,
     answer.2,
     [(getLocalTarball pkgName filename, None);
      (pipeline stream, Some err);
      (getPackageLocalMetadata pkgName, None);
      (fetchTarllballFromUpstream pkgName None,
       failure (fetchTarllballFromUpstream pkgName None) answer.1)]).
Proof.
  intros Hlocal Hpipe Hmiss Hmeta Hdist answer.
  unfold Storage.getTarballNext. simpl. rewrite Hlocal. simpl.
  rewrite Hpipe. simpl.
  rewrite Hmiss. simpl. rewrite Hmeta. simpl. rewrite Hdist.
  subst answer. destruct (env (fetchTarllballFromUpstream pkgName None) s3)
    as [[e|remoteStream] s4]; reflexivity.
Qed.

Variable cleanUpLinksRef : Manifest -> option bool -> Manifest.

(** When the sync hands back no manifest, [getPackageNext] returns the
    local manifest as it was read. *)
Lemma getPackageNext_returns_local_unchanged pkgName uplinksLook keepUpLinkData
    s data s1 errs s2 :
  env (getPackageLocalMetadata pkgName) s = (inr data, s1) ->
  env (syncUplinksMetadataNext pkgName (Some data) uplinksLook) s1 =
    (inr (None, errs), s2) ->
  run env (Storage.getPackageNext cleanUpLinksRef pkgName uplinksLook keepUpLinkData) s =
    (inr (data, errs), s2,
     [(getPackageLocalMetadata pkgName, None);
      (syncUplinksMetadataNext pkgName (Some data) uplinksLook, None)]).
Proof.
  intros Hlocal Hsync. unfold Storage.getPackageNext. simpl.
  rewrite Hlocal. simpl. rewrite Hsync. reflexivity.
Qed.

(** When the sync hands back a manifest, the one returned has consistent
    dist-tags and no attachments. *)
Lemma getPackageNext_normalizes_synced pkgName uplinksLook keepUpLinkData
    s data s1 remote errs s2 :
  env (getPackageLocalMetadata pkgName) s = (inr data, s1) ->
  env (syncUplinksMetadataNext pkgName (Some data) uplinksLook) s1 =
    (inr (Some remote, errs), s2) ->
  exists result,
    outcome env (Storage.getPackageNext cleanUpLinksRef pkgName uplinksLook
                   keepUpLinkData) s = inr (result, errs)
    /\ dist_tags_consistent result /\ _attachments result = ∅.
Proof.
  intros Hlocal Hsync. unfold outcome, Storage.getPackageNext. simpl.
  rewrite Hlocal. simpl. rewrite Hsync. simpl.
  eexists. split; [reflexivity|]. split; [|reflexivity].
  apply with_attachments_consistent, normalizeDistTags_consistent.
Qed.

End StorageNext.

(** C6.  [getPackageNext] on a package whose local manifest has a tag
    pointing to a missing version, when the uplink sync hands back no
    manifest: the local manifest is returned as read, with the dangling
    tag and its attachments. *)
Theorem getPackageNext_returns_unnormalized_local :
  outcome (storageEnv localOnlyWorld)
    (Storage.getPackageNext (fun m _ => m) "pkg" (Some true) None) tt
  = inr (danglingManifest, [])
  /\ dist_tags danglingManifest !! "latest" = Some "1.0.0"
  /\ versions danglingManifest !! "1.0.0" = None
  /\ ~ dist_tags_consistent danglingManifest
  /\ _attachments danglingManifest <> ∅.
Proof.
  split; [reflexivity|]. split; [reflexivity|]. split; [reflexivity|]. split.
  - intros H. destruct (H "latest" "1.0.0" eq_refl) as [v Hv]. discriminate.
  - intros H. apply (f_equal (fun m => m !! "pkg-1.0.0.tgz")) in H.
    discriminate.
Qed.

(** ** Tarball uploads *)

Section Uploads.

Variable this_path : string.
Variable sanitzers : string -> string.
Variable win32 : bool.

Let step := UploadTarball.step this_path sanitzers win32.
Let runSchedule := UploadTarball.runSchedule this_path sanitzers win32.

(** An upload that was refused: it has no file stream, and CONFLICT is
    all it has emitted. *)
Let refused (s : UploadTarball.State) : Prop :=
  UploadTarball.accessed s = true /\ UploadTarball.file s = false
  /\ UploadTarball.fd s = false
  /\ UploadTarball.emitted s = [UploadTarball.EmitError (fSError fileExist)].

Lemma refused_step fileName rand a fs s fs' s' :
  refused s -> step fileName rand a (fs, s) = Some (fs', s') ->
  fs' = fs /\ refused s'.
Proof.
  intros (Hacc & Hfile & Hfd & Hem). unfold step, UploadTarball.step.
  destruct a; rewrite ?Hacc, ?Hfile, ?Hfd; simpl; try discriminate.
  destruct (UploadTarball._ended s); [discriminate|].
  intros H. inversion H; subst. split; [reflexivity|].
  repeat split; auto.
Qed.

Lemma refused_run fileName rand sched fs s w :
  refused s ->
  runSchedule sched (fs, [UploadTarball.mkUpload fileName rand s]) = Some w ->
  w.1 = fs /\ exists s', w.2 = [UploadTarball.mkUpload fileName rand s'] /\ refused s'.
Proof.
  revert s. unfold runSchedule.
  induction sched as [|[i a] sched IH]; intros s Hs;
    cbn [UploadTarball.runSchedule].
  - intros [= <-]. eauto.
  - unfold UploadTarball.stepAt. destruct i as [|i]; [|discriminate].
    cbn [lookup list_lookup UploadTarball.up_name UploadTarball.up_rand
         UploadTarball.up_state].
    fold (step fileName rand a (fs, s)).
    destruct (step fileName rand a (fs, s)) as [[fs' s']|] eqn:Hstep;
      [|discriminate].
    destruct (refused_step _ _ _ _ _ _ _ Hs Hstep) as [-> Hs'].
    cbn [insert list_insert]. apply IH. exact Hs'.
Qed.

(** C3, amended.  A [writeTarball] call whose existence check finds the
    target file present: the upload stream emits CONFLICT (409, code
    EEXISTS) and nothing else, and whatever happens to the stream
    afterwards, no file is created or written. *)
Theorem writeTarball_conflict_when_target_exists fileName rand fs sched w :
  is_Some (fs !! UploadTarball.pathName this_path sanitzers fileName) ->
  runSchedule ((0%nat, UploadTarball.AccessCallback) :: sched)
    (fs, [UploadTarball.newUpload fileName rand]) = Some w ->
  w.1 = fs
  /\ (exists s', w.2 = [UploadTarball.mkUpload fileName rand s']
        /\ UploadTarball.emitted s' =
             [UploadTarball.EmitError (fSError fileExist)])
  /\ status (fSError fileExist) = Some HTTP_STATUS.CONFLICT
  /\ code (fSError fileExist) = Some (CodeStr "EEXISTS").
Proof.
  intros Hexists. unfold runSchedule. cbn [UploadTarball.runSchedule].
  unfold UploadTarball.stepAt, UploadTarball.newUpload. simpl.
  rewrite bool_decide_eq_true_2 by exact Hexists. simpl.
  intros Hrun. apply refused_run in Hrun as (Hfs & s' & Hw & Hs');
    [|repeat split].
  split; [exact Hfs|]. split; [|split; reflexivity].
  exists s'. split; [exact Hw|]. apply Hs'.
Qed.

(** And a call whose check finds the target absent is let through: it
    gets its file stream and emits nothing, whatever other uploads to
    the same name are under way. *)
Lemma writeTarball_passes_check_when_target_absent fileName rand fs s :
  UploadTarball.accessed s = false ->
  fs !! UploadTarball.pathName this_path sanitzers fileName = None ->
  exists s',
    step fileName rand UploadTarball.AccessCallback (fs, s) = Some (fs, s')
    /\ UploadTarball.file s' = true
    /\ UploadTarball.emitted s' = UploadTarball.emitted s.
Proof.
  intros Hacc Habsent. unfold step, UploadTarball.step.
  rewrite Hacc, Habsent.
  rewrite bool_decide_eq_false_2 by (intros [x Hx]; discriminate).
  eexists. split; [reflexivity|]. split; reflexivity.
Qed.

End Uploads.

Section Cancel.

Variable this_path : string.
Variable sanitzers : string -> string.

Let pathName := WriteTarballNext.pathName this_path sanitzers.
Let temporalName := WriteTarballNext.temporalName this_path.

(** [writeTarballNext] (not on win32) cancelled while the stream is open:
    once the stream has closed, whatever was staged is at the final path
    and the staging path is free. *)
Lemma writeTarballNext_abort_renames pkgName rand (fs : FS) s staged :
  temporalName pkgName rand <> pathName pkgName ->
  WriteTarballNext.opened s = true ->
  WriteTarballNext.aborted s = false ->
  WriteTarballNext.closed s = false ->
  WriteTarballNext.onClose s = [RenameOnClose] ->
  fs !! temporalName pkgName rand = Some staged ->
  exists s',
    WriteTarballNext.runActions this_path sanitzers false pkgName rand
      [WriteTarballNext.SignalAbort; WriteTarballNext.ErrorEvent;
       WriteTarballNext.CloseEvent] (fs, s)
    = Some (<[pathName pkgName := staged]> (delete (temporalName pkgName rand) fs),
            s')
    /\ WriteTarballNext.closed s' = true.
Proof.
  intros Hne Hopen Habort Hclosed Hlisten Hstaged.
  unfold WriteTarballNext.runActions, WriteTarballNext.step.
  rewrite Habort, Hclosed, Hopen, Hlisten. cbn -[WriteTarballNext.runCloseListener].
  eexists. split.
  - do 2 f_equal.
    unfold WriteTarballNext.runCloseListener, WriteTarballNext.removeTempFile,
      fsAfter, LocalFS.renameTmpNext, LocalFS.rename, LocalFS.unlink.
    fold (temporalName pkgName rand) (pathName pkgName).
    cbn. rewrite Hstaged. cbn.
    rewrite lookup_insert_ne by (intros Heq; apply Hne; symmetry; exact Heq).
    rewrite lookup_delete_eq. cbn.
    rewrite lookup_insert_ne by (intros Heq; apply Hne; symmetry; exact Heq).
    rewrite lookup_delete_eq. reflexivity.
  - reflexivity.
Qed.

End Cancel.

(** C3, counterexample.  Two concurrent [writeTarball] calls on the same
    file name: both emit success, neither gets CONFLICT, and the file
    holds what the second one wrote. *)
Lemma writeTarball_concurrent_both_succeed :
  exists fs u1 u2,
    UploadTarball.runSchedule "/storage/pkg" stripSeparators false
      overlappingUploads
      (∅, [UploadTarball.newUpload "p-1.0.0.tgz" "1";
           UploadTarball.newUpload "p-1.0.0.tgz" "2"])
    = Some (fs, [u1; u2])
    /\ UploadTarball.succeeded u1 = true
    /\ UploadTarball.succeeded u2 = true
    /\ UploadTarball.conflicted u1 = false
    /\ UploadTarball.conflicted u2 = false
    /\ fs !! "/storage/pkg/p-1.0.0.tgz" = Some (RawText "second").
Proof.
  eexists _, _, _. split; [vm_compute; reflexivity|].
  repeat split; vm_compute; reflexivity.
Qed.

(** C4.  [writeTarballNext] cancelled through its signal after the
    staging file was opened and a chunk written: when the stream closes,
    the staged content is renamed to the final path, where it stays; the
    staging file is gone only because it was renamed. *)
Theorem writeTarballNext_abort_publishes_partial_file :
  exists s,
    WriteTarballNext.runActions "/storage/pkg" stripSeparators false
      "p-1.0.0.tgz" "7"
      [WriteTarballNext.FileOpen; WriteTarballNext.Data "partial";
       WriteTarballNext.SignalAbort; WriteTarballNext.ErrorEvent;
       WriteTarballNext.CloseEvent]
      (∅, WriteTarballNext.init)
    = Some ({[ "/storage/pkg/p-1.0.0.tgz" := RawText "partial" ]}, s)
    /\ WriteTarballNext.aborted s = true
    /\ WriteTarballNext.closed s = true.
Proof.
  eexists. split; [vm_compute; reflexivity|]. split; reflexivity.
Qed.

(** [writeTarballNext] makes no existence check: an upload to a file
    name that is already stored replaces the stored file. *)
Lemma writeTarballNext_replaces_existing :
  exists s,
    WriteTarballNext.runActions "/storage/pkg" stripSeparators false
      "p-1.0.0.tgz" "7"
      [WriteTarballNext.FileOpen; WriteTarballNext.Data "new";
       WriteTarballNext.End; WriteTarballNext.CloseEvent]
      (tarballDisk, WriteTarballNext.init)
    = Some ({[ "/storage/pkg/p-1.0.0.tgz" := RawText "new" ]}, s).
Proof. eexists. vm_compute. reflexivity. Qed.

(** The deprecated [writeTarball] aborted at the same point leaves
    neither file behind. *)
Lemma writeTarball_abort_cleans_up :
  exists u,
    UploadTarball.runSchedule "/storage/pkg" stripSeparators false
      [ (0%nat, UploadTarball.AccessCallback); (0%nat, UploadTarball.FileOpen);
        (0%nat, UploadTarball.Data "partial"); (0%nat, UploadTarball.Abort);
        (0%nat, UploadTarball.FileClose) ]
      (∅, [UploadTarball.newUpload "p-1.0.0.tgz" "7"])
    = Some (∅, [u]).
Proof. eexists. vm_compute. reflexivity. Qed.

(** C8.  [writeTarball] and [writeTarballNext] called with the file name
    "../evil.tgz": the final path is built from the sanitized name and
    stays in the storage root, but the staging path is built from the
    name as given, and the staging file is created outside the root. *)
Theorem writeTarball_staging_path_escapes_root :
  let root := "/storage/pkg" in
  UploadTarball.pathName root stripSeparators "../evil.tgz"
    = "/storage/pkg/..evil.tgz"
  /\ UploadTarball.temporalName root "../evil.tgz" "123"
    = "/storage/evil.tgz.tmp-123"
  /\ WriteTarballNext.temporalName root "../evil.tgz" "123"
    = "/storage/evil.tgz.tmp-123"
  /\ path.inside root "/storage/pkg/..evil.tgz" = true
  /\ path.inside root "/storage/evil.tgz.tmp-123" = false
  /\ (exists s,
        WriteTarballNext.runActions root stripSeparators false "../evil.tgz" "123"
          [WriteTarballNext.FileOpen; WriteTarballNext.Data "x"]
          (∅, WriteTarballNext.init)
        = Some ({[ "/storage/evil.tgz.tmp-123" := RawText "x" ]}, s)).
Proof.
  repeat split; try (vm_compute; reflexivity).
  eexists. vm_compute. reflexivity.
Qed.

(** ** Concrete runs *)

(** C2, counterexample.  The package is absent locally, npmjs times out
    and the mirror answers 404: every uplink failed and not all errors
    are timeout-class, yet the sync calls back with SERVICE_UNAVAILABLE
    (503), not NOT_FOUND (404). *)
Lemma sync_one_timeout_is_service_unavailable :
  let result :=
    StorageCb._syncUplinksMetadata 10000 [npmjs; mirror] allProxied oneTimesOut
      acceptAll keepTime keepLocal storeAsIs [] "pkg" None None None in
  r_err (oneTimesOut npmjs "pkg" None) = Some timedOut
  /\ r_err (oneTimesOut mirror "pkg" None) = Some notOnUplink
  /\ isTimeoutCode timedOut = true
  /\ isTimeoutCode notOnUplink = false
  /\ result =
       Callback
         (Some (errorUtils.getServiceUnavailable None))
         None (Some [Errors [timedOut]; Errors [notOnUplink]])
  /\ callbackStatus result = Some HTTP_STATUS.SERVICE_UNAVAILABLE
  /\ callbackStatus result <> Some HTTP_STATUS.NOT_FOUND.
Proof.
  repeat split; try (vm_compute; reflexivity).
  vm_compute. discriminate.
Qed.

Lemma sync_absent_all_uplinks_fail_witness :
  StorageCb._syncUplinksMetadata 10000 [npmjs; mirror] allProxied oneTimesOut
    acceptAll keepTime keepLocal storeAsIs [] "pkg" None None None
  = Callback
      (Some (errorUtils.getServiceUnavailable None))
      None (Some [Errors [timedOut]; Errors [notOnUplink]]).
Proof.
  refine (sync_absent_all_uplinks_fail 10000 [npmjs; mirror] allProxied oneTimesOut
            acceptAll keepTime keepLocal storeAsIs [] "pkg" None None _).
  intros u Hu. vm_compute in Hu.
  apply elem_of_cons in Hu as [->|Hu].
  - exists timedOut. split; [reflexivity|discriminate].
  - apply elem_of_cons in Hu as [->|Hu]; [|inversion Hu].
    exists notOnUplink. split; [reflexivity|discriminate].
Defined.

Lemma sync_skips_fresh_uplink_witness :
  let merge :=
    runRemote oneTimesOut
      (StorageCb.syncUplinks 10000 [npmjs; mirror] allProxied acceptAll keepTime
         keepLocal storeAsIs [] "pkg" (Some cachedManifest) None None) in
  merge.2 =
    StorageCb._syncUplinksMetadata 10000 [npmjs; mirror] allProxied oneTimesOut
      acceptAll keepTime keepLocal storeAsIs [] "pkg" (Some cachedManifest)
      None None
  /\ (forall name e, (npmjs, name, e) ∉ merge.1)
  /\ (forall v,
        v ∈ StorageCb.selectUplinks [npmjs; mirror] allProxied "pkg" None ->
        match _uplinks cachedManifest !! upname v with
        | Some mv => fetched mv = 0 \/ maxage v <= 10000 - fetched mv
        | None => True
        end ->
        (v, "pkg",
         match _uplinks cachedManifest !! upname v with
         | Some mv => etag mv
         | None => None
         end) ∈ merge.1).
Proof.
  apply (sync_skips_fresh_uplink 10000 [npmjs; mirror] allProxied oneTimesOut
           acceptAll keepTime keepLocal storeAsIs [] "pkg"
           cachedManifest None None npmjs (mkUpLinkMeta (Some "etag-1") 9900)).
  - reflexivity.
  - simpl. lia.
  - simpl. lia.
Defined.

(** In that merge only the mirror is called, with the etag of its
    record. *)
Lemma sync_calls_only_stale_uplink :
  (runRemote oneTimesOut
     (StorageCb.syncUplinks 10000 [npmjs; mirror] allProxied acceptAll keepTime
        keepLocal storeAsIs [] "pkg" (Some cachedManifest) None None)).1
  = [(mirror, "pkg", Some "etag-2")].
Proof. vm_compute. reflexivity. Qed.

(** C7, counterexample.  The record of the archive uplink has [fetched]
    0 and the merge starts at 1700000000000, within the [maxage] of that
    uplink: [now - fetched < maxage] holds, and yet the merge calls the
    uplink, since the guard [fetched && ...] takes 0 for a timestamp
    that is not set. *)
Lemma sync_calls_uplink_whose_fetched_is_zero :
  let merge :=
    runRemote oneTimesOut
      (StorageCb.syncUplinks 1700000000000 [archive] allProxied acceptAll
         keepTime keepLocal storeAsIs [] "pkg" (Some unstampedManifest)
         None None) in
  _uplinks unstampedManifest !! upname archive
    = Some (mkUpLinkMeta (Some "etag-1") 0)
  /\ 1700000000000 - 0 < maxage archive
  /\ merge.1 = [(archive, "pkg", Some "etag-1")].
Proof.
  split; [reflexivity|]. split; [reflexivity|]. vm_compute. reflexivity.
Qed.

Lemma sync_304_dereferences_uplink_record_witness :
  let st := {| StorageCb.packageInfo := cachedManifest; StorageCb.found := true |} in
  let r := mkRemote (Some notModified) None None in
  StorageCb.onRemoteMetadata 10000 acceptAll keepTime keepLocal "pkg" npmjs None st r
    = inl (TypeError "Cannot set properties of undefined (setting 'fetched')")
  /\ StorageCb.onRemoteMetadata 10000 acceptAll keepTime keepLocal "pkg" npmjs
       (Some (mkUpLinkMeta (Some "etag-1") 9900)) st r
     = inr ({| StorageCb.packageInfo :=
                 with_uplinks cachedManifest
                   (<["npmjs" := mkUpLinkMeta (Some "etag-1") 10000]>
                      (_uplinks cachedManifest));
               StorageCb.found := true |},
            Errors [notModified])
  /\ StorageCb._syncUplinksMetadata 10000 [npmjs] allProxied allNotModified
       acceptAll keepTime keepLocal storeAsIs [] "pkg" None None None
     = Uncaught (TypeError "Cannot set properties of undefined (setting 'fetched')").
Proof.
  intros st r.
  destruct (sync_304_dereferences_uplink_record 10000 [npmjs] allProxied
              allNotModified acceptAll keepTime keepLocal storeAsIs []
              "pkg" npmjs st r notModified eq_refl eq_refl)
    as (H1 & H2 & _ & H4).
  split; [exact H1|]. split; [exact (H2 (mkUpLinkMeta (Some "etag-1") 9900))|].
  refine (proj2 (H4 None None None _ eq_refl eq_refl)).
  vm_compute. left.
Defined.

(** C9, counterexample.  The package has no record for npmjs and the
    options of the merge carry an etag: the etag is sent to npmjs all the
    same, npmjs answers 304, and the stamp throws.  An etag is sent
    without a record. *)
Lemma sync_etag_sent_without_record :
  let merge :=
    runRemote allNotModified
      (StorageCb.syncUplinks 10000 [npmjs] allProxied acceptAll keepTime
         keepLocal storeAsIs [] "pkg" None None (Some "opt-etag")) in
  _uplinks (generatePackageTemplate "pkg") !! upname npmjs = None
  /\ StorageCb.decideUplink 10000 (Some "opt-etag")
       (generatePackageTemplate "pkg") npmjs
     = StorageCb.Fetch None (Some "opt-etag")
  /\ merge
     = ([(npmjs, "pkg", Some "opt-etag")],
        Uncaught (TypeError "Cannot set properties of undefined (setting 'fetched')")).
Proof.
  split; [reflexivity|]. split; [reflexivity|]. vm_compute. reflexivity.
Qed.


Lemma writeTarball_conflict_when_target_exists_witness :
  exists s',
    UploadTarball.runSchedule "/storage/pkg" stripSeparators false
      [(0%nat, UploadTarball.AccessCallback); (0%nat, UploadTarball.SourceEnd)]
      (tarballDisk, [UploadTarball.newUpload "p-1.0.0.tgz" "1"])
    = Some (tarballDisk, [UploadTarball.mkUpload "p-1.0.0.tgz" "1" s'])
    /\ UploadTarball.emitted s' = [UploadTarball.EmitError (fSError fileExist)].
Proof.
  destruct (UploadTarball.runSchedule "/storage/pkg" stripSeparators false
              [(0%nat, UploadTarball.AccessCallback); (0%nat, UploadTarball.SourceEnd)]
              (tarballDisk, [UploadTarball.newUpload "p-1.0.0.tgz" "1"]))
    as [[fs' ups]|] eqn:Hrun; [|vm_compute in Hrun; discriminate].
  destruct (writeTarball_conflict_when_target_exists "/storage/pkg"
              stripSeparators false "p-1.0.0.tgz" "1" tarballDisk
              [(0%nat, UploadTarball.SourceEnd)] (fs', ups))
    as (Hfs & (s' & Hups & Hem) & _).
  - eexists. vm_compute. reflexivity.
  - exact Hrun.
  - simpl in Hfs, Hups. subst fs' ups. exists s'. split; [reflexivity|exact Hem].
Defined.

Lemma getTarballNext_fetches_undefined_url_witness :
  run (storageEnv localMissWorld)
    (Storage.getTarballNext "pkg" "pkg-1.0.0.tgz") tt
  = (inr (Some 2%nat), tt,
     [(getLocalTarball "pkg" "pkg-1.0.0.tgz", None);
      (pipeline 1%nat, Some (sysError noSuchFile));
      (getPackageLocalMetadata "pkg", None);
      (fetchTarllballFromUpstream "pkg" None, None)]).
Proof.
  exact (getTarballNext_fetches_undefined_url (storageEnv localMissWorld)
           "pkg" "pkg-1.0.0.tgz" tt 1%nat tt (sysError noSuchFile) tt
           (generatePackageTemplate "pkg") tt
           eq_refl eq_refl eq_refl eq_refl eq_refl).
Defined.

(** * Further properties *)

(** ** local-fs.ts: writing, creating, reading and deleting a manifest *)



Lemma returns_only_run {S A : Type} (env : Env S) (P : A -> Prop) (p : io A)
    (s : S) a :
  returns_only P p -> outcome env p s = inr a -> P a.
Proof.
  unfold outcome. revert s; induction p as [a'|e|c k IH]; intros s Hp; simpl.
  - intros [= <-]. exact Hp.
  - discriminate.
  - destruct (env c s) as [r s1]. specialize (IH r s1 (Hp r)).
    destruct (run env (k r) s1) as [[o s2] t2]. exact IH.
Qed.

Lemma returns_only_bind {A B : Type} (Q : A -> Prop) (P : B -> Prop)
    (p : io A) (f : A -> io B) :
  returns_only Q p -> (forall a, Q a -> returns_only P (f a)) ->
  returns_only P (bind p f).
Proof.
  intros Hp Hf. induction p as [a|e|c k IH]; simpl in *; auto.
Qed.

Section ManifestFiles.

Variable this_path : string.
Variable sanitzers : string -> string.
Context {S : Type} (env : Env S).

Let pkgJson : string := LocalFS._getStorage this_path sanitzers packageJSONFileName.

(** X1.  [savePackageNext] off win32 when the staging file is written but
    cannot be renamed onto package.json: [renameTmpNext] catches the
    failure and unlinks the staging file, and when that unlink works the
    save resolves as if the manifest had been stored; no directory is
    made and nothing is retried. *)
Theorem savePackageNext_hides_failed_rename pkgName value (s : S) r s1 s2 c s3 s4 :
  let staging := pkgJson ++ ".tmp" ++ r in
  env Math_random s = (r, s1) ->
  env (writeFilePromise staging (JsonText value)) s1 = (inr tt, s2) ->
  env (renamePromise staging pkgJson) s2 = (inl c, s3) ->
  env (unlinkPromise staging) s3 = (inr tt, s4) ->
  run env (LocalFS.savePackageNext this_path sanitzers false pkgName value) s =
    (inr tt, s4,
     [(Math_random, None);
      (writeFilePromise staging (JsonText value), None);
      (renamePromise staging pkgJson, Some (sysError c));
      (unlinkPromise staging, None)]).
Proof.
  intros staging Hrand Hwrite Hrename Hunlink.
  unfold LocalFS.savePackageNext, LocalFS.writeFileNext,
    LocalFS.writeTempFileAndRename, tempFile, LocalFS.renameTmpNext,
    LocalFS.writeFile, LocalFS.rename, LocalFS.unlink, LocalFS._convertToString.
  fold pkgJson. cbn -[String.append]. rewrite Hrand.
  cbn -[String.append]. fold staging. rewrite Hwrite.
  cbn -[String.append]. rewrite Hrename.
  cbn -[String.append]. rewrite Hunlink. reflexivity.
Qed.

(** X2.  The deprecated [savePackage] in the same situation: the failure
    of the rename (other than ENOENT, which makes [_writeFile] create the
    directory and try again) is handed to the callback: the unlink of the
    staging file is issued first, and the callback receives the error of
    the rename whatever that unlink answers. *)
Theorem savePackage_reports_failed_rename pkgName value (s : S) r s1 s2 c s3 u s4 :
  let staging := pkgJson ++ ".tmp" ++ r in
  env Math_random s = (r, s1) ->
  env (writeFilePromise staging (JsonText value)) s1 = (inr tt, s2) ->
  env (renamePromise staging pkgJson) s2 = (inl c, s3) ->
  c <> noSuchFile ->
  env (unlinkPromise staging) s3 = (u, s4) ->
  run env (LocalFSCb.savePackage this_path sanitzers false pkgName value) s =
    (inr (Some (sysError c)), s4,
     [(Math_random, None);
      (writeFilePromise staging (JsonText value), None);
      (renamePromise staging pkgJson, Some (sysError c));
      (unlinkPromise staging, failure (unlinkPromise staging) u)]).
Proof.
  intros staging Hrand Hwrite Hrename Hc Hunlink.
  unfold LocalFSCb.savePackage, LocalFSCb._writeFile, LocalFSCb.createTempFile,
    tempFile, LocalFS.renameTmp, LocalFS._convertToString.
  fold pkgJson. rewrite run_bind.
  cbn -[String.append]. rewrite Hrand.
  cbn -[String.append]. fold staging. rewrite Hwrite.
  cbn -[String.append]. rewrite Hrename.
  cbn -[String.append]. rewrite Hunlink.
  cbn -[String.append]. rewrite code_is_sysError.
  rewrite bool_decide_eq_false_2 by exact Hc. reflexivity.
Qed.

(** X3.  [renameTmpNext] on win32 when the target exists: the target is
    renamed aside and the renamed file unlinked, and when both work the
    function returns; the rename of the source onto the target sits in
    the [catch] block and is never issued. *)
Theorem renameTmpNext_win32_never_installs src dst (s : S) r s1 s2 s3 :
  let tmp := dst ++ ".tmp" ++ r in
  env Math_random s = (r, s1) ->
  env (renamePromise dst tmp) s1 = (inr tt, s2) ->
  env (unlinkPromise tmp) s2 = (inr tt, s3) ->
  run env (LocalFS.renameTmpNext true src dst) s =
    (inr tt, s3,
     [(Math_random, None); (renamePromise dst tmp, None); (unlinkPromise tmp, None)]).
Proof.
  intros tmp Hrand Haside Hunlink.
  unfold LocalFS.renameTmpNext, tempFile, LocalFS.rename, LocalFS.unlink.
  cbn -[String.append]. rewrite Hrand.
  cbn -[String.append]. fold tmp. rewrite Haside.
  cbn -[String.append]. rewrite Hunlink. reflexivity.
Qed.

(** X4.  The deprecated [renameTmp] issues the rename of the source onto
    the target on every platform and whatever the file system answers. *)
Theorem renameTmp_always_renames win32 src dst (s : S) :
  renamePromise src dst ∈ (trace env (LocalFS.renameTmp win32 src dst) s).*1.
Proof.
  unfold trace, LocalFS.renameTmp, tempFile. destruct win32; cbn -[String.append].
  - destruct (env Math_random s) as [r s1]. cbn -[String.append].
    destruct (env (renamePromise dst _) s1) as [r1 s2]. cbn -[String.append].
    destruct (env (renamePromise src dst) s2) as [r2 s3].
    destruct r1 as [c1|[]]; cbn -[String.append].
    + destruct r2 as [c2|[]]; cbn -[String.append].
      * destruct (env (unlinkPromise src) s3) as [u s4]. cbn. set_solver.
      * set_solver.
    + destruct (env (unlinkPromise _) s3) as [u s4]. cbn -[String.append].
      destruct r2 as [c2|[]]; cbn -[String.append].
      * destruct (env (unlinkPromise src) s4) as [u' s5]. cbn. set_solver.
      * set_solver.
  - destruct (env (renamePromise src dst) s) as [r s1].
    destruct r as [c|[]]; cbn.
    + destruct (env (unlinkPromise src) s1) as [u s2]. cbn. set_solver.
    + set_solver.
Qed.

(** X5.  [deletePackage] issues one call, the unlink of a path in the
    storage root of the package, for every name that the sanitizer turns
    into one segment without separators other than "..". *)
Theorem deletePackage_unlinks_inside_root fileName (s : S) :
  this_path <> "" ->
  noSeparator (sanitzers fileName) = true ->
  sanitzers fileName <> ".." ->
  exists pathName answer,
    trace env (LocalFSCb.deletePackage this_path sanitzers fileName) s
      = [(unlinkPromise pathName, answer)]
    /\ path.inside this_path pathName = true.
Proof.
  intros Hroot Hsep Hup.
  unfold trace, LocalFSCb.deletePackage, LocalFS.unlink. cbn [run].
  destruct (env (unlinkPromise _) s) as [r s1].
  destruct r as [c|[]]; cbn; eexists _, _; (split; [reflexivity|]);
    apply _getStorage_inside_root; assumption.
Qed.

Variable win32 : bool.

Let reportsSystemError (r : option JsError) : Prop :=
  match r with Some e => isSystemError e | None => True end.

Lemma renameTmp_returns src dst :
  returns_only reportsSystemError (LocalFS.renameTmp win32 src dst).
Proof.
  unfold LocalFS.renameTmp, tempFile. destruct win32; simpl.
  - intros r r1 r2. destruct r1 as [c1|[]], r2 as [c2|[]]; simpl; auto;
      intros; reflexivity.
  - intros [c|[]]; simpl; auto; intros; reflexivity.
Qed.

Lemma createTempFile_returns dest data :
  returns_only reportsSystemError (LocalFSCb.createTempFile win32 dest data).
Proof.
  unfold LocalFSCb.createTempFile, tempFile. simpl.
  intros r [c|[]]; simpl; [reflexivity|]. apply renameTmp_returns.
Qed.

Lemma _writeFile_returns dest data :
  returns_only reportsSystemError (LocalFSCb._writeFile win32 dest data).
Proof.
  unfold LocalFSCb._writeFile.
  apply (returns_only_bind reportsSystemError); [apply createTempFile_returns|].
  intros [e|] He; [|exact I].
  destruct (code_is e noSuchFile); [|exact He].
  cbn [returns_only]. intros [c|[]]; cbn [fsFailure returns_only]; [reflexivity|].
  apply createTempFile_returns.
Qed.

(** X6.  The deprecated [createPackage] and the exclusive open of
    package.json: when the open fails with EEXIST the callback gets
    CONFLICT (409, code EEXISTS) and nothing is written; and a CONFLICT
    handed to the callback can only come from an open that failed with
    EEXIST, since everything [_writeFile] reports is a system error. *)
Theorem createPackage_conflict_only_on_EEXIST pkgName manifest (s : S) :
  let prog := LocalFSCb.createPackage this_path sanitzers win32 pkgName manifest in
  let opening := env (openPromise pkgJson "wx") s in
  (opening.1 = inl "EEXIST" ->
     run env prog s =
       (inr (Some (fSError fileExist)), opening.2,
        [(openPromise pkgJson "wx", Some (sysError "EEXIST"))]))
  /\ (forall e, outcome env prog s = inr (Some e) ->
        status e = Some HTTP_STATUS.CONFLICT ->
        opening.1 = inl "EEXIST").
Proof.
  intros prog opening.
  pose proof (fun s' r => returns_only_run env reportsSystemError
                (LocalFSCb._writeFile win32 pkgJson (JsonText manifest)) s' r
                (_writeFile_returns _ _)) as Hsys.
  unfold outcome in *.
  unfold prog, LocalFSCb.createPackage, LocalFSCb._createFile,
    LocalFS._convertToString.
  fold pkgJson.
  set (w := LocalFSCb._writeFile win32 pkgJson (JsonText manifest)) in *.
  cbn [run]. subst opening.
  destruct (env (openPromise pkgJson "wx") s) as [r s1]. cbn [fst snd].
  destruct r as [c|[]]; cbn [fsFailure failure].
  - rewrite code_is_sysError.
    destruct (decide (c = "EEXIST")) as [->|Hne].
    + split; [intros _; reflexivity|auto].
    + rewrite bool_decide_eq_false_2 by exact Hne.
      split; [intros [= ->]; contradiction|].
      intros e Hout Hst. specialize (Hsys s1 (Some e)).
      destruct (run env w s1) as [[o s2] t]. cbn in Hout, Hsys. subst o.
      specialize (Hsys eq_refl). unfold isSystemError in Hsys. congruence.
  - split; [discriminate|].
    intros e Hout Hst. specialize (Hsys s1 (Some e)).
    destruct (run env w s1) as [[o s2] t]. cbn in Hout, Hsys. subst o.
    specialize (Hsys eq_refl). unfold isSystemError in Hsys. congruence.
Qed.

End ManifestFiles.

(** *** On a disk with directories *)


Section ManifestsOnDisk.

Variable this_path : string.
Variable sanitzers : string -> string.

Let pkgJson : string := LocalFS._getStorage this_path sanitzers packageJSONFileName.
Let savePackageNext := LocalFS.savePackageNext this_path sanitzers false.
Let createPackageNext := LocalFS.createPackageNext this_path sanitzers false.
Let deletePackage := LocalFSCb.deletePackage this_path sanitzers.
Let readPackageNext (d : Disk) :=
  LocalFSRead.readPackageNext this_path sanitzers (diskReadFile d).
Let readPackage (d : Disk) :=
  LocalFSRead.readPackage this_path sanitzers (diskReadFile d).
Let hasPackage (d : Disk) :=
  LocalFSRead.hasPackage this_path sanitzers (diskStat d).








End ManifestsOnDisk.

(** ** local-fs.ts: the lock of updatePackage and updatePackageNext *)

Section LockDiscipline.

Variable this_path : string.
Variable sanitzers : string -> string.
Context {S : Type} (env : Env S).

Let pkgJson : string := LocalFS._getStorage this_path sanitzers packageJSONFileName.
Let unavailable : JsError :=
  errorUtils.getInternalError (Some "resource temporarily unavailable").

(** X10.  [updatePackageNext] releases the lock it has taken after the
    update handler has run, whether the handler returned or threw: when
    the handler threw, or the unlock works, the calls are the locked
    read, those of the handler, and one unlock. *)
Theorem updatePackageNext_unlocks_after_handler
    packageName handleUpdate (s : S) manifest s1 o s2 t r s3 :
  env (readFileNext pkgJson) s = (inr manifest, s1) ->
  run env (handleUpdate manifest) s1 = (o, s2, t) ->
  env (unlockFileNext pkgJson) s2 = (r, s3) ->
  (exists e, o = inl e) \/ r = inr tt ->
  trace env (LocalFS.updatePackageNext this_path sanitzers packageName handleUpdate) s
  = ((readFileNext pkgJson, None) :: t
       ++ [(unlockFileNext pkgJson, failure (unlockFileNext pkgJson) r)])%list.
Proof.
  intros Hlock Hupd Hunlock Hcase. unfold trace.
  destruct o as [e|m'].
  - rewrite (updatePackageNext_locked_failure this_path sanitzers env packageName
               handleUpdate s manifest s1 e s2 t r s3 Hlock Hupd Hunlock).
    reflexivity.
  - destruct Hcase as [[e He]| ->]; [discriminate|].
    rewrite (updatePackageNext_success this_path sanitzers env packageName
               handleUpdate s manifest s1 m' s2 t s3 Hlock Hupd Hunlock).
    reflexivity.
Qed.

(** X11.  [updatePackageNext] when the handler returned and the unlock
    fails: the failure lands in the [catch] block with [locked] set, the
    unlock is issued a second time, and the caller gets INTERNAL_ERROR
    ('resource temporarily unavailable') whatever the second unlock
    answers; the updated manifest is not returned. *)
Theorem updatePackageNext_retries_failed_unlock
    packageName handleUpdate (s : S) manifest s1 updated s2 t err s3 r s4 :
  env (readFileNext pkgJson) s = (inr manifest, s1) ->
  run env (handleUpdate manifest) s1 = (inr updated, s2, t) ->
  env (unlockFileNext pkgJson) s2 = (inl err, s3) ->
  env (unlockFileNext pkgJson) s3 = (r, s4) ->
  run env (LocalFS.updatePackageNext this_path sanitzers packageName handleUpdate) s
  = (inl unavailable, s4,
     ((readFileNext pkgJson, None) :: t
        ++ [(unlockFileNext pkgJson, Some err);
            (unlockFileNext pkgJson, failure (unlockFileNext pkgJson) r)])%list).
Proof.
  intros Hlock Hupd Hfirst Hsecond.
  unfold LocalFS.updatePackageNext, LocalFS._lockAndReadJSONNext.
  simpl. fold pkgJson. rewrite Hlock. simpl.
  rewrite run_try_catch, run_bind, Hupd. simpl.
  unfold LocalFS._unlockJSONNext. fold pkgJson. simpl. rewrite Hfirst. simpl.
  unfold LocalFS._unlockJSONNext. fold pkgJson. simpl. rewrite Hsecond.
  destruct r as [e2|[]]; simpl; rewrite <- app_assoc; reflexivity.
Qed.

(** X12.  The deprecated [updatePackage] with the lock taken: whatever
    [updateHandler] and [onWrite] call back with, the lock is released
    once, as the last call, and [onEnd] gets the error of the handler
    or, when there is none, what [onWrite] called back with, unchanged
    and whatever the unlock answers. *)
Theorem updatePackage_unlocks_last
    pkgName transformPackage (s : S) json s1 :
  env (readFile pkgJson) s = (inr json, s1) ->
  let handled := env (updateHandler json) s1 in
  let written := env (onWrite pkgName (transformPackage json)) handled.2 in
  let result :=
    match handled.1 with Some err => Some err | None => written.1 end in
  let calls :=
    match handled.1 with
    | Some err => [(updateHandler json, Some err)]
    | None => [(updateHandler json, None);
               (onWrite pkgName (transformPackage json), written.1)]
    end in
  exists answer s',
    run env (LocalFS.updatePackage this_path sanitzers pkgName transformPackage) s
    = (inr result, s',
       ((readFile pkgJson, None) :: calls ++ [(unlockFile pkgJson, answer)])%list).
Proof.
  intros Hlock handled written result calls.
  subst result calls written handled.
  unfold LocalFS.updatePackage. simpl. fold pkgJson. rewrite Hlock. simpl.
  destruct (env (updateHandler json) s1) as [[e|] s2]; simpl.
  - unfold LocalFS.unLockCallback, LocalFS._unlockJSON. fold pkgJson. simpl.
    destruct (env (unlockFile pkgJson) s2) as [r s3]. simpl. eauto.
  - destruct (env (onWrite pkgName (transformPackage json)) s2) as [w s3]. simpl.
    unfold LocalFS.unLockCallback, LocalFS._unlockJSON. fold pkgJson. simpl.
    destruct (env (unlockFile pkgJson) s3) as [r s4]. simpl. eauto.
Qed.

End LockDiscipline.

(** ** storage.ts: more on the uplink merge *)

Lemma runFilters_app (fs1 fs2 : list (Manifest -> JsError + Manifest)) : forall m,
  StorageCb.runFilters (fs1 ++ fs2)%list m =
  let '(m1, e1) := StorageCb.runFilters fs1 m in
  let '(m2, e2) := StorageCb.runFilters fs2 m1 in
  (m2, (e1 ++ e2)%list).
Proof.
  induction fs1 as [|f fs1 IH]; intros m; cbn [app StorageCb.runFilters].
  - destruct (StorageCb.runFilters fs2 m) as [m2 e2]. reflexivity.
  - destruct (f m) as [err|m'].
    + rewrite IH. destruct (StorageCb.runFilters fs1 m) as [m1 e1].
      destruct (StorageCb.runFilters fs2 m1) as [m2 e2]. reflexivity.
    + apply IH.
Qed.

(** X13.  A filter plugin that throws is passed over: for filters that
    leave the manifest they were given untouched when they throw, the
    manifest the filters hand on is the one the other filters produce, as
    if the failing filter were not installed. *)
Theorem runFilters_skips_failing_filter
    (fs1 fs2 : list (Manifest -> JsError + Manifest)) f m :
  (forall m', exists err, f m' = inl err) ->
  (StorageCb.runFilters (fs1 ++ f :: fs2)%list m).1 =
  (StorageCb.runFilters (fs1 ++ fs2)%list m).1.
Proof.
  intros Hfails. rewrite !runFilters_app.
  destruct (StorageCb.runFilters fs1 m) as [m1 e1].
  cbn [StorageCb.runFilters]. destruct (Hfails m1) as [err ->].
  destruct (StorageCb.runFilters fs2 m1) as [m2 e2]. reflexivity.
Qed.

Section SyncMore.

Variable now : Z.
Variable uplinks : list Uplink.
Variable hasProxyTo : string -> string -> bool.
Variable getRemoteMetadata : Uplink -> string -> option string -> RemoteResult.
Variable validateMetadata : Manifest -> string -> option JsError.
Variable mergeUplinkTimeIntoLocal : Manifest -> Manifest -> gmap string string.
Variable mergeVersions : Manifest -> Manifest -> JsError + Manifest.
Variable updateVersions : string -> Manifest -> JsError + Manifest.
Variable filters : list (Manifest -> JsError + Manifest).

Let selectUplinks := StorageCb.selectUplinks uplinks hasProxyTo.
Let decideUplink := StorageCb.decideUplink now.
Let planUplinks := StorageCb.planUplinks now uplinks hasProxyTo.
Let onRemoteMetadata :=
  StorageCb.onRemoteMetadata now validateMetadata mergeUplinkTimeIntoLocal
    mergeVersions.
Let handleResponses :=
  StorageCb.handleResponses now getRemoteMetadata validateMetadata
    mergeUplinkTimeIntoLocal mergeVersions.
Let _syncUplinksMetadata :=
  StorageCb._syncUplinksMetadata now uplinks hasProxyTo getRemoteMetadata
    validateMetadata mergeUplinkTimeIntoLocal mergeVersions updateVersions
    filters.
Let syncCalls := StorageCb.syncCalls now uplinks hasProxyTo.

Lemma selectUplinks_off pkgName : selectUplinks pkgName (Some false) = [].
Proof.
  unfold selectUplinks, StorageCb.selectUplinks. cbn [default].
  induction uplinks as [|u l IH]; [reflexivity|].
  cbn [List.filter]. rewrite andb_false_r. exact IH.
Qed.

(** X14.  With [uplinksLook] false no uplink is called: a package known
    locally is handed back as it was given, without [updateVersions] and
    without the filters, and an unknown one is NOT_FOUND. *)
Theorem sync_uplinksLook_false_is_local pkgName data options_etag :
  syncCalls pkgName data (Some false) options_etag = []
  /\ _syncUplinksMetadata pkgName data (Some false) options_etag =
     match data with
     | Some info => Callback None (Some info) None
     | None =>
         Callback (Some (errorUtils.getNotFound (Some API_ERROR.NO_PACKAGE)))
           None (Some [])
     end.
Proof.
  unfold syncCalls, StorageCb.syncCalls, _syncUplinksMetadata,
    StorageCb._syncUplinksMetadata, StorageCb.planUplinks.
  fold selectUplinks. rewrite selectUplinks_off.
  split; [reflexivity|]. destruct data; reflexivity.
Qed.

(** Once [found] is set it stays set; a slot is empty only after a merge
    that sets it; and a slot is empty or holds one error. *)
Lemma onRemoteMetadata_found pkgName upLink m st r st1 entry :
  onRemoteMetadata pkgName upLink m st r = inr (st1, entry) ->
  (StorageCb.found st = true -> StorageCb.found st1 = true)
  /\ (entry = NoError -> StorageCb.found st1 = true)
  /\ (entry = NoError \/ exists e, entry = Errors [e]).
Proof.
  unfold onRemoteMetadata, StorageCb.onRemoteMetadata.
  destruct (match r_err r with Some _ => _ | None => false end).
  - destruct m as [meta|]; [|discriminate].
    destruct (r_err r) as [err|].
    + intros [= <- <-]. cbn. split; [auto|]. split; [discriminate|eauto].
    + destruct (r_body r) as [b|].
      * destruct (validateMetadata b pkgName) as [err|].
        -- intros [= <- <-]. cbn. split; [auto|]. split; [discriminate|eauto].
        -- destruct (mergeVersions _ _) as [err|info3];
             intros [= <- <-]; cbn; split; auto; split; eauto; discriminate.
      * intros [= <- <-]. cbn. split; [auto|]. split; [discriminate|eauto].
  - destruct (r_err r) as [err|].
    + intros [= <- <-]. split; [auto|]. split; [discriminate|eauto].
    + destruct (r_body r) as [b|].
      * destruct (validateMetadata b pkgName) as [err|].
        -- intros [= <- <-]. split; [auto|]. split; [discriminate|eauto].
        -- destruct (mergeVersions _ _) as [err|info3];
             intros [= <- <-]; cbn; split; auto; split; eauto; discriminate.
      * intros [= <- <-]. split; [auto|]. split; [discriminate|eauto].
Qed.

Lemma handleResponses_found pkgName work : forall st st' errs,
  handleResponses pkgName st work = inr (st', errs) ->
  (StorageCb.found st = true -> StorageCb.found st' = true)
  /\ length errs = length work
  /\ (StorageCb.found st' = false ->
      Forall (fun w : Uplink * StorageCb.Decision => w.2 <> StorageCb.Skip) work ->
      Forall (fun x => exists e, x = Errors [e]) errs).
Proof.
  induction work as [|[u d] work IH]; intros st st' errs.
  - intros [= <- <-]. auto.
  - unfold handleResponses. cbn [StorageCb.handleResponses].
    fold handleResponses onRemoteMetadata.
    destruct d as [|m e].
    + destruct (handleResponses pkgName st work) as [err|[st2 errs2]] eqn:Hrest;
        [discriminate|].
      intros [= <- <-]. destruct (IH _ _ _ Hrest) as (Hmono & Hlen & Hall).
      split; [exact Hmono|]. split; [cbn; congruence|].
      intros _ Hwork. inversion Hwork as [|? ? Hskip _]. contradiction.
    + destruct (onRemoteMetadata pkgName u m st _) as [err|[st1 entry]] eqn:Hone;
        [discriminate|].
      destruct (handleResponses pkgName st1 work) as [err|[st2 errs2]] eqn:Hrest;
        [discriminate|].
      intros [= <- <-].
      destruct (onRemoteMetadata_found _ _ _ _ _ _ _ Hone) as (Hm1 & Hno & Hshape).
      destruct (IH _ _ _ Hrest) as (Hmono & Hlen & Hall).
      split; [auto|]. split; [cbn; congruence|].
      intros Hnot Hwork. inversion Hwork as [|? ? _ Hwork']. subst.
      constructor; [|auto].
      destruct Hshape as [->|Hshape]; [|exact Hshape].
      rewrite (Hmono (Hno eq_refl)) in Hnot. discriminate.
Qed.

(** X15.  The sync of a package that is known locally never reports
    that the package is missing or the uplinks unavailable, whatever the
    uplinks answer and whatever the filters do: the only error it calls
    back with is one [updateVersions] gave. *)
Theorem sync_known_package_fails_only_in_updateVersions
    pkgName info uplinksLook options_etag err result uplinkErrors :
  _syncUplinksMetadata pkgName (Some info) uplinksLook options_etag =
    Callback (Some err) result uplinkErrors ->
  exists merged, updateVersions pkgName merged = inl err.
Proof.
  unfold _syncUplinksMetadata, StorageCb._syncUplinksMetadata.
  fold handleResponses.
  destruct (handleResponses pkgName _ _) as [e|[st errs]] eqn:Hrun; [discriminate|].
  destruct (handleResponses_found _ _ _ _ _ Hrun) as (Hmono & _ & _).
  cbn [StorageCb.found] in Hmono. rewrite (Hmono eq_refl). cbn [negb].
  destruct (bool_decide _); [discriminate|].
  destruct (updateVersions pkgName (StorageCb.packageInfo st)) as [e|m] eqn:Hupd.
  - intros [= <- _ _]. eauto.
  - destruct (StorageCb.runFilters filters m). discriminate.
Qed.

(** X16.  When the sync of a package that is not known locally hands
    on a list of uplink errors together with an error, that error is
    NOT_FOUND or SERVICE_UNAVAILABLE, no manifest comes with it, and the
    list has one slot per selected uplink, each holding exactly one
    error. *)
Theorem sync_unknown_package_error_slots
    pkgName uplinksLook options_etag err result errs :
  _syncUplinksMetadata pkgName None uplinksLook options_etag =
    Callback (Some err) result (Some errs) ->
  result = None
  /\ (err = errorUtils.getNotFound (Some API_ERROR.NO_PACKAGE)
      \/ err = errorUtils.getServiceUnavailable None)
  /\ length errs = length (selectUplinks pkgName uplinksLook)
  /\ Forall (fun slot => exists e, slot = Errors [e]) errs.
Proof.
  unfold _syncUplinksMetadata, StorageCb._syncUplinksMetadata.
  fold handleResponses selectUplinks.
  destruct (handleResponses pkgName _ _) as [e|[st errs']] eqn:Hrun; [discriminate|].
  destruct (handleResponses_found _ _ _ _ _ Hrun) as (_ & Hlen & Hall).
  assert (Hplan : Forall (fun w : Uplink * StorageCb.Decision => w.2 <> StorageCb.Skip)
                    (StorageCb.planUplinks now uplinks hasProxyTo pkgName None
                       uplinksLook options_etag)).
  { unfold StorageCb.planUplinks. apply List.Forall_map.
    apply List.Forall_forall. intros u _. cbn. discriminate. }
  assert (Hlen' : length errs' = length (selectUplinks pkgName uplinksLook)).
  { rewrite Hlen. unfold StorageCb.planUplinks. fold selectUplinks.
    apply length_map. }
  destruct (StorageCb.found st) eqn:Hfound; cbn [negb].
  - destruct (bool_decide _); [discriminate|].
    destruct (updateVersions pkgName _) as [e|m]; [discriminate|].
    destruct (StorageCb.runFilters filters m). discriminate.
  - destruct (scanUplinkErrors false errs'); intros [= <- <- <-]; auto 6.
Qed.

(** X17.  A 304 answer refreshes the record of the uplink: in a later
    sync that starts from the manifest the handler left, the uplink is
    skipped for as long as less than [maxage] has passed. *)
Theorem sync_304_refresh_skips_uplink
    pkgName upLink meta st r err st' entry now' options_etag :
  r_err r = Some err ->
  remoteStatus err = Some 304 ->
  onRemoteMetadata pkgName upLink (Some meta) st r = inr (st', entry) ->
  now <> 0 ->
  now' - now < maxage upLink ->
  StorageCb.decideUplink now' options_etag (StorageCb.packageInfo st') upLink
    = StorageCb.Skip.
Proof.
  intros Herr H304 Hrun Hnow Hfresh.
  unfold onRemoteMetadata, StorageCb.onRemoteMetadata in Hrun.
  rewrite Herr in Hrun. rewrite bool_decide_eq_true_2 in Hrun by exact H304.
  injection Hrun as <- _.
  unfold StorageCb.decideUplink. cbn [StorageCb.packageInfo _uplinks with_uplinks].
  rewrite lookup_insert_eq. cbn [fetched].
  destruct (Z.eqb_spec now 0) as [?|_]; [contradiction|].
  destruct (Z.ltb_spec (now' - now) (maxage upLink)) as [_|?]; [reflexivity|lia].
Qed.

(** X18.  What a fresh uplink would answer makes no difference to the
    sync: two worlds whose uplinks answer alike, except for one whose
    record is fresh when the merge starts, give the same result. *)
Theorem sync_ignores_fresh_uplink
    (answers : Uplink -> string -> option string -> RemoteResult)
    pkgName info uplinksLook options_etag u meta :
  _uplinks info !! upname u = Some meta ->
  fetched meta <> 0 ->
  now - fetched meta < maxage u ->
  (forall v e, v <> u -> getRemoteMetadata v pkgName e = answers v pkgName e) ->
  _syncUplinksMetadata pkgName (Some info) uplinksLook options_etag =
  StorageCb._syncUplinksMetadata now uplinks hasProxyTo answers
    validateMetadata mergeUplinkTimeIntoLocal mergeVersions updateVersions
    filters pkgName (Some info) uplinksLook options_etag.
Proof.
  intros Hmeta Hset Hfresh Hsame.
  apply sync_depends_on_calls_only. intros v e Hin.
  apply Hsame. intros ->.
  apply calls_of_plan in Hin as (_ & m & Hdec).
  unfold StorageCb.decideUplink in Hdec. simpl in Hdec.
  rewrite Hmeta in Hdec.
  destruct (Z.eqb_spec (fetched meta) 0) as [?|_]; [contradiction|].
  destruct (Z.ltb_spec (now - fetched meta) (maxage u)) as [_|?]; [|lia].
  discriminate.
Qed.

End SyncMore.

(** ** memory-handler.ts *)

Section Memory.

Variable Package : Type.
Variable parsePackage : option string -> JsError + Package.
Variable stringifyPackage : Package -> JsError + string.

Let createPackage := MemoryHandler.createPackage Package stringifyPackage.
Let readPackage := MemoryHandler.readPackage Package parsePackage.
Let readPackageNext := MemoryHandler.readPackageNext Package parsePackage.

(** X19.  Round trip in the memory plugin, for helpers that undo each
    other on the value: after [createPackage] both readers give the value
    back.  This holds whether or not the name was taken: [createPackage]
    goes through [savePackage] and replaces what is stored without a
    conflict. *)
Theorem memory_createPackage_then_read data name value json :
  stringifyPackage value = inr json ->
  parsePackage (Some json) = inr value ->
  (createPackage data name value).2 = None
  /\ readPackage (createPackage data name value).1 name = (None, Some value)
  /\ readPackageNext (createPackage data name value).1 name = inr value.
Proof.
  intros Hstr Hparse.
  unfold createPackage, readPackage, readPackageNext,
    MemoryHandler.createPackage, MemoryHandler.savePackage,
    MemoryHandler.readPackage, MemoryHandler.readPackageNext,
    MemoryHandler._getStorage.
  rewrite Hstr. cbn [fst snd]. rewrite lookup_insert_eq, Hparse.
  rewrite bool_decide_eq_false_2 by discriminate. auto.
Qed.

(** X20.  With a parser that throws on [undefined], as JSON.parse does:
    a name that was deleted reads as NOT_FOUND with both readers, and
    [savePackageNext] and [createPackageNext] do not change that, since
    they store nothing. *)
Theorem memory_deleted_is_not_found data name value :
  (exists err, parsePackage None = inl err) ->
  let data1 := MemoryHandler.deletePackage data name in
  let data2 := MemoryHandler.savePackageNext Package data1 name value in
  let data3 := MemoryHandler.createPackageNext Package data2 name value in
  readPackageNext data1 name = inl (errorUtils.getNotFound None)
  /\ readPackage data1 name = (Some (errorUtils.getNotFound None), None)
  /\ readPackageNext data3 name = inl (errorUtils.getNotFound None).
Proof.
  intros [err Hparse] data1 data2 data3.
  unfold data3, data2, data1, MemoryHandler.createPackageNext,
    MemoryHandler.savePackageNext, MemoryHandler.deletePackage,
    readPackage, readPackageNext, MemoryHandler.readPackage,
    MemoryHandler.readPackageNext, MemoryHandler._getStorage.
  rewrite lookup_delete_eq, Hparse. auto.
Qed.

End Memory.

(** ** storage.ts: a package by version or by tag *)

Section ByVersion.

Variable cleanUpLinksRef : Manifest -> option bool -> Manifest.
Variable getVersion : gmap string Version -> string -> option Version.
Variable convertDistVersionToLocalTarballsUrl : string -> Version -> Version.
Variable VERSION_NOT_EXIST : string.
Context {S : Type} (env : Env S).

Let getPackageNext := StorageByOptions.getPackageNext cleanUpLinksRef.
Let getPackageByVersion :=
  StorageByOptions.getPackageByVersion cleanUpLinksRef getVersion
    convertDistVersionToLocalTarballsUrl VERSION_NOT_EXIST.

Let asking (options : IGetPackageOptionsNext) (queryVersion : string) :=
  mkOptions (opt_name options) (Some queryVersion) (opt_uplinksLook options)
    (opt_keepUpLinkData options).

(** X21.  Asking for a dist-tag gives what asking for the version it
    points to gives: when the manifest read for the package has the tag,
    the tag is not itself the name of a version and its target exists,
    both queries return that version, converted. *)
Theorem getPackageByVersion_tag_is_its_target
    options tag target version (s : S) manifest errs s1 t :
  run env (getPackageNext options) s = (inr (manifest, errs), s1, t) ->
  getVersion (versions manifest) tag = None ->
  dist_tags manifest !! tag = Some target ->
  getVersion (versions manifest) target = Some version ->
  let found := convertDistVersionToLocalTarballsUrl (name manifest) version in
  run env (getPackageByVersion (asking options tag)) s = (inr found, s1, t)
  /\ run env (getPackageByVersion (asking options target)) s = (inr found, s1, t).
Proof.
  intros Hget Hnot Htag Htarget found.
  unfold getPackageByVersion, StorageByOptions.getPackageByVersion, asking.
  cbn [opt_version].
  assert (Hsame : forall q,
            StorageByOptions.getPackageNext cleanUpLinksRef
              (mkOptions (opt_name options) (Some q) (opt_uplinksLook options)
                 (opt_keepUpLinkData options))
            = getPackageNext options) by reflexivity.
  rewrite !run_bind, !Hsame, Hget. cbn [fst].
  rewrite Hnot, Htag, Htarget. cbn [run].
  rewrite app_nil_r. auto.
Qed.

(** X22.  A query that names neither a version nor a tag with an
    existing target is answered with NOT_FOUND (404) once the manifest
    has been read. *)
Theorem getPackageByVersion_unknown_is_not_found
    options queryVersion (s : S) manifest errs s1 t :
  run env (getPackageNext options) s = (inr (manifest, errs), s1, t) ->
  getVersion (versions manifest) queryVersion = None ->
  (forall target, dist_tags manifest !! queryVersion = Some target ->
                  getVersion (versions manifest) target = None) ->
  exists err,
    run env (getPackageByVersion (asking options queryVersion)) s = (inl err, s1, t)
    /\ status err = Some HTTP_STATUS.NOT_FOUND.
Proof.
  intros Hget Hnot Htag.
  unfold getPackageByVersion, StorageByOptions.getPackageByVersion, asking.
  cbn [opt_version].
  assert (Hsame :
            StorageByOptions.getPackageNext cleanUpLinksRef
              (mkOptions (opt_name options) (Some queryVersion)
                 (opt_uplinksLook options) (opt_keepUpLinkData options))
            = getPackageNext options) by reflexivity.
  rewrite run_bind, Hsame, Hget. cbn [fst]. rewrite Hnot.
  destruct (dist_tags manifest !! queryVersion) as [target|] eqn:Hq.
  - rewrite (Htag target eq_refl). cbn [run]. rewrite app_nil_r. eauto.
  - cbn [run]. rewrite app_nil_r. eauto.
Qed.

End ByVersion.

(** ** storage.ts: getLocalDatabase *)

Section LocalPackages.

Variable getPackageMetadata : string -> JsError + Manifest.

(** What one local package contributes to the list. *)
Let entry (pkgName : string) : option LocalVersion :=
  match getPackageMetadata pkgName with
  | inr pkgMetadata => LocalDatabase.latestVersion pkgMetadata
  | inl _ => None
  end.

Lemma getPackage_from locals : forall fuel packages itemPkg,
  (itemPkg < length locals)%nat ->
  (length locals - itemPkg <= fuel)%nat ->
  LocalDatabase.getPackage getPackageMetadata fuel locals packages itemPkg =
  Some (packages ++ omap entry (drop itemPkg locals))%list.
Proof.
  induction fuel as [|fuel IH]; intros packages itemPkg Hlt Hfuel; [lia|].
  cbn [LocalDatabase.getPackage].
  destruct (lookup_lt_is_Some_2 locals itemPkg Hlt) as [pkgName Hname].
  rewrite Hname. rewrite (drop_S _ _ _ Hname). cbn [omap list_omap].
  fold (entry pkgName).
  assert (Hentry :
    match getPackageMetadata pkgName with
    | inr pkgMetadata =>
        match LocalDatabase.latestVersion pkgMetadata with
        | Some version => (packages ++ [version])%list
        | None => packages
        end
    | inl _ => packages
    end = (packages ++ option_list (entry pkgName))%list).
  { unfold entry. destruct (getPackageMetadata pkgName) as [e|m]; cbn.
    - rewrite app_nil_r. reflexivity.
    - destruct (LocalDatabase.latestVersion m); cbn; [reflexivity|].
      rewrite app_nil_r. reflexivity. }
  rewrite Hentry.
  destruct (decide (length locals - 1 <= itemPkg)%nat) as [Hlast|Hmore].
  - rewrite bool_decide_eq_true_2 by exact Hlast.
    rewrite drop_ge by lia. cbn [omap list_omap].
    destruct (entry pkgName); cbn; rewrite ?app_nil_r; reflexivity.
  - rewrite bool_decide_eq_false_2 by exact Hmore.
    rewrite IH by lia. replace (itemPkg + 1)%nat with (Datatypes.S itemPkg) by lia.
    rewrite <- app_assoc. destruct (entry pkgName); reflexivity.
Qed.

(** X23.  [getLocalDatabase] with a plugin that lists the local
    packages calls back once, without an error, with one entry per
    package that can be read and has a "latest" tag naming one of its
    versions, in the order of the listing; a package that cannot be read
    or has no such tag is left out and does not stop the listing. *)
Theorem getLocalDatabase_lists_latest locals :
  LocalDatabase.getLocalDatabase (Some (inr locals)) getPackageMetadata =
  Some (None, omap entry locals).
Proof.
  unfold LocalDatabase.getLocalDatabase.
  destruct locals as [|pkgName locals]; [reflexivity|].
  rewrite bool_decide_eq_false_2 by (cbn; lia).
  rewrite getPackage_from by (cbn; lia). reflexivity.
Qed.

End LocalPackages.

(** ** uplink-util.ts *)

Lemma foldl_alter_lookup {A : Type} (f : A -> A) (ks : list string) :
  forall (m : gmap string A) k,
    NoDup ks ->
    foldl (fun vs key => alter f key vs) m ks !! k =
    if bool_decide (k ∈ ks) then f <$> m !! k else m !! k.
Proof.
  induction ks as [|key ks IH]; intros m k Hnd; [reflexivity|].
  cbn [foldl]. apply NoDup_cons in Hnd as [Hnotin Hnd].
  rewrite IH by exact Hnd.
  destruct (decide (k = key)) as [->|Hne].
  - rewrite (bool_decide_eq_false_2 (key ∈ ks)) by exact Hnotin.
    rewrite bool_decide_eq_true_2 by left.
    apply lookup_alter_eq.
  - rewrite lookup_alter_ne by congruence.
    destruct (decide (k ∈ ks)) as [Hin|Hout].
    + rewrite !bool_decide_eq_true_2; [reflexivity|right; exact Hin|exact Hin].
    + rewrite !bool_decide_eq_false_2; [reflexivity| |exact Hout].
      intros Hk. apply elem_of_cons in Hk as [?|?]; contradiction.
Qed.

(** X24.  [updateVersionsHiddenUpLinkNext] marks every version of the
    manifest with the name of the uplink, as the deprecated
    [updateVersionsHiddenUpLink] does on the versions alone, and leaves
    the set of versions and every other field as they were. *)
Theorem updateVersionsHiddenUpLinkNext_marks_all manifest upLink :
  updateVersionsHiddenUpLinkNext manifest upLink =
    with_versions manifest (updateVersionsHiddenUpLink (versions manifest) upLink)
  /\ (forall v ver,
        versions (updateVersionsHiddenUpLinkNext manifest upLink) !! v = Some ver ->
        hidden_uplink ver = Some (upname upLink))
  /\ dom (versions (updateVersionsHiddenUpLinkNext manifest upLink))
     = dom (versions manifest).
Proof.
  assert (Heq : updateVersionsHiddenUpLinkNext manifest upLink =
                with_versions manifest
                  (updateVersionsHiddenUpLink (versions manifest) upLink)).
  { unfold updateVersionsHiddenUpLinkNext, updateVersionsHiddenUpLink.
    fold (markUplink upLink).
    destruct (decide (length (map_to_list (versions manifest)).*1 = 0%nat))
      as [Hempty|Hsome].
    - rewrite bool_decide_eq_true_2 by exact Hempty.
      rewrite length_fmap in Hempty. apply length_zero_iff_nil in Hempty.
      apply map_to_list_empty_iff in Hempty.
      destruct manifest; cbn in *. subst. unfold with_versions; cbn.
      rewrite fmap_empty. reflexivity.
    - rewrite bool_decide_eq_false_2 by exact Hsome. f_equal.
      apply map_eq. intros k.
      rewrite foldl_alter_lookup by apply NoDup_fst_map_to_list.
      rewrite lookup_fmap.
      destruct (versions manifest !! k) as [v|] eqn:Hk.
      + rewrite bool_decide_eq_true_2; [reflexivity|].
        apply list_elem_of_fmap. exists (k, v). split; [reflexivity|].
        apply elem_of_map_to_list. exact Hk.
      + destruct (bool_decide _); reflexivity. }
  split; [exact Heq|]. rewrite Heq. cbn [versions with_versions].
  unfold updateVersionsHiddenUpLink. split.
  - intros v ver Hv. rewrite lookup_fmap in Hv.
    destruct (versions manifest !! v); [|discriminate].
    injection Hv as <-. reflexivity.
  - apply dom_fmap_L.
Qed.

(** ** local-fs.ts: what is uploaded is what is stored *)

Lemma append_empty_r (s : string) : s ++ "" = s.
Proof.
  induction s as [|c s IH]; [reflexivity|].
  change (String c (s ++ "") = String c s). rewrite IH. reflexivity.
Qed.

Lemma append_assoc (a b c : string) : (a ++ b) ++ c = a ++ (b ++ c).
Proof.
  induction a as [|x a IH]; [reflexivity|].
  change (String x ((a ++ b) ++ c) = String x (a ++ (b ++ c))).
  rewrite IH. reflexivity.
Qed.

Lemma appendFile_staged (fs : FS) p acc chunk :
  fs !! p = Some (RawText acc) ->
  appendFile fs p chunk = <[p := RawText (acc ++ chunk)]> fs.
Proof. intros H. unfold appendFile. rewrite H. reflexivity. Qed.

Section UploadsStored.

Variable this_path : string.
Variable sanitzers : string -> string.

Let pathName := WriteTarballNext.pathName this_path sanitzers.
Let temporalName := WriteTarballNext.temporalName this_path.
Let runActions := WriteTarballNext.runActions this_path sanitzers false.
Let hasTarball (fs : FS) :=
  LocalFSRead.hasTarball this_path sanitzers (fsAccess fs).

Lemma writeTarballNext_chunks pkgName rand chunks : forall (fs : FS) s acc rest,
  WriteTarballNext.opened s = true ->
  WriteTarballNext.destroyed s = false ->
  WriteTarballNext.ended s = false ->
  fs !! temporalName pkgName rand = Some (RawText acc) ->
  runActions pkgName rand ((WriteTarballNext.Data <$> chunks) ++ rest)%list (fs, s) =
  runActions pkgName rand rest
    (<[temporalName pkgName rand := RawText (acc ++ bytes chunks)]> fs, s).
Proof.
  induction chunks as [|c chunks IH]; intros fs s acc rest Hop Hde Hen Hfile.
  - cbn. rewrite append_empty_r, insert_id by exact Hfile. reflexivity.
  - cbn [fmap list_fmap app]. unfold runActions.
    cbn [WriteTarballNext.runActions WriteTarballNext.step].
    rewrite Hop, Hde, Hen. cbn [andb negb]. fold runActions. fold temporalName.
    rewrite (appendFile_staged _ _ _ _ Hfile).
    rewrite (IH _ s (acc ++ c)) by (auto; apply lookup_insert_eq).
    rewrite insert_insert_eq. cbn [bytes foldr]. fold (bytes chunks).
    rewrite append_assoc. reflexivity.
Qed.

(** X25.  An upload through [writeTarballNext] that is opened, written
    and ended, off win32: when the stream has closed, the file of the
    tarball holds the chunks in the order they were written, whatever
    was stored under that name before, and [hasTarball] answers true. *)
Theorem writeTarballNext_stores_upload pkgName rand chunks (fs : FS) :
  exists fs' s',
    runActions pkgName rand
      (WriteTarballNext.FileOpen :: (WriteTarballNext.Data <$> chunks)
         ++ [WriteTarballNext.End; WriteTarballNext.CloseEvent])%list
      (fs, WriteTarballNext.init) = Some (fs', s')
    /\ WriteTarballNext.closed s' = true
    /\ fs' !! pathName pkgName = Some (RawText (bytes chunks))
    /\ hasTarball fs' pkgName = true.
Proof.
  unfold runActions.
  cbn [WriteTarballNext.runActions WriteTarballNext.step WriteTarballNext.init
       WriteTarballNext.opened WriteTarballNext.closed
       WriteTarballNext.destroyed andb negb].
  fold runActions temporalName.
  rewrite (writeTarballNext_chunks pkgName rand chunks _ _ "")
    by (auto; apply lookup_insert_eq).
  rewrite insert_insert_eq. cbn [String.append].
  unfold runActions.
  cbn [WriteTarballNext.runActions WriteTarballNext.step
       WriteTarballNext.opened WriteTarballNext.destroyed WriteTarballNext.ended
       WriteTarballNext.closed WriteTarballNext.errorPending
       WriteTarballNext.onClose WriteTarballNext.aborted andb negb orb fold_left
       WriteTarballNext.runCloseListener].
  eexists _, _. split; [reflexivity|]. split; [reflexivity|].
  assert (Hstored :
    fsAfter (try LocalFS.renameTmpNext false
                   (WriteTarballNext.temporalName this_path pkgName rand)
                   (WriteTarballNext.pathName this_path sanitzers pkgName)
             catch (fun _ => Ret tt))
      (<[temporalName pkgName rand := RawText (bytes chunks)]> fs)
    !! pathName pkgName = Some (RawText (bytes chunks))).
  { unfold fsAfter, LocalFS.renameTmpNext, LocalFS.rename, LocalFS.unlink.
    fold temporalName pathName. cbn [negb try_catch run fsEnv].
    rewrite lookup_insert_eq. cbn. apply lookup_insert_eq. }
  split; [exact Hstored|].
  unfold hasTarball, LocalFSRead.hasTarball, fsAccess.
  match goal with
  | |- context [?m !! ?k] =>
      replace (m !! k) with (Some (RawText (bytes chunks)))
        by (symmetry; exact Hstored)
  end.
  reflexivity.
Qed.

Let uploadName := UploadTarball.pathName this_path sanitzers.
Let stagingName := UploadTarball.temporalName this_path.
Let runSchedule := UploadTarball.runSchedule this_path sanitzers false.

Lemma writeTarball_chunks fileName rand chunks : forall (fs : FS) s acc rest,
  UploadTarball.fd s = true ->
  UploadTarball.file_ended s = false ->
  UploadTarball._ended s = false ->
  fs !! stagingName fileName rand = Some (RawText acc) ->
  runSchedule
    (((fun a : UploadTarball.Action => (0%nat, a)) <$> (UploadTarball.Data <$> chunks))
       ++ rest)%list
    (fs, [UploadTarball.mkUpload fileName rand s]) =
  runSchedule rest
    (<[stagingName fileName rand := RawText (acc ++ bytes chunks)]> fs,
     [UploadTarball.mkUpload fileName rand s]).
Proof.
  induction chunks as [|c chunks IH]; intros fs s acc rest Hfd Hfe Hen Hfile.
  - cbn. rewrite append_empty_r, insert_id by exact Hfile. reflexivity.
  - cbn [fmap list_fmap app]. unfold runSchedule.
    cbn [UploadTarball.runSchedule UploadTarball.stepAt lookup list_lookup
         UploadTarball.up_name UploadTarball.up_rand UploadTarball.up_state
         UploadTarball.step].
    rewrite Hfd, Hfe, Hen. cbn [andb negb insert list_insert].
    fold runSchedule. fold stagingName.
    rewrite (appendFile_staged _ _ _ _ Hfile).
    rewrite (IH _ s (acc ++ c)) by (auto; apply lookup_insert_eq).
    rewrite insert_insert_eq. cbn [bytes foldr]. fold (bytes chunks).
    rewrite append_assoc. reflexivity.
Qed.

(** X26.  An upload through the deprecated [writeTarball] to a name
    that is free, off win32, with [done()] called before or after the
    source has ended: when the file has closed, the upload has emitted
    [open] and then [success] and nothing else, and the file of the
    tarball holds the chunks in the order they were written. *)
Theorem writeTarball_stores_upload fileName rand chunks (fs : FS) closing :
  fs !! uploadName fileName = None ->
  closing = [UploadTarball.Done; UploadTarball.SourceEnd]
  \/ closing = [UploadTarball.SourceEnd; UploadTarball.Done] ->
  exists fs' s',
    runSchedule
      ((fun a => (0%nat, a)) <$>
         ([UploadTarball.AccessCallback; UploadTarball.FileOpen]
            ++ (UploadTarball.Data <$> chunks) ++ closing
            ++ [UploadTarball.FileClose]))%list
      (fs, [UploadTarball.newUpload fileName rand])
    = Some (fs', [UploadTarball.mkUpload fileName rand s'])
    /\ UploadTarball.emitted s' = [UploadTarball.EmitOpen; UploadTarball.EmitSuccess]
    /\ fs' !! uploadName fileName = Some (RawText (bytes chunks)).
Proof.
  intros Hfree Hclosing.
  rewrite !fmap_app.
  set (written := (fun a : UploadTarball.Action => (0%nat, a))
                    <$> (UploadTarball.Data <$> chunks)).
  unfold runSchedule.
  cbn [fmap list_fmap app UploadTarball.runSchedule UploadTarball.stepAt lookup list_lookup
       UploadTarball.newUpload
       UploadTarball.up_name UploadTarball.up_rand UploadTarball.up_state
       UploadTarball.step UploadTarball.init UploadTarball.accessed].
  fold uploadName. rewrite Hfree.
  rewrite (bool_decide_eq_false_2 (is_Some None)) by (intros [x Hx]; discriminate).
  cbn [UploadTarball.runSchedule UploadTarball.stepAt lookup list_lookup
       UploadTarball.up_name UploadTarball.up_rand UploadTarball.up_state
       UploadTarball.step UploadTarball.file UploadTarball.fd
       UploadTarball.file_closed UploadTarball._ended UploadTarball.opened
       UploadTarball.file_ended UploadTarball.onend UploadTarball.file_onClose
       UploadTarball.emitted UploadTarball.accessed UploadTarball.init
       andb negb insert list_insert app].
  fold runSchedule stagingName. subst written.
  rewrite (writeTarball_chunks fileName rand chunks _ _ "")
    by (auto; apply lookup_insert_eq).
  rewrite insert_insert_eq. cbn [String.append].
  assert (Hrename : forall out,
    UploadTarball.runCloseListener this_path sanitzers false fileName rand
      RenameOnClose
      (<[stagingName fileName rand := RawText (bytes chunks)]> fs, out)
    = (<[uploadName fileName := RawText (bytes chunks)]>
         (delete (stagingName fileName rand)
            (<[stagingName fileName rand := RawText (bytes chunks)]> fs)),
       (out ++ [UploadTarball.EmitSuccess])%list)).
  { intros out. unfold UploadTarball.runCloseListener, LocalFS.renameTmp.
    fold stagingName uploadName. cbn [negb run fsEnv].
    rewrite lookup_insert_eq. reflexivity. }
  destruct Hclosing as [-> | ->]; unfold runSchedule;
    cbn [fmap list_fmap app UploadTarball.runSchedule UploadTarball.stepAt
         lookup list_lookup
         UploadTarball.up_name UploadTarball.up_rand UploadTarball.up_state
         UploadTarball.step UploadTarball.file UploadTarball.fd
         UploadTarball.file_closed UploadTarball._ended UploadTarball.opened
         UploadTarball.file_ended UploadTarball.onend UploadTarball.file_onClose
         UploadTarball.emitted UploadTarball.accessed
         andb negb orb insert list_insert fold_left];
    fold stagingName; rewrite Hrename;
    eexists _, _; (split; [reflexivity|]); (split; [reflexivity|]);
    apply lookup_insert_eq.
Qed.

End UploadsStored.

(** ** storage.ts: serveFile *)

Section Serving.

Variable uplinks : list Uplink.
Variable hasProxyTo : string -> string -> bool.

Let selectUplink := ServeFile.selectUplink uplinks hasProxyTo.
Let serveFile := ServeFile.serveFile uplinks hasProxyTo.
Let step := ServeFile.step uplinks hasProxyTo.
Let run := ServeFile.run uplinks hasProxyTo.

Lemma fold_left_last_proxy pkgName (l : list Uplink) : forall acc,
  fold_left (fun uplink u => if hasProxyTo pkgName (upname u) then Some u else uplink)
            l acc =
  match last (List.filter (fun u => hasProxyTo pkgName (upname u) && true) l) with
  | Some u => Some u
  | None => acc
  end.
Proof.
  induction l as [|u l IH]; intros acc; [reflexivity|].
  cbn [fold_left List.filter]. rewrite IH, andb_true_r.
  destruct (hasProxyTo pkgName (upname u)); [|reflexivity].
  rewrite last_cons. destruct (last (List.filter _ l)); reflexivity.
Qed.

(** X27.  The tarball is fetched through the last of the uplinks that
    the sync of the package would select (those with proxy access to
    it), and through a proxy made for the URL of the file, which caches,
    when there is none. *)
Theorem serveFile_uses_last_selected_uplink pkgName file :
  selectUplink pkgName file =
  match last (StorageCb.selectUplinks uplinks hasProxyTo pkgName None) with
  | Some uplink => ServeFile.Configured uplink
  | None => ServeFile.Autogenerated (url file)
  end.
Proof.
  unfold selectUplink, ServeFile.selectUplink, StorageCb.selectUplinks.
  rewrite fold_left_last_proxy. cbn [default].
  destruct (last _); reflexivity.
Qed.

(** The fetch has been started exactly when [on_open] has been
    replaced, and it is started for the URL of the file. *)
Let fetchedOnce (file : DistFile) (s : ServeFile.State) : Prop :=
  List.filter ServeFile.isFetch (ServeFile.calls s) =
  if ServeFile.on_open s then [] else [ServeFile.FetchTarball (url file)].

Lemma filter_isFetch_app l1 l2 :
  List.filter ServeFile.isFetch (l1 ++ l2)%list =
  (List.filter ServeFile.isFetch l1 ++ List.filter ServeFile.isFetch l2)%list.
Proof. apply List.filter_app. Qed.

Lemma call_on_open_fetchedOnce file s :
  fetchedOnce file s -> fetchedOnce file (ServeFile.call_on_open file s).
Proof.
  unfold fetchedOnce, ServeFile.call_on_open.
  destruct (ServeFile.on_open s) eqn:Harmed; [|rewrite Harmed; auto].
  intros H. cbn. rewrite filter_isFetch_app, H. reflexivity.
Qed.

Lemma step_fetchedOnce pkgName file ev s s' :
  step pkgName file ev s = Some s' -> fetchedOnce file s -> fetchedOnce file s'.
Proof.
  unfold step, ServeFile.step. intros Hstep Hinv.
  destruct ev as [|err|err| |v].
  - destruct (ServeFile.caches _); [|discriminate].
    injection Hstep as <-. apply call_on_open_fetchedOnce. exact Hinv.
  - destruct (ServeFile.caches _); [|discriminate].
    injection Hstep as <-. apply call_on_open_fetchedOnce.
    unfold fetchedOnce in *. cbn. rewrite filter_isFetch_app, Hinv.
    destruct (ServeFile.savestream s); cbn; rewrite app_nil_r; reflexivity.
  - destruct (ServeFile.on_open s) eqn:Harmed; [discriminate|].
    injection Hstep as <-. unfold fetchedOnce in *. cbn.
    rewrite Harmed in *. rewrite !filter_isFetch_app, Hinv.
    destruct (ServeFile.savestream s); reflexivity.
  - destruct (ServeFile.on_open s) eqn:Harmed; [discriminate|].
    injection Hstep as <-. unfold fetchedOnce in *. cbn.
    rewrite Harmed in *. rewrite !filter_isFetch_app, Hinv.
    destruct (ServeFile.savestream s); reflexivity.
  - destruct (ServeFile.on_open s) eqn:Harmed; [discriminate|].
    injection Hstep as <-. unfold fetchedOnce in *. cbn.
    rewrite Harmed in *. rewrite !filter_isFetch_app, Hinv.
    destruct (ServeFile.savestream s); reflexivity.
Qed.

(** X28.  Whatever the save stream and the fetch emit, and in whatever
    order, [serveFile] starts the fetch of the tarball at most once, and
    only for the URL of the file: the fetch has been started exactly when
    no start is pending on the save stream any more. *)
Theorem serveFile_fetches_at_most_once pkgName file evs s' :
  run pkgName file evs (serveFile pkgName file) = Some s' ->
  List.filter ServeFile.isFetch (ServeFile.calls s') =
  if ServeFile.on_open s' then [] else [ServeFile.FetchTarball (url file)].
Proof.
  assert (Hstart : fetchedOnce file (serveFile pkgName file)).
  { unfold serveFile, ServeFile.serveFile.
    destruct (ServeFile.caches _); [reflexivity|].
    apply call_on_open_fetchedOnce. reflexivity. }
  revert Hstart. generalize (serveFile pkgName file) as s.
  induction evs as [|ev evs IH]; intros s Hinv Hrun.
  - injection Hrun as <-. exact Hinv.
  - unfold run in Hrun. cbn [ServeFile.run] in Hrun. fold run step in Hrun.
    destruct (step pkgName file ev s) as [s1|] eqn:Hstep; [|discriminate].
    apply (IH s1); [|exact Hrun].
    eapply step_fetchedOnce; eauto.
Qed.

Lemma filter_isDone_app l1 l2 :
  List.filter ServeFile.isDone (l1 ++ l2)%list =
  (List.filter ServeFile.isDone l1 ++ List.filter ServeFile.isDone l2)%list.
Proof. apply List.filter_app. Qed.

Lemma step_without_savestream pkgName file ev s s' :
  step pkgName file ev s = Some s' ->
  ServeFile.savestream s = false ->
  ServeFile.savestream s' = false
  /\ List.filter ServeFile.isDone (ServeFile.calls s') =
     List.filter ServeFile.isDone (ServeFile.calls s).
Proof.
  unfold step, ServeFile.step, ServeFile.call_on_open. intros Hstep Hnull.
  rewrite Hnull in Hstep.
  destruct ev as [|err|err| |v].
  - destruct (ServeFile.caches _); [|discriminate].
    destruct (ServeFile.on_open s); injection Hstep as <-; cbn; auto.
    rewrite filter_isDone_app. cbn. rewrite app_nil_r. auto.
  - destruct (ServeFile.caches _); [|discriminate].
    cbn in Hstep.
    destruct (ServeFile.on_open s); injection Hstep as <-; cbn;
      rewrite ?filter_isDone_app; cbn; rewrite ?app_nil_r; auto.
  - destruct (ServeFile.on_open s); [discriminate|].
    injection Hstep as <-. cbn. rewrite filter_isDone_app. cbn.
    rewrite app_nil_r. auto.
  - destruct (ServeFile.on_open s); [discriminate|].
    injection Hstep as <-. cbn. rewrite app_nil_r. auto.
  - destruct (ServeFile.on_open s); [discriminate|].
    injection Hstep as <-. cbn. rewrite filter_isDone_app. cbn.
    rewrite app_nil_r. auto.
Qed.

Lemma run_without_savestream pkgName file evs : forall s s',
  run pkgName file evs s = Some s' ->
  ServeFile.savestream s = false ->
  List.filter ServeFile.isDone (ServeFile.calls s') =
  List.filter ServeFile.isDone (ServeFile.calls s).
Proof.
  induction evs as [|ev evs IH]; intros s s' Hrun Hnull.
  - injection Hrun as <-. reflexivity.
  - unfold run in Hrun. cbn [ServeFile.run] in Hrun. fold run step in Hrun.
    destruct (step pkgName file ev s) as [s1|] eqn:Hstep; [|discriminate].
    destruct (step_without_savestream _ _ _ _ _ Hstep Hnull) as [Hnull1 Hsame].
    rewrite (IH s1 s' Hrun Hnull1). exact Hsame.
Qed.

(** X29.  Once the save stream or the fetch has emitted an error, the
    upload is never completed: whatever follows, [savestream.done()] is
    not called again, so a tarball whose download or local write failed
    is not published from what was received. *)
Theorem serveFile_no_done_after_error pkgName file ev evs s s1 s' :
  ServeFile.isFailure ev = true ->
  step pkgName file ev s = Some s1 ->
  run pkgName file evs s1 = Some s' ->
  List.filter ServeFile.isDone (ServeFile.calls s') =
  List.filter ServeFile.isDone (ServeFile.calls s).
Proof.
  intros Hfail Hstep Hrun.
  assert (Hnull : ServeFile.savestream s1 = false
                  /\ List.filter ServeFile.isDone (ServeFile.calls s1) =
                     List.filter ServeFile.isDone (ServeFile.calls s)).
  { unfold step, ServeFile.step, ServeFile.call_on_open in Hstep.
    destruct ev as [|err|err| |v]; try discriminate.
    - destruct (ServeFile.caches _); [|discriminate]. cbn in Hstep.
      destruct (ServeFile.on_open s); injection Hstep as <-; cbn;
        rewrite ?filter_isDone_app; destruct (ServeFile.savestream s); cbn;
        rewrite ?app_nil_r; auto.
    - destruct (ServeFile.on_open s); [discriminate|].
      injection Hstep as <-. cbn. rewrite !filter_isDone_app.
      destruct (ServeFile.savestream s); cbn; rewrite ?app_nil_r; auto. }
  destruct Hnull as [Hnull Hsame].
  rewrite (run_without_savestream _ _ _ _ _ Hrun Hnull). exact Hsame.
Qed.

End Serving.

(** ** Concrete runs of the further properties *)

Lemma savePackageNext_hides_failed_rename_witness :
  run crossDeviceEnv
    (LocalFS.savePackageNext "/storage/pkg" stripSeparators false "pkg"
       (generatePackageTemplate "pkg")) ∅
  = (inr tt, ∅,
     [(Math_random, None);
      (writeFilePromise "/storage/pkg/package.json.tmp4711"
         (JsonText (generatePackageTemplate "pkg")), None);
      (renamePromise "/storage/pkg/package.json.tmp4711" "/storage/pkg/package.json",
       Some (sysError "EXDEV"));
      (unlinkPromise "/storage/pkg/package.json.tmp4711", None)]).
Proof.
  exact (savePackageNext_hides_failed_rename "/storage/pkg" stripSeparators
           crossDeviceEnv "pkg" (generatePackageTemplate "pkg") ∅ "4711" ∅
           {[ "/storage/pkg/package.json.tmp4711" :=
                JsonText (generatePackageTemplate "pkg") ]}
           "EXDEV"
           {[ "/storage/pkg/package.json.tmp4711" :=
                JsonText (generatePackageTemplate "pkg") ]}
           ∅ eq_refl eq_refl eq_refl eq_refl).
Defined.

Lemma savePackage_reports_failed_rename_witness :
  run crossDeviceEnv
    (LocalFSCb.savePackage "/storage/pkg" stripSeparators false "pkg"
       (generatePackageTemplate "pkg")) ∅
  = (inr (Some (sysError "EXDEV")), ∅,
     [(Math_random, None);
      (writeFilePromise "/storage/pkg/package.json.tmp4711"
         (JsonText (generatePackageTemplate "pkg")), None);
      (renamePromise "/storage/pkg/package.json.tmp4711" "/storage/pkg/package.json",
       Some (sysError "EXDEV"));
      (unlinkPromise "/storage/pkg/package.json.tmp4711", None)]).
Proof.
  refine (savePackage_reports_failed_rename "/storage/pkg" stripSeparators
           crossDeviceEnv "pkg" (generatePackageTemplate "pkg") ∅ "4711" ∅
           {[ "/storage/pkg/package.json.tmp4711" :=
                JsonText (generatePackageTemplate "pkg") ]}
           "EXDEV"
           {[ "/storage/pkg/package.json.tmp4711" :=
                JsonText (generatePackageTemplate "pkg") ]}
           (inr tt) ∅ eq_refl eq_refl eq_refl _ eq_refl).
  discriminate.
Defined.

Lemma renameTmpNext_win32_never_installs_witness :
  run fsEnv
    (LocalFS.renameTmpNext true "/storage/pkg/package.json.tmp1"
       "/storage/pkg/package.json")
    {[ "/storage/pkg/package.json" := RawText "old";
       "/storage/pkg/package.json.tmp1" := RawText "new" ]}
  = (inr tt,
     {[ "/storage/pkg/package.json.tmp1" := RawText "new" ]},
     [(Math_random, None);
      (renamePromise "/storage/pkg/package.json" "/storage/pkg/package.json.tmp4711",
       None);
      (unlinkPromise "/storage/pkg/package.json.tmp4711", None)]).
Proof.
  exact (renameTmpNext_win32_never_installs fsEnv
           "/storage/pkg/package.json.tmp1" "/storage/pkg/package.json"
           {[ "/storage/pkg/package.json" := RawText "old";
              "/storage/pkg/package.json.tmp1" := RawText "new" ]}
           "4711"
           {[ "/storage/pkg/package.json" := RawText "old";
              "/storage/pkg/package.json.tmp1" := RawText "new" ]}
           {[ "/storage/pkg/package.json.tmp4711" := RawText "old";
              "/storage/pkg/package.json.tmp1" := RawText "new" ]}
           {[ "/storage/pkg/package.json.tmp1" := RawText "new" ]}
           eq_refl eq_refl eq_refl).
Defined.


(** A manifest whose version carries the hidden uplink mark is read back
    without it. *)
Lemma savePackageNext_drops_hidden_uplink :
  let d' :=
    diskAfter (LocalFS.savePackageNext "/storage/pkg" stripSeparators false "pkg"
                 markedManifest) (mkDisk ∅ ∅) in
  LocalFSRead.readPackageNext "/storage/pkg" stripSeparators (diskReadFile d') "pkg"
    = inr taggedManifest
  /\ taggedManifest <> markedManifest.
Proof.
  split; [vm_compute; reflexivity|].
  intros H. apply (f_equal (fun m => hidden_uplink <$> versions m !! "1.0.0")) in H.
  vm_compute in H. discriminate.
Qed.

Lemma updatePackageNext_unlocks_after_handler_witness :
  trace fsEnv
    (LocalFS.updatePackageNext "/storage/pkg" stripSeparators "pkg"
       (fun _ => Throw (errorUtils.getConflict None)))
    publishedDisk
  = [(readFileNext "/storage/pkg/package.json", None);
     (unlockFileNext "/storage/pkg/package.json", None)].
Proof.
  exact (updatePackageNext_unlocks_after_handler "/storage/pkg" stripSeparators
           fsEnv "pkg" (fun _ => Throw (errorUtils.getConflict None))
           publishedDisk (generatePackageTemplate "pkg") publishedDisk
           (inl (errorUtils.getConflict None)) publishedDisk [] (inr tt)
           publishedDisk eq_refl eq_refl eq_refl (or_intror eq_refl)).
Defined.

Lemma updatePackageNext_retries_failed_unlock_witness :
  run stuckLockEnv
    (LocalFS.updatePackageNext "/storage/pkg" stripSeparators "pkg"
       (fun m => Ret m))
    publishedDisk
  = (inl (errorUtils.getInternalError (Some "resource temporarily unavailable")),
     publishedDisk,
     [(readFileNext "/storage/pkg/package.json", None);
      (unlockFileNext "/storage/pkg/package.json", Some (sysError "EBUSY"));
      (unlockFileNext "/storage/pkg/package.json", Some (sysError "EBUSY"))]).
Proof.
  exact (updatePackageNext_retries_failed_unlock "/storage/pkg" stripSeparators
           stuckLockEnv "pkg" (fun m => Ret m)
           publishedDisk (generatePackageTemplate "pkg") publishedDisk
           (generatePackageTemplate "pkg") publishedDisk [] (sysError "EBUSY")
           publishedDisk (inl (sysError "EBUSY")) publishedDisk
           eq_refl eq_refl eq_refl eq_refl).
Defined.

Lemma updatePackage_unlocks_last_witness :
  exists answer s',
    run fsEnv
      (LocalFS.updatePackage "/storage/pkg" stripSeparators "pkg" (fun m => m))
      publishedDisk
    = (inr None, s',
       [(readFile "/storage/pkg/package.json", None);
        (updateHandler (generatePackageTemplate "pkg"), None);
        (onWrite "pkg" (generatePackageTemplate "pkg"), None);
        (unlockFile "/storage/pkg/package.json", answer)]).
Proof.
  exact (updatePackage_unlocks_last "/storage/pkg" stripSeparators fsEnv "pkg"
           (fun m => m) publishedDisk (generatePackageTemplate "pkg")
           publishedDisk eq_refl).
Defined.

Lemma sync_known_package_fails_only_in_updateVersions_witness :
  StorageCb._syncUplinksMetadata 10000 [npmjs; mirror] allProxied oneTimesOut
    acceptAll keepTime keepLocal failsToStore [] "pkg" (Some cachedManifest)
    None None
  = Callback (Some (errorUtils.getInternalError None)) None None
  /\ exists merged,
       failsToStore "pkg" merged = inl (errorUtils.getInternalError None).
Proof.
  assert (Hrun :
    StorageCb._syncUplinksMetadata 10000 [npmjs; mirror] allProxied oneTimesOut
      acceptAll keepTime keepLocal failsToStore [] "pkg" (Some cachedManifest)
      None None
    = Callback (Some (errorUtils.getInternalError None)) None None)
    by (vm_compute; reflexivity).
  split; [exact Hrun|].
  exact (sync_known_package_fails_only_in_updateVersions 10000 [npmjs; mirror]
           allProxied oneTimesOut acceptAll keepTime keepLocal failsToStore []
           "pkg" cachedManifest None None _ _ _ Hrun).
Defined.

Lemma sync_unknown_package_error_slots_witness :
  let errs := [Errors [timedOut]; Errors [notOnUplink]] in
  StorageCb._syncUplinksMetadata 10000 [npmjs; mirror] allProxied oneTimesOut
    acceptAll keepTime keepLocal storeAsIs [] "pkg" None None None
  = Callback (Some (errorUtils.getServiceUnavailable None)) None (Some errs)
  /\ length errs
     = length (StorageCb.selectUplinks [npmjs; mirror] allProxied "pkg" None)
  /\ Forall (fun slot => exists e, slot = Errors [e]) errs.
Proof.
  intros errs.
  assert (Hrun :
    StorageCb._syncUplinksMetadata 10000 [npmjs; mirror] allProxied oneTimesOut
      acceptAll keepTime keepLocal storeAsIs [] "pkg" None None None
    = Callback (Some (errorUtils.getServiceUnavailable None)) None (Some errs))
    by (vm_compute; reflexivity).
  split; [exact Hrun|].
  exact (proj2 (proj2
           (sync_unknown_package_error_slots 10000 [npmjs; mirror] allProxied
              oneTimesOut acceptAll keepTime keepLocal storeAsIs [] "pkg" None
              None _ _ _ Hrun))).
Defined.

Lemma sync_304_refresh_skips_uplink_witness :
  StorageCb.decideUplink 10500 None
    (with_uplinks cachedManifest
       (<["npmjs" := mkUpLinkMeta (Some "etag-1") 10000]> (_uplinks cachedManifest)))
    npmjs
  = StorageCb.Skip.
Proof.
  refine (sync_304_refresh_skips_uplink 10000 acceptAll keepTime keepLocal "pkg"
            npmjs (mkUpLinkMeta (Some "etag-1") 9900)
            {| StorageCb.packageInfo := cachedManifest; StorageCb.found := true |}
            (mkRemote (Some notModified) None None) notModified
            {| StorageCb.packageInfo :=
                 with_uplinks cachedManifest
                   (<["npmjs" := mkUpLinkMeta (Some "etag-1") 10000]>
                      (_uplinks cachedManifest));
               StorageCb.found := true |}
            (Errors [notModified]) 10500 None eq_refl eq_refl eq_refl _ _).
  - lia.
  - cbn. lia.
Defined.

Lemma runFilters_skips_failing_filter_witness :
  (StorageCb.runFilters [dropAttachments; brokenFilter] danglingManifest).1
  = (StorageCb.runFilters [dropAttachments] danglingManifest).1.
Proof.
  refine (runFilters_skips_failing_filter [dropAttachments] [] brokenFilter
            danglingManifest _).
  intros m'. eexists. reflexivity.
Defined.

Lemma sync_ignores_fresh_uplink_witness :
  StorageCb._syncUplinksMetadata 10000 [npmjs; mirror] allProxied oneTimesOut
    acceptAll keepTime keepLocal storeAsIs [] "pkg" (Some cachedManifest) None None
  = StorageCb._syncUplinksMetadata 10000 [npmjs; mirror] allProxied npmjsAnswers
      acceptAll keepTime keepLocal storeAsIs [] "pkg" (Some cachedManifest) None None.
Proof.
  refine (sync_ignores_fresh_uplink 10000 [npmjs; mirror] allProxied oneTimesOut
            acceptAll keepTime keepLocal storeAsIs [] npmjsAnswers "pkg"
            cachedManifest None None npmjs (mkUpLinkMeta (Some "etag-1") 9900)
            eq_refl _ _ _).
  - cbn. lia.
  - cbn. lia.
  - intros v e Hv. unfold npmjsAnswers.
    rewrite bool_decide_eq_false_2 by exact Hv. reflexivity.
Defined.

Lemma memory_createPackage_then_read_witness :
  let created :=
    MemoryHandler.createPackage string stringifyText {[ "pkg" := "old" ]} "pkg" "new" in
  created.2 = None
  /\ MemoryHandler.readPackage string parseText created.1 "pkg" = (None, Some "new")
  /\ MemoryHandler.readPackageNext string parseText created.1 "pkg" = inr "new".
Proof.
  exact (memory_createPackage_then_read string parseText stringifyText
           {[ "pkg" := "old" ]} "pkg" "new" "new" eq_refl eq_refl).
Defined.

Lemma memory_deleted_is_not_found_witness :
  let data1 := MemoryHandler.deletePackage {[ "pkg" := "old" ]} "pkg" in
  let data2 := MemoryHandler.savePackageNext string data1 "pkg" "new" in
  let data3 := MemoryHandler.createPackageNext string data2 "pkg" "new" in
  MemoryHandler.readPackageNext string parseText data1 "pkg"
    = inl (errorUtils.getNotFound None)
  /\ MemoryHandler.readPackage string parseText data1 "pkg"
     = (Some (errorUtils.getNotFound None), None)
  /\ MemoryHandler.readPackageNext string parseText data3 "pkg"
     = inl (errorUtils.getNotFound None).
Proof.
  refine (memory_deleted_is_not_found string parseText {[ "pkg" := "old" ]}
            "pkg" "new" _).
  eexists. reflexivity.
Defined.

Lemma getPackageByVersion_tag_is_its_target_witness :
  let byVersion q :=
    StorageByOptions.getPackageByVersion (fun m _ => m) lookupVersion sameVersion
      "this version doesn't exist" (mkOptions "pkg" (Some q) None None) in
  let found := mkVersion "1.0.0" (Some "pkg-1.0.0.tgz") None in
  let seen := [(getPackageLocalMetadata "pkg", None);
               (syncUplinksMetadataNext "pkg" (Some taggedManifest) None, None)] in
  run (storageEnv taggedWorld) (byVersion "latest") tt = (inr found, tt, seen)
  /\ run (storageEnv taggedWorld) (byVersion "1.0.0") tt = (inr found, tt, seen).
Proof.
  exact (getPackageByVersion_tag_is_its_target (fun m _ => m) lookupVersion
           sameVersion "this version doesn't exist" (storageEnv taggedWorld)
           (mkOptions "pkg" None None None) "latest" "1.0.0"
           (mkVersion "1.0.0" (Some "pkg-1.0.0.tgz") None)
           tt taggedManifest [] tt _ eq_refl eq_refl eq_refl eq_refl).
Defined.

Lemma getPackageByVersion_unknown_is_not_found_witness :
  exists err,
    run (storageEnv taggedWorld)
      (StorageByOptions.getPackageByVersion (fun m _ => m) lookupVersion sameVersion
         "this version doesn't exist" (mkOptions "pkg" (Some "beta") None None)) tt
    = (inl err, tt,
       [(getPackageLocalMetadata "pkg", None);
        (syncUplinksMetadataNext "pkg" (Some taggedManifest) None, None)])
    /\ status err = Some HTTP_STATUS.NOT_FOUND.
Proof.
  refine (getPackageByVersion_unknown_is_not_found (fun m _ => m) lookupVersion
            sameVersion "this version doesn't exist" (storageEnv taggedWorld)
            (mkOptions "pkg" None None None) "beta"
            tt taggedManifest [] tt _ eq_refl eq_refl _).
  intros target Htag. vm_compute in Htag. discriminate.
Defined.

Lemma writeTarball_stores_upload_witness :
  exists fs' s',
    UploadTarball.runSchedule "/storage/pkg" stripSeparators false
      [(0%nat, UploadTarball.AccessCallback); (0%nat, UploadTarball.FileOpen);
       (0%nat, UploadTarball.Data "ab"); (0%nat, UploadTarball.Data "cd");
       (0%nat, UploadTarball.Done); (0%nat, UploadTarball.SourceEnd);
       (0%nat, UploadTarball.FileClose)]
      (∅, [UploadTarball.newUpload "pkg-1.0.0.tgz" "1"])
    = Some (fs', [UploadTarball.mkUpload "pkg-1.0.0.tgz" "1" s'])
    /\ UploadTarball.emitted s' = [UploadTarball.EmitOpen; UploadTarball.EmitSuccess]
    /\ fs' !! "/storage/pkg/pkg-1.0.0.tgz" = Some (RawText "abcd").
Proof.
  exact (writeTarball_stores_upload "/storage/pkg" stripSeparators "pkg-1.0.0.tgz"
           "1" ["ab"; "cd"] ∅ [UploadTarball.Done; UploadTarball.SourceEnd]
           eq_refl (or_introl eq_refl)).
Defined.

Lemma serveFile_fetches_at_most_once_witness :
  let served :=
    ServeFile.mkState false false
      [ServeFile.AddTarball; ServeFile.SaveAbort;
       ServeFile.FetchTarball (url remoteTarball)] in
  ServeFile.run [npmjs; mirror] allProxied "pkg" remoteTarball
    [ServeFile.SaveError (sysError "ENOSPC"); ServeFile.SaveOpen; ServeFile.FetchEnd]
    (ServeFile.serveFile [npmjs; mirror] allProxied "pkg" remoteTarball)
  = Some served
  /\ List.filter ServeFile.isFetch (ServeFile.calls served)
     = [ServeFile.FetchTarball (url remoteTarball)].
Proof.
  intros served. split; [reflexivity|].
  exact (serveFile_fetches_at_most_once [npmjs; mirror] allProxied "pkg"
           remoteTarball
           [ServeFile.SaveError (sysError "ENOSPC"); ServeFile.SaveOpen;
            ServeFile.FetchEnd]
           served eq_refl).
Defined.

Lemma serveFile_no_done_after_error_witness :
  let start := ServeFile.serveFile [npmjs; mirror] allProxied "pkg" remoteTarball in
  let failed :=
    ServeFile.mkState false false
      [ServeFile.AddTarball; ServeFile.SaveAbort;
       ServeFile.FetchTarball (url remoteTarball)] in
  ServeFile.step [npmjs; mirror] allProxied "pkg" remoteTarball
    (ServeFile.SaveError (sysError "ENOSPC")) start = Some failed
  /\ ServeFile.run [npmjs; mirror] allProxied "pkg" remoteTarball
       [ServeFile.SaveOpen; ServeFile.FetchEnd] failed = Some failed
  /\ List.filter ServeFile.isDone (ServeFile.calls failed)
     = List.filter ServeFile.isDone (ServeFile.calls start).
Proof.
  intros start failed. split; [reflexivity|]. split; [reflexivity|].
  exact (serveFile_no_done_after_error [npmjs; mirror] allProxied "pkg"
           remoteTarball (ServeFile.SaveError (sysError "ENOSPC"))
           [ServeFile.SaveOpen; ServeFile.FetchEnd]
           start failed failed eq_refl eq_refl eq_refl).
Defined.

Lemma deletePackage_unlinks_inside_root_witness :
  exists pathName answer,
    trace fsEnv (LocalFSCb.deletePackage "/storage/pkg" stripSeparators
                   "../../etc/passwd") publishedDisk
      = [(unlinkPromise pathName, answer)]
    /\ path.inside "/storage/pkg" pathName = true.
Proof.
  refine (deletePackage_unlinks_inside_root "/storage/pkg" stripSeparators fsEnv
            "../../etc/passwd" publishedDisk _ eq_refl _); discriminate.
Defined.
